(** * Road Hawk: the driver log and the auto-update watcher

    A shallow embedding of [trucking_log.py] and [auto_update.py], on the
    standard library of Python 3.11.

    - Python [float] is IEEE binary64, embedded as the kernel's primitive
      [float]; [float(s)] and [format(x, ".2f")] are written out on exact
      integer arithmetic and rounded once, to nearest even.
    - [str] is [string]; only ASCII is interpreted (white space, digits,
      letter case).
    - The file system is a finite map from relative paths to file contents.
      Directories, permissions and encodings are not modelled, so opening an
      existing file never fails; reading a csv file fails where a field is
      longer than the csv reader takes.
    - Console input is a list of pending lines, console output and the
      [logging] records are lists that grow at the end.
    - Exceptions are a result type threaded through a state monad. *)

From Stdlib Require Import ZArith String Ascii List Floats Lia DecimalString.
From stdpp Require Import gmap strings.
Import ListNotations.

Local Open Scope Z_scope.

(** ** Characters *)

Definition chr (n : nat) : ascii := ascii_of_nat n.
Definition LF : ascii := chr 10.
Definition CR : ascii := chr 13.
Definition DQUOTE : ascii := chr 34.
Definition COMMA : ascii := ","%char.

Definition ord (c : ascii) : Z := Z.of_nat (nat_of_ascii c).

Definition between (lo hi : Z) (c : ascii) : bool :=
  (lo <=? ord c) && (ord c <=? hi).

(** [str.isspace] on ASCII: tab to carriage return, the four separators
    FS GS RS US, and the space. *)
Definition isspace (c : ascii) : bool := between 9 13 c || between 28 32 c.

(** C's [isspace] in the C locale ([Py_ISSPACE]), what [float] strips. *)
Definition Py_ISSPACE (c : ascii) : bool := between 9 13 c || between 32 32 c.

Definition isdigit (c : ascii) : bool := between 48 57 c.

Definition isupper (c : ascii) : bool := between 65 90 c.

Definition tolower (c : ascii) : ascii :=
  if isupper c then ascii_of_nat (nat_of_ascii c + 32) else c.

(** ** [str] methods *)

Definition str_of (l : list ascii) : string := string_of_list_ascii l.
Definition chars (s : string) : list ascii := list_ascii_of_string s.

Fixpoint lower (s : string) : string :=
  match s with
  | EmptyString => EmptyString
  | String c r => String (tolower c) (lower r)
  end.

Fixpoint lstrip_with (sp : ascii -> bool) (s : string) : string :=
  match s with
  | EmptyString => EmptyString
  | String c r => if sp c then lstrip_with sp r else s
  end.

Fixpoint rstrip_with (sp : ascii -> bool) (s : string) : string :=
  match s with
  | EmptyString => EmptyString
  | String c r =>
      match rstrip_with sp r with
      | EmptyString => if sp c then EmptyString else String c EmptyString
      | r' => String c r'
      end
  end.

(** [s.strip()] *)
Definition strip (s : string) : string := rstrip_with isspace (lstrip_with isspace s).

(** [s.endswith(suffix)] *)
Fixpoint endswith (s suffix : string) : bool :=
  String.eqb s suffix ||
  match s with
  | EmptyString => false
  | String _ r => endswith r suffix
  end.

(** Case-insensitive comparison against a lower-case word. *)
Definition ieq (s word : string) : bool := String.eqb (lower s) word.

(** [sep.join(parts)] *)
Fixpoint join (sep : string) (parts : list string) : string :=
  match parts with
  | [] => EmptyString
  | [p] => p
  | p :: rest => p +:+ sep +:+ join sep rest
  end.

(** ** Floating point *)

(** *** [float(s)]

    CPython removes underscores that sit between two digits, strips C white
    space, and hands the rest to a correctly rounded [strtod] that accepts a
    sign, decimal digits with an optional point and an optional exponent;
    what [strtod] refuses may still be a signed [inf], [infinity] or [nan].
    [None] stands for [ValueError]. *)

Fixpoint strip_underscores (prev : ascii) (s : string) : option string :=
  match s with
  | EmptyString => if Ascii.eqb prev "_" then None else Some EmptyString
  | String c r =>
      if Ascii.eqb c "_" then
        if isdigit prev then strip_underscores c r else None
      else if Ascii.eqb prev "_" && negb (isdigit c) then None
      else String c <$> strip_underscores c r
  end.

Definition take_sign (s : string) : bool * string :=
  match s with
  | String c r =>
      if Ascii.eqb c "-" then (true, r)
      else if Ascii.eqb c "+" then (false, r)
      else (false, s)
  | EmptyString => (false, s)
  end.

(** The longest prefix of digits, and what follows it. *)
Fixpoint span_digits (s : string) : string * string :=
  match s with
  | String c r =>
      if isdigit c then let '(d, t) := span_digits r in (String c d, t)
      else (EmptyString, s)
  | EmptyString => (EmptyString, EmptyString)
  end.

Fixpoint digits_value (acc : Z) (s : string) : Z :=
  match s with
  | EmptyString => acc
  | String c r => digits_value (10 * acc + (ord c - 48)) r
  end.

(** The binary64 value nearest to [(-1)^neg * m * 10^e], ties to even. *)
Definition decimal_to_float (neg : bool) (m e : Z) : float :=
  SF2Prim
    match m with
    | Zpos p =>
        if 0 <=? e
        then binary_normalize prec emax (if neg then - (m * 10 ^ e) else m * 10 ^ e) 0 false
        else SFdiv prec emax (S754_finite neg p 0)
                             (S754_finite false (Z.to_pos (10 ^ (- e))) 0)
    | _ => S754_zero neg
    end.

Definition parse_exponent (s : string) : option Z :=
  match s with
  | EmptyString => Some 0
  | String c r =>
      if Ascii.eqb c "e" || Ascii.eqb c "E" then
        let '(eneg, r1) := take_sign r in
        let '(ed, r2) := span_digits r1 in
        match ed, r2 with
        | String _ _, EmptyString =>
            Some (if eneg then - digits_value 0 ed else digits_value 0 ed)
        | _, _ => None
        end
      else None
  end.

Definition parse_decimal (neg : bool) (s : string) : option float :=
  let '(ip, s2) := span_digits s in
  let '(fp, s3) :=
    match s2 with
    | String c r => if Ascii.eqb c "." then span_digits r else (EmptyString, s2)
    | EmptyString => (EmptyString, s2)
    end in
  match ip +:+ fp with
  | EmptyString => None
  | ds =>
      e ← parse_exponent s3;
      Some (decimal_to_float neg (digits_value 0 ds) (e - Z.of_nat (String.length fp)))
  end.

Definition parse_inf_or_nan (neg : bool) (s : string) : option float :=
  if ieq s "inf" || ieq s "infinity" then Some (if neg then neg_infinity else infinity)
  else if ieq s "nan" then Some nan
  else None.

Definition float_of_str (s : string) : option float :=
  s ← strip_underscores (chr 0) s;
  let '(neg, body) := take_sign (rstrip_with Py_ISSPACE (lstrip_with Py_ISSPACE s)) in
  match parse_decimal neg body with
  | Some x => Some x
  | None => parse_inf_or_nan neg body
  end.

(** *** [format(x, ".2f")] *)

(** The integer nearest to [n / d] for [0 < d], ties to even. *)
Definition round_half_even (n d : Z) : Z :=
  let q := n / d in
  match 2 * (n mod d) ?= d with
  | Lt => q
  | Gt => q + 1
  | Eq => if Z.even q then q else q + 1
  end.

(** [m * 2^e] in hundredths, rounded. *)
Definition hundredths (m : positive) (e : Z) : Z :=
  if 0 <=? e then Zpos m * 2 ^ e * 100
  else round_half_even (Zpos m * 100) (2 ^ (- e)).

Definition decimal (n : Z) : string := NilZero.string_of_uint (N.to_uint (Z.to_N n)).

Definition two_digits (n : Z) : string :=
  String (chr (Z.to_nat (48 + n / 10))) (String (chr (Z.to_nat (48 + n mod 10))) EmptyString).

(** [n] in decimal, zero-padded on the left to [width] digits. *)
Definition pad (width : nat) (n : Z) : string :=
  let d := decimal n in
  str_of (repeat "0"%char (width - String.length d)) +:+ d.

Definition sign_str (neg : bool) : string := if neg then "-" else EmptyString.

Definition format_2f (x : float) : string :=
  match Prim2SF x with
  | S754_nan => "nan"
  | S754_infinity s => sign_str s +:+ "inf"
  | S754_zero s => sign_str s +:+ "0.00"
  | S754_finite s m e =>
      let h := hundredths m e in
      sign_str s +:+ decimal (h / 100) +:+ "." +:+ two_digits (h mod 100)
  end.

(** Every character of [s] satisfies [p]. *)
Fixpoint all_chars (p : ascii -> bool) (s : string) : bool :=
  match s with
  | EmptyString => true
  | String c r => p c && all_chars p r
  end.

(** [s.isascii()] *)
Definition isascii (s : string) : bool := all_chars (fun c => ord c <? 128) s.

(** The characters of a plain amount: digits, the point and the minus. *)
Definition amount_char (c : ascii) : bool :=
  isdigit c || Ascii.eqb c "." || Ascii.eqb c "-".

(** ** Exceptions and effects *)

Inductive exn : Type :=
  | ValueError
  | EOFError
  | FileNotFoundError
  | csv_Error.

Inductive result (A : Type) : Type :=
  | Ok (a : A)
  | Raise (e : exn).
Arguments Ok {A} a.
Arguments Raise {A} e.

(** A computation over a state [S] that returns or raises; the state reached
    when an exception is raised is kept, as in Python. *)
Definition M (S A : Type) : Type := S -> result A * S.

#[global] Instance M_ret {S} : MRet (M S) := fun A a s => (Ok a, s).

#[global] Instance M_bind {S} : MBind (M S) := fun A B f m s =>
  match m s with
  | (Ok a, s') => f a s'
  | (Raise e, s') => (Raise e, s')
  end.

#[global] Instance M_fmap {S} : FMap (M S) := fun A B f m s =>
  match m s with
  | (Ok a, s') => (Ok (f a), s')
  | (Raise e, s') => (Raise e, s')
  end.

Definition raise {S A} (e : exn) : M S A := fun s => (Raise e, s).

(** [None] raises [e]. *)
Definition or_raise {S A} (e : exn) (o : option A) : M S A :=
  match o with
  | Some a => mret a
  | None => raise e
  end.

(** [try: a = body / except <catches>: handler / else: rest a], where every
    path of [handler] and [rest] ends the enclosing function. *)
Definition try_else {S A B} (body : M S A) (catches : exn -> bool)
    (handler : exn -> M S B) (rest : A -> M S B) : M S B := fun s =>
  match body s with
  | (Ok a, s') => rest a s'
  | (Raise e, s') => if catches e then handler e s' else (Raise e, s')
  end.

(** [try: body / except <catches>: handler] *)
Definition try_except {S A} (body : M S A) (catches : exn -> bool)
    (handler : exn -> M S A) : M S A :=
  try_else body catches handler mret.

(** [except Exception] *)
Definition Exception (e : exn) : bool := true.

(** [except ValueError] *)
Definition is_ValueError (e : exn) : bool :=
  match e with
  | ValueError => true
  | _ => false
  end.

(** [for x in l: body(x)] *)
Fixpoint for_each {S A} (l : list A) (body : A -> M S unit) : M S unit :=
  match l with
  | [] => mret tt
  | x :: rest => body x;; for_each rest body
  end.

(** ** The [csv] module, dialect [excel]

    Delimiter comma, quote character the double quote, doubled inside a
    quoted field, minimal quoting, line terminator CR LF. The reader is not
    strict, and takes fields of up to [field_size_limit] characters. *)

Definition CRLF : string := String CR (String LF EmptyString).

Definition special (c : ascii) : bool :=
  Ascii.eqb c COMMA || Ascii.eqb c DQUOTE || Ascii.eqb c CR || Ascii.eqb c LF.

Fixpoint has_special (s : string) : bool :=
  match s with
  | EmptyString => false
  | String c r => special c || has_special r
  end.

Fixpoint double_quotes (s : string) : string :=
  match s with
  | EmptyString => EmptyString
  | String c r =>
      if Ascii.eqb c DQUOTE then String DQUOTE (String DQUOTE (double_quotes r))
      else String c (double_quotes r)
  end.

Definition quoted (f : string) : string :=
  String DQUOTE (double_quotes f +:+ String DQUOTE EmptyString).

Definition csv_field (f : string) : string :=
  if has_special f then quoted f else f.

(** What [csv.writer(f).writerow(row)] writes to [f]. A record that would
    come out empty, a single empty field, is written quoted. *)
Definition writerow (row : list string) : string :=
  match row with
  | [EmptyString] => quoted EmptyString
  | _ => join "," (map csv_field row)
  end +:+ CRLF.

Definition writerows (rows : list (list string)) : string :=
  foldr (fun row text => writerow row +:+ text) EmptyString rows.

(** [csv.field_size_limit()], which the program leaves as it is: the
    longest field the reader takes, in characters. *)
Definition field_size_limit : Z := 131072.

(** The reader's [parse_add_char]: one more character of the field at hand.
    [None] where the field has reached the limit: the reader raises
    [_csv.Error], field larger than field limit. *)
Definition add_char (field : list ascii) (c : ascii) : option (list ascii) :=
  if field_size_limit <=? Z.of_nat (length field) then None else Some (field ++ [c]).

(** [csv.reader(f)] over a file opened with [newline=''], as the list of its
    records; [None] where it raises [_csv.Error]. The file object cuts lines
    after LF, CR or CR LF and leaves the terminators in place; the reader
    runs its parser over the characters of each line and over an end-of-line
    mark. Both are folded into one pass: [AFTER_CR] is [START_RECORD] where
    a line feed still belongs to the line end just seen. A field starts
    empty, so its first character always fits. *)
Inductive reader_state : Type :=
  | START_RECORD
  | AFTER_CR
  | START_FIELD
  | IN_FIELD
  | IN_QUOTED_FIELD
  | QUOTE_IN_QUOTED_FIELD.

Definition save_field (field : list ascii) (fields : list string) : list string :=
  fields ++ [str_of field].

Fixpoint csv_parse (st : reader_state) (field : list ascii) (fields : list string)
    (s : string) : option (list (list string)) :=
  match s with
  | EmptyString =>
      Some match st with
           | START_RECORD | AFTER_CR => []
           | _ => [save_field field fields]
           end
  | String c r =>
      let after_newline := if Ascii.eqb c CR then AFTER_CR else START_RECORD in
      let newline := Ascii.eqb c CR || Ascii.eqb c LF in
      match st with
      | START_RECORD | AFTER_CR | START_FIELD =>
          if match st with AFTER_CR => Ascii.eqb c LF | _ => false end
          then csv_parse START_RECORD [] [] r
          else if newline then
            match st with
            | START_FIELD => cons (save_field [] fields) <$> csv_parse after_newline [] [] r
            | _ => cons [] <$> csv_parse after_newline [] [] r
            end
          else if Ascii.eqb c DQUOTE then csv_parse IN_QUOTED_FIELD [] fields r
          else if Ascii.eqb c COMMA then csv_parse START_FIELD [] (save_field [] fields) r
          else csv_parse IN_FIELD [c] fields r
      | IN_FIELD =>
          if newline then cons (save_field field fields) <$> csv_parse after_newline [] [] r
          else if Ascii.eqb c COMMA then csv_parse START_FIELD [] (save_field field fields) r
          else field ← add_char field c; csv_parse IN_FIELD field fields r
      | IN_QUOTED_FIELD =>
          if Ascii.eqb c DQUOTE then csv_parse QUOTE_IN_QUOTED_FIELD field fields r
          else field ← add_char field c; csv_parse IN_QUOTED_FIELD field fields r
      | QUOTE_IN_QUOTED_FIELD =>
          if Ascii.eqb c DQUOTE
          then field ← add_char field c; csv_parse IN_QUOTED_FIELD field fields r
          else if Ascii.eqb c COMMA then csv_parse START_FIELD [] (save_field field fields) r
          else if newline then cons (save_field field fields) <$> csv_parse after_newline [] [] r
          else field ← add_char field c; csv_parse IN_FIELD field fields r
      end
  end.

(** The states a field may start in. *)
Definition field_start (st : reader_state) : Prop := st = START_RECORD \/ st = START_FIELD.

Definition csv_reader (text : string) : option (list (list string)) :=
  csv_parse START_RECORD [] [] text.

(** The fields the reader takes, and the rows made of them. *)
Definition within_limit (f : string) : bool :=
  Z.of_nat (String.length f) <=? field_size_limit.

Definition rows_within_limit (rows : list (list string)) : bool :=
  forallb (forallb within_limit) rows.

(** A row of [csv.DictReader]: the pairs of [zip(fieldnames, row)], then
    [None] for every field name the row is too short for. Later pairs win. *)
Definition dict : Type := list (string * option string).

Fixpoint dict_row (fieldnames row : list string) : dict :=
  match fieldnames, row with
  | k :: ks, v :: vs => (k, Some v) :: dict_row ks vs
  | ks, [] => map (fun k => (k, None)) ks
  | [], _ => []
  end.

(** [row.get(key)]: [None] when the key is absent. *)
Fixpoint dict_get (d : dict) (key : string) : option (option string) :=
  match d with
  | [] => None
  | (k, v) :: rest =>
      match dict_get rest key with
      | Some v' => Some v'
      | None => if String.eqb k key then Some v else None
      end
  end.

Definition is_blank (row : list string) : bool :=
  match row with
  | [] => true
  | _ => false
  end.

(** [csv.DictReader(f)], as the list of its rows: the first record names the
    fields, blank records after it are passed over. [None] where the reader
    raises [_csv.Error]; the rows read before are lost with it, the loops
    that read them keeping what they read in local variables. *)
Definition DictReader (text : string) : option (list dict) :=
  records ← csv_reader text;
  Some match records with
       | [] => []
       | fieldnames :: rows =>
           map (dict_row fieldnames) (filter (fun r => negb (is_blank r)) rows)
       end.

(** [float(row.get(key, 0) or 0)] *)
Definition float_of_field (v : option (option string)) : option float :=
  match v with
  | Some (Some (String c r)) => float_of_str (String c r)
  | _ => Some 0%float
  end.

(** ** [os.path] *)

(** [os.path.join(a, b)] *)
Definition is_absolute (path : string) : bool :=
  match path with
  | String c _ => Ascii.eqb c "/"
  | EmptyString => false
  end.

Definition path_join (a b : string) : string :=
  if is_absolute b then b
  else if String.eqb a EmptyString || endswith a "/" then a +:+ b
  else a +:+ "/" +:+ b.

Fixpoint has_slash (s : string) : bool :=
  match s with
  | EmptyString => false
  | String c r => Ascii.eqb c "/" || has_slash r
  end.

(** [os.path.basename(path)] *)
Fixpoint basename (path : string) : string :=
  match path with
  | EmptyString => EmptyString
  | String c r => if has_slash r then basename r else if Ascii.eqb c "/" then r else path
  end.

(** ** Text that is ASCII

    The embedding interprets ASCII only: what [strip], [lower], [float] and
    [splitlines] do with other characters is not modelled. *)

(** The file at [path], where there is one, is ASCII. *)
Definition ascii_file (fs : gmap string string) (path : string) : bool :=
  match fs !! path with
  | Some text => isascii text
  | None => true
  end.

(** Every file that lies directly in the working folder is ASCII. *)
Definition ascii_folder (fs : gmap string string) : bool :=
  forallb (fun entry => has_slash entry.1 || isascii entry.2) (map_to_list fs).

(** ** Files the csv reader reads *)

(** The file at [path], where there is one, is one the csv reader reads to
    its end: no field grows longer than [field_size_limit]. *)
Definition csv_readable (fs : gmap string string) (path : string) : bool :=
  match fs !! path with
  | Some text => bool_decide (is_Some (csv_reader text))
  | None => true
  end.

(** ** The driver log ([trucking_log.py]) *)

Module Logger.

(** *** The [datetime] and [zoneinfo] libraries

    Only the interface the logger uses. [fromisoformat] returns [None] where
    Python raises [ValueError]. *)
Class Datetime : Type := {
  datetime : Type;
  date : Type;
  fromisoformat : string -> option datetime;
  (** [dt.replace(tzinfo=DEFAULT_TIMEZONE)] *)
  replace_tzinfo : datetime -> datetime;
  (** [(end_dt - start_dt).total_seconds() / 3600.0] *)
  hours_between : datetime -> datetime -> float;
  isoformat : datetime -> string;
  (** [dt.date()] *)
  to_date : datetime -> date;
  date_isoformat : date -> string
}.

(** *** The world of the program *)

Inductive level : Type := INFO | WARNING | ERROR | CRITICAL.

Record world : Type := World {
  files : gmap string string;
  stdin : list string;
  stdout : list string;
  log : list (level * string)
}.

Definition with_files (f : gmap string string -> gmap string string) (w : world) : world :=
  World (f (files w)) (stdin w) (stdout w) (log w).

(** [print(line)] *)
Definition print (line : string) : M world unit := fun w =>
  (Ok tt, World (files w) (stdin w) (stdout w ++ [line]) (log w)).

(** [input(prompt)]: the prompt is written, then a line is read; the end of
    the input raises [EOFError]. *)
Definition input (prompt : string) : M world string := fun w =>
  match stdin w with
  | [] => (Raise EOFError, World (files w) [] (stdout w ++ [prompt]) (log w))
  | line :: rest => (Ok line, World (files w) rest (stdout w ++ [prompt]) (log w))
  end.

(** A [logging] call. The record keeps the message as the call gives it;
    arguments of a [%s] template are not interpolated. The handlers' targets
    (standard error and [driver_log_debug.log]) are kept apart from [files]. *)
Definition logging (l : level) (msg : string) : M world unit := fun w =>
  (Ok tt, World (files w) (stdin w) (stdout w) (log w ++ [(l, msg)])).

(** [os.path.isfile(path)] and [os.path.exists(path)] *)
Definition isfile (path : string) : M world bool := fun w =>
  (Ok (bool_decide (is_Some (files w !! path))), w).

(** [f.write(text)] on [open(path, mode='a', newline='')] *)
Definition append_file (path text : string) : M world unit := fun w =>
  (Ok tt, with_files (fun fs => <[path := default EmptyString (fs !! path) +:+ text]> fs) w).

(** [f.write(text)] on [open(path, mode='w', newline='')] *)
Definition write_file (path text : string) : M world unit := fun w =>
  (Ok tt, with_files (fun fs => <[path := text]> fs) w).

(** [open(path, mode='r', newline='')], read to the end *)
Definition read_file (path : string) : M world string := fun w =>
  match files w !! path with
  | Some text => (Ok text, w)
  | None => (Raise FileNotFoundError, w)
  end.

(** *** Constants and configuration *)

Definition PAY_RATE_PER_MILE : float := 0.5%float.
(** The literal is read as Python reads it: the binary64 value nearest to 0.8. *)
#[warnings="-inexact-float"]
Definition OWNER_OPERATOR_PERCENTAGE : float := 0.8%float.

(** *** [write_to_csv] *)

Definition write_to_csv (filename : string) (header data_row : list string) : M world unit :=
  try_except
    (file_exists ← isfile filename;
     (if negb file_exists then append_file filename (writerow header) else mret tt);;
     append_file filename (writerow data_row))
    Exception
    (fun e =>
       logging ERROR "Failed to write to %s: %s";;
       print ("Error: Could not write to " +:+ filename +:+ ". Please check permissions or path.")).

(** The text of a file after one more row. *)
Definition appended (header row : list string) (old : option string) : string :=
  match old with
  | Some text => text +:+ writerow row
  | None => writerow header +:+ writerow row
  end.

(** A [trips.csv] or [expenses.csv] as [write_to_csv] leaves it: absent, or
    the header and then rows, each as the writer writes it. *)
Definition csv_kept (header : list string) (old : option string) : Prop :=
  old = None \/ exists rows, old = Some (writerow header +:+ writerows rows).

(** *** [calculate_pay] *)

Definition calculate_pay (driver_type : string) (miles revenue : float) : M world float :=
  if String.eqb driver_type "company" then mret (miles * PAY_RATE_PER_MILE)%float
  else if String.eqb driver_type "owner" then mret (revenue * OWNER_OPERATOR_PERCENTAGE)%float
  else (logging WARNING "Unknown driver type '%s'. Pay set to 0.";; mret 0%float).

Section WithDatetime.
Context `{Datetime}.

(** *** [log_expense_record] *)

Definition expense_header : list string := ["Date"; "DriverName"; "Amount"; "Description"].

Definition log_expense_record (driver_name : string) (amount : float)
    (description : string) (d : date) : M world unit :=
  let data_row := [date_isoformat d; driver_name; format_2f amount; description] in
  write_to_csv "expenses.csv" expense_header data_row;;
  logging INFO ("Expense logged: " +:+ driver_name +:+ " - $" +:+ format_2f amount
                +:+ " for " +:+ description +:+ ".").

(** *** [log_trip] *)

Definition trip_header : list string :=
  ["TripID"; "DriverName"; "DriverType"; "StartTime"; "EndTime";
   "DurationHours"; "Miles"; "Pay"; "ExpenseAmount"; "ExpenseDescription"].

(** [input(prompt).strip()] *)
Definition input_strip (prompt : string) : M world string :=
  s ← input prompt; mret (strip s).

(** [float(input(prompt).strip())] *)
Definition input_float (prompt : string) : M world float :=
  s ← input_strip prompt; or_raise ValueError (float_of_str s).

(** [x or y] on strings *)
Definition str_or (x y : string) : string :=
  match x with
  | EmptyString => y
  | _ => x
  end.

Definition log_trip : M world unit :=
  try_except
    (trip_id ← input_strip "Enter Trip ID: ";
     driver_name ← input_strip "Enter Driver Name: ";
     driver_type ← lower <$> input_strip "Enter Driver Type (company/owner): ";
     start_time_str ← input_strip "Enter Start Time (YYYY-MM-DD HH:MM, local time): ";
     end_time_str ← input_strip "Enter End Time (YYYY-MM-DD HH:MM, local time): ";
     try_else
       (start_dt ← or_raise ValueError (fromisoformat start_time_str);
        end_dt ← or_raise ValueError (fromisoformat end_time_str);
        mret (start_dt, end_dt))
       Exception
       (fun e =>
          logging ERROR "Invalid date/time format. Please use YYYY-MM-DD HH:MM. Error: %s";;
          print "Error: Invalid date/time format. Trip not logged.")
       (fun '(start_dt, end_dt) =>
          let start_dt := replace_tzinfo start_dt in
          let end_dt := replace_tzinfo end_dt in
          let duration_hours := hours_between end_dt start_dt in
          try_else
            (input_float "Enter miles driven: ")
            is_ValueError
            (fun e =>
               logging ERROR "Miles must be a numeric value.";;
               print "Error: Miles must be a number. Trip not logged.")
            (fun miles =>
               let rest (revenue : float) : M world unit :=
                 pay ← calculate_pay driver_type miles revenue;
                 add_expense ← lower <$> input_strip "Any expense to log for this trip? (y/n): ";
                 '(expense_amount, expense_desc) ←
                   (if String.eqb add_expense "y" then
                      try_else
                        (input_float "  Enter expense amount: ")
                        is_ValueError
                        (fun e =>
                           logging ERROR "Expense amount must be numeric.";;
                           print "Error: Expense amount must be a number. Expense not logged for trip.";;
                           mret (0%float, EmptyString))
                        (fun expense_amount =>
                           expense_desc ← input_strip "  Enter expense description: ";
                           log_expense_record (str_or driver_name "General") expense_amount
                             expense_desc (to_date start_dt);;
                           mret (expense_amount, expense_desc))
                    else mret (0%float, EmptyString));
                 let data_row :=
                   [trip_id; driver_name; driver_type; isoformat start_dt; isoformat end_dt;
                    format_2f duration_hours; format_2f miles; format_2f pay;
                    format_2f expense_amount; expense_desc] in
                 write_to_csv "trips.csv" trip_header data_row;;
                 print ("Trip " +:+ trip_id +:+ " logged successfully.");;
                 logging INFO ("Logged trip " +:+ trip_id +:+ " for driver " +:+ driver_name +:+ ".")
               in
               if String.eqb driver_type "owner" then
                 try_else
                   (input_float "Enter revenue for this trip (owner-operator): ")
                   is_ValueError
                   (fun e =>
                      logging ERROR "Revenue must be a numeric value.";;
                      print "Error: Revenue must be a number. Trip not logged.")
                   rest
               else rest 0%float)))
    Exception
    (fun e =>
       logging ERROR "Unexpected error in log_trip: %s";;
       print "An error occurred while logging the trip. Please check the log for details.").

(** *** [log_expense] *)

Definition log_expense : M world unit :=
  try_else
    (driver_name ← input_strip "Enter Driver Name (or leave blank for general expense): ";
     let driver_name := if String.eqb driver_name EmptyString then "General" else driver_name in
     amount ← input_float "Enter expense amount: ";
     description ← input_strip "Enter expense description: ";
     date_str ← input_strip "Enter date of expense (YYYY-MM-DD): ";
     try_else
       (to_date <$> or_raise ValueError (fromisoformat date_str))
       Exception
       (fun e =>
          logging ERROR "Invalid date format for expense.";;
          print "Error: Invalid date format. Use YYYY-MM-DD.")
       (fun d =>
          log_expense_record driver_name amount description d;;
          print "Expense logged successfully."))
    Exception
    (fun e =>
       if is_ValueError e then
         logging ERROR "Expense amount must be numeric.";;
         print "Error: Expense amount must be a number. Expense not logged."
       else
         logging ERROR "Unexpected error in log_expense: %s";;
         print "An error occurred while logging the expense.")
    mret.

End WithDatetime.

(** *** [export_data] *)

(** One turn of the loop over [trips.csv]: the two totals are updated in
    turn, and a [ValueError] leaves the loop body where it is raised. *)
Definition add_trip_row (totals : float * float) (row : dict) : float * float :=
  let '(total_miles, total_pay) := totals in
  match float_of_field (dict_get row "Miles") with
  | None => (total_miles, total_pay)
  | Some miles =>
      let total_miles := (total_miles + miles)%float in
      match float_of_field (dict_get row "Pay") with
      | None => (total_miles, total_pay)
      | Some pay => (total_miles, (total_pay + pay)%float)
      end
  end.

(** One turn of the loop over [expenses.csv]. *)
Definition add_expense_row (total_expenses : float) (row : dict) : float :=
  match float_of_field (dict_get row "Amount") with
  | None => total_expenses
  | Some amount => (total_expenses + amount)%float
  end.

Definition summary_rows (total_miles total_pay total_expenses : float) : list (list string) :=
  [["Total Miles"; format_2f total_miles];
   ["Total Pay"; "$" +:+ format_2f total_pay];
   ["Total Expenses"; "$" +:+ format_2f total_expenses]].

Definition summary_file : string := "exports/summary.csv".

Definition export_data : M world unit :=
  try_except
    ('(total_miles, total_pay) ←
       (trips_exist ← isfile "trips.csv";
        if trips_exist : bool then
          text ← read_file "trips.csv";
          rows ← or_raise csv_Error (DictReader text);
          mret (fold_left add_trip_row rows (0%float, 0%float))
        else mret (0%float, 0%float) : M world (float * float));
     total_expenses ←
       (expenses_exist ← isfile "expenses.csv";
        if expenses_exist : bool then
          text ← read_file "expenses.csv";
          rows ← or_raise csv_Error (DictReader text);
          mret (fold_left add_expense_row rows 0%float)
        else mret 0%float : M world float);
     write_file summary_file
       (writerow ["Metric"; "Amount"]
        +:+ writerows (summary_rows total_miles total_pay total_expenses));;
     print "Data export complete. Summary saved to 'exports/summary.csv'.";;
     logging INFO "Data exported successfully. Summary report generated.")
    Exception
    (fun e =>
       logging ERROR "Unexpected error in export_data: %s";;
       print "An error occurred during data export. Check the log for details.").

(** *** [upload_receipt]

    Paths are keys of the file map as the operator types them. *)

(** [shutil.copy(src, dst)] *)
Definition shutil_copy (src dst : string) : M world unit :=
  text ← read_file src;
  write_file dst text.

Definition upload_receipt : M world unit :=
  file_path ← input_strip "Enter the path to the receipt/document file: ";
  found ← isfile file_path;
  if negb found then
    logging ERROR "Receipt upload failed - file not found: %s";;
    print "Error: File not found. Please check the path and try again."
  else
    try_except
      (let file_name := basename file_path in
       let dest_path := path_join "receipts" file_name in
       shutil_copy file_path dest_path;;
       print ("Receipt '" +:+ file_name +:+ "' uploaded to the 'receipts' folder.");;
       logging INFO ("Uploaded receipt '" +:+ file_name +:+ "' to receipts directory."))
      Exception
      (fun e =>
         logging ERROR "Failed to upload receipt: %s";;
         print "Error: Could not upload the file. Please check the log for details.").

(** *** [main_menu]

    The loop, for a number of turns. Every turn reads at least the choice,
    so on a finite input the loop ends, at the latest with [EOFError]. *)

Section Menu.
Context `{Datetime}.

Definition menu_lines : list string :=
  [String LF "Driver Log Menu:"; "1. Log a new trip"; "2. Log an expense";
   "3. Upload a receipt/document"; "4. Export data (summary report)"; "5. Exit"].

Fixpoint main_menu (turns : nat) : M world unit :=
  match turns with
  | O => mret tt
  | S n =>
      for_each menu_lines print;;
      choice ← input_strip "Enter your choice: ";
      if String.eqb choice "1" then log_trip;; main_menu n
      else if String.eqb choice "2" then log_expense;; main_menu n
      else if String.eqb choice "3" then upload_receipt;; main_menu n
      else if String.eqb choice "4" then export_data;; main_menu n
      else if String.eqb choice "5" then print "Exiting Driver Log. Goodbye!"
      else (print "Invalid choice. Please enter a number from 1-5.";; main_menu n)
  end.

(** The script: [main_menu] under the handler of last resort. *)
Definition main (turns : nat) : M world unit :=
  try_except (main_menu turns) Exception
    (fun e =>
       logging CRITICAL "Fatal error in main loop: %s";;
       print "A critical error occurred. Please check 'driver_log_debug.log' for details.").

End Menu.

(** What an operation of the menu may do to the loop: return, having read
    some of the pending input, or raise [EOFError] at the end of the input. *)
Definition menu_operation (op : M world unit) : Prop :=
  forall w,
    (length (stdin (op w).2) <= length (stdin w))%nat
    /\ ((op w).1 = Ok tt \/ (op w).1 = Raise EOFError /\ stdin (op w).2 = []).

(** How the loop ends on a finite input: by the choice of the exit, or by
    [EOFError] when the input is used up. *)
Definition menu_ended (r : result unit * world) : Prop :=
  r.1 = Ok tt /\ last (stdout r.2) = Some "Exiting Driver Log. Goodbye!"
  \/ r.1 = Raise EOFError /\ stdin r.2 = [].

(** The rows a loop of [export_data] runs over: those of the file, none
    where there is no file; [None] where the reader raises. *)
Definition rows_of (fs : gmap string string) (path : string) : option (list dict) :=
  match fs !! path with
  | Some text => DictReader text
  | None => Some []
  end.

(** The totals [export_data] reaches over a file system, and the text it
    writes for them. *)
Definition trip_totals (fs : gmap string string) : option (float * float) :=
  rows ← rows_of fs "trips.csv"; Some (fold_left add_trip_row rows (0%float, 0%float)).

Definition expense_total (fs : gmap string string) : option float :=
  rows ← rows_of fs "expenses.csv"; Some (fold_left add_expense_row rows 0%float).

Definition summary_text (total_miles total_pay total_expenses : float) : string :=
  writerow ["Metric"; "Amount"] +:+ writerows (summary_rows total_miles total_pay total_expenses).

(** *** A [Datetime] to run the program on

    Wall-clock minutes in America/New_York. [fromisoformat] reads
    [YYYY-MM-DD] and [YYYY-MM-DD HH:MM], with any character for the blank:
    the two shapes the prompts ask for. It refuses every other string, among
    them further forms that Python reads (seconds, an offset, week dates),
    so it stands for the library on strings of these two shapes only. The
    zone is the one of the tz database: local mean time up to 1883-11-18
    12:03:58, then Eastern time, with daylight saving time as New York had
    it year by year up to 2006, and from 2007 on by the rule in force since,
    from 03:00 on the second Sunday of March to 02:00 on the first Sunday of
    November. A wall-clock time that a change of the clocks skips or repeats
    is taken as [replace] leaves it, with [fold=0]: at the offset in force
    before the change. Two times of the same zone are subtracted as wall-clock
    times. *)

Record minute_stamp : Type := Stamp {
  year : Z; month : Z; day : Z; hour : Z; minute : Z
}.

Definition leap (y : Z) : bool :=
  (y mod 4 =? 0) && (negb (y mod 100 =? 0) || (y mod 400 =? 0)).

Definition days_in_month (y m : Z) : Z :=
  if m =? 2 then (if leap y then 29 else 28)
  else if (m =? 4) || (m =? 6) || (m =? 9) || (m =? 11) then 30
  else 31.

(** Days since 1970-01-01. *)
Definition days_from_civil (y m d : Z) : Z :=
  let y := if m <=? 2 then y - 1 else y in
  let era := y / 400 in
  let yoe := y - era * 400 in
  let doy := (153 * (if 2 <? m then m - 3 else m + 9) + 2) / 5 + d - 1 in
  let doe := yoe * 365 + yoe / 4 - yoe / 100 + doy in
  era * 146097 + doe - 719468.

Definition wall_seconds (t : minute_stamp) : Z :=
  ((days_from_civil (year t) (month t) (day t) * 24 + hour t) * 60 + minute t) * 60.

Definition number (s : string) : option Z :=
  match span_digits s with
  | (String c r, EmptyString) => Some (digits_value 0 (String c r))
  | _ => None
  end.

Definition check_stamp (t : minute_stamp) : option minute_stamp :=
  if (1 <=? year t) && (1 <=? month t) && (month t <=? 12) && (1 <=? day t)
     && (day t <=? days_in_month (year t) (month t)) && (hour t <=? 23) && (minute t <=? 59)
  then Some t else None.

Definition parse_date (s : string) : option minute_stamp :=
  match chars s with
  | [y1; y2; y3; y4; d1; m1; m2; d2; a1; a2] =>
      if Ascii.eqb d1 "-" && Ascii.eqb d2 "-" then
        y ← number (str_of [y1; y2; y3; y4]);
        m ← number (str_of [m1; m2]);
        d ← number (str_of [a1; a2]);
        check_stamp (Stamp y m d 0 0)
      else None
  | _ => None
  end.

Definition parse_stamp (s : string) : option minute_stamp :=
  match chars s with
  | [y1; y2; y3; y4; d1; m1; m2; d2; a1; a2] => parse_date s
  | [y1; y2; y3; y4; d1; m1; m2; d2; a1; a2; sep; h1; h2; colon; n1; n2] =>
      if Ascii.eqb colon ":" then
        t ← parse_date (str_of [y1; y2; y3; y4; d1; m1; m2; d2; a1; a2]);
        h ← number (str_of [h1; h2]);
        n ← number (str_of [n1; n2]);
        check_stamp (Stamp (year t) (month t) (day t) h n)
      else None
  | _ => None
  end.

Definition date_text (t : minute_stamp) : string :=
  pad 4 (year t) +:+ "-" +:+ pad 2 (month t) +:+ "-" +:+ pad 2 (day t).

(** The day of the month of the first Sunday; 1970-01-01 was a Thursday. *)
Definition first_sunday (y m : Z) : Z :=
  1 + (7 - (days_from_civil y m 1 + 4) mod 7) mod 7.

(** [a <= t < b] on the wall clock. *)
Definition from_to (a b t : minute_stamp) : bool :=
  (wall_seconds a <=? wall_seconds t) && (wall_seconds t <? wall_seconds b).

(** Daylight saving time in New York up to 2006, war time included: from
    03:00 on the first day to 02:00 on the last. *)
Definition dst_until_2006 : list (minute_stamp * minute_stamp) :=
  [(Stamp 1918 3 31 3 0, Stamp 1918 10 27 2 0); (Stamp 1919 3 30 3 0, Stamp 1919 10 26 2 0);
   (Stamp 1920 3 28 3 0, Stamp 1920 10 31 2 0); (Stamp 1921 4 24 3 0, Stamp 1921 9 25 2 0);
   (Stamp 1922 4 30 3 0, Stamp 1922 9 24 2 0); (Stamp 1923 4 29 3 0, Stamp 1923 9 30 2 0);
   (Stamp 1924 4 27 3 0, Stamp 1924 9 28 2 0); (Stamp 1925 4 26 3 0, Stamp 1925 9 27 2 0);
   (Stamp 1926 4 25 3 0, Stamp 1926 9 26 2 0); (Stamp 1927 4 24 3 0, Stamp 1927 9 25 2 0);
   (Stamp 1928 4 29 3 0, Stamp 1928 9 30 2 0); (Stamp 1929 4 28 3 0, Stamp 1929 9 29 2 0);
   (Stamp 1930 4 27 3 0, Stamp 1930 9 28 2 0); (Stamp 1931 4 26 3 0, Stamp 1931 9 27 2 0);
   (Stamp 1932 4 24 3 0, Stamp 1932 9 25 2 0); (Stamp 1933 4 30 3 0, Stamp 1933 9 24 2 0);
   (Stamp 1934 4 29 3 0, Stamp 1934 9 30 2 0); (Stamp 1935 4 28 3 0, Stamp 1935 9 29 2 0);
   (Stamp 1936 4 26 3 0, Stamp 1936 9 27 2 0); (Stamp 1937 4 25 3 0, Stamp 1937 9 26 2 0);
   (Stamp 1938 4 24 3 0, Stamp 1938 9 25 2 0); (Stamp 1939 4 30 3 0, Stamp 1939 9 24 2 0);
   (Stamp 1940 4 28 3 0, Stamp 1940 9 29 2 0); (Stamp 1941 4 27 3 0, Stamp 1941 9 28 2 0);
   (Stamp 1942 2 9 3 0, Stamp 1945 9 30 2 0); (Stamp 1946 4 28 3 0, Stamp 1946 9 29 2 0);
   (Stamp 1947 4 27 3 0, Stamp 1947 9 28 2 0); (Stamp 1948 4 25 3 0, Stamp 1948 9 26 2 0);
   (Stamp 1949 4 24 3 0, Stamp 1949 9 25 2 0); (Stamp 1950 4 30 3 0, Stamp 1950 9 24 2 0);
   (Stamp 1951 4 29 3 0, Stamp 1951 9 30 2 0); (Stamp 1952 4 27 3 0, Stamp 1952 9 28 2 0);
   (Stamp 1953 4 26 3 0, Stamp 1953 9 27 2 0); (Stamp 1954 4 25 3 0, Stamp 1954 9 26 2 0);
   (Stamp 1955 4 24 3 0, Stamp 1955 10 30 2 0); (Stamp 1956 4 29 3 0, Stamp 1956 10 28 2 0);
   (Stamp 1957 4 28 3 0, Stamp 1957 10 27 2 0); (Stamp 1958 4 27 3 0, Stamp 1958 10 26 2 0);
   (Stamp 1959 4 26 3 0, Stamp 1959 10 25 2 0); (Stamp 1960 4 24 3 0, Stamp 1960 10 30 2 0);
   (Stamp 1961 4 30 3 0, Stamp 1961 10 29 2 0); (Stamp 1962 4 29 3 0, Stamp 1962 10 28 2 0);
   (Stamp 1963 4 28 3 0, Stamp 1963 10 27 2 0); (Stamp 1964 4 26 3 0, Stamp 1964 10 25 2 0);
   (Stamp 1965 4 25 3 0, Stamp 1965 10 31 2 0); (Stamp 1966 4 24 3 0, Stamp 1966 10 30 2 0);
   (Stamp 1967 4 30 3 0, Stamp 1967 10 29 2 0); (Stamp 1968 4 28 3 0, Stamp 1968 10 27 2 0);
   (Stamp 1969 4 27 3 0, Stamp 1969 10 26 2 0); (Stamp 1970 4 26 3 0, Stamp 1970 10 25 2 0);
   (Stamp 1971 4 25 3 0, Stamp 1971 10 31 2 0); (Stamp 1972 4 30 3 0, Stamp 1972 10 29 2 0);
   (Stamp 1973 4 29 3 0, Stamp 1973 10 28 2 0); (Stamp 1974 1 6 3 0, Stamp 1974 10 27 2 0);
   (Stamp 1975 2 23 3 0, Stamp 1975 10 26 2 0); (Stamp 1976 4 25 3 0, Stamp 1976 10 31 2 0);
   (Stamp 1977 4 24 3 0, Stamp 1977 10 30 2 0); (Stamp 1978 4 30 3 0, Stamp 1978 10 29 2 0);
   (Stamp 1979 4 29 3 0, Stamp 1979 10 28 2 0); (Stamp 1980 4 27 3 0, Stamp 1980 10 26 2 0);
   (Stamp 1981 4 26 3 0, Stamp 1981 10 25 2 0); (Stamp 1982 4 25 3 0, Stamp 1982 10 31 2 0);
   (Stamp 1983 4 24 3 0, Stamp 1983 10 30 2 0); (Stamp 1984 4 29 3 0, Stamp 1984 10 28 2 0);
   (Stamp 1985 4 28 3 0, Stamp 1985 10 27 2 0); (Stamp 1986 4 27 3 0, Stamp 1986 10 26 2 0);
   (Stamp 1987 4 5 3 0, Stamp 1987 10 25 2 0); (Stamp 1988 4 3 3 0, Stamp 1988 10 30 2 0);
   (Stamp 1989 4 2 3 0, Stamp 1989 10 29 2 0); (Stamp 1990 4 1 3 0, Stamp 1990 10 28 2 0);
   (Stamp 1991 4 7 3 0, Stamp 1991 10 27 2 0); (Stamp 1992 4 5 3 0, Stamp 1992 10 25 2 0);
   (Stamp 1993 4 4 3 0, Stamp 1993 10 31 2 0); (Stamp 1994 4 3 3 0, Stamp 1994 10 30 2 0);
   (Stamp 1995 4 2 3 0, Stamp 1995 10 29 2 0); (Stamp 1996 4 7 3 0, Stamp 1996 10 27 2 0);
   (Stamp 1997 4 6 3 0, Stamp 1997 10 26 2 0); (Stamp 1998 4 5 3 0, Stamp 1998 10 25 2 0);
   (Stamp 1999 4 4 3 0, Stamp 1999 10 31 2 0); (Stamp 2000 4 2 3 0, Stamp 2000 10 29 2 0);
   (Stamp 2001 4 1 3 0, Stamp 2001 10 28 2 0); (Stamp 2002 4 7 3 0, Stamp 2002 10 27 2 0);
   (Stamp 2003 4 6 3 0, Stamp 2003 10 26 2 0); (Stamp 2004 4 4 3 0, Stamp 2004 10 31 2 0);
   (Stamp 2005 4 3 3 0, Stamp 2005 10 30 2 0); (Stamp 2006 4 2 3 0, Stamp 2006 10 29 2 0)].

Definition dst_since_2007 (t : minute_stamp) : bool :=
  from_to (Stamp (year t) 3 (first_sunday (year t) 3 + 7) 3 0)
          (Stamp (year t) 11 (first_sunday (year t) 11) 2 0) t.

Definition daylight_saving (t : minute_stamp) : bool :=
  if 2007 <=? year t then dst_since_2007 t
  else existsb (fun interval => from_to interval.1 interval.2 t) dst_until_2006.

(** [dt.utcoffset()], as [isoformat] prints it. *)
Definition utcoffset (t : minute_stamp) : string :=
  if wall_seconds t <? wall_seconds (Stamp 1883 11 18 12 4) then "-04:56:02"
  else if daylight_saving t then "-04:00"
  else "-05:00".

#[global] Instance minute_datetime : Datetime := {|
  datetime := minute_stamp;
  date := minute_stamp;
  fromisoformat := parse_stamp;
  replace_tzinfo := id;
  hours_between := fun end_dt start_dt =>
    (SF2Prim (binary_normalize prec emax (wall_seconds end_dt - wall_seconds start_dt) 0 false)
     / 3600)%float;
  isoformat := fun t =>
    date_text t +:+ "T" +:+ pad 2 (hour t) +:+ ":" +:+ pad 2 (minute t) +:+ ":00"
    +:+ utcoffset t;
  to_date := fun t => Stamp (year t) (month t) (day t) 0 0;
  date_isoformat := date_text
|}.

(** *** Sample runs *)

(** A company trip of 100 miles, with an expense whose amount is not a number. *)
Definition trip_with_bad_expense : list string :=
  ["T1"; "Ann"; "company"; "2024-01-01 08:00"; "2024-01-01 10:30"; "100"; "y"; "abc"].

Definition trip_row_T1 : list string :=
  ["T1"; "Ann"; "company"; "2024-01-01T08:00:00-05:00"; "2024-01-01T10:30:00-05:00";
   "2.50"; "100.00"; "50.00"; "0.00"; EmptyString].

(** A [trips.csv] whose one row has Miles 10.00 and a Pay that is no number. *)
Definition trips_bad_pay : string :=
  writerows [trip_header;
             ["T1"; "Ann"; "company"; "2024-01-01T08:00:00-05:00"; "2024-01-01T10:30:00-05:00";
              "2.50"; "10.00"; "abc"; "0.00"; EmptyString]].

(** A company trip of 100 miles without an expense. *)
Definition trip_company_100 : list string :=
  ["T1"; "Ann"; "company"; "2024-01-01 08:00"; "2024-01-01 10:30"; "100"; "n"].

(** The same answers, where [trips.csv] exists and is empty. *)
Definition empty_trips_world : world :=
  World {[ "trips.csv" := EmptyString ]} trip_company_100 [] [].

(** A description one character longer than the csv reader takes, an
    [expenses.csv] with it, and a summary of an earlier export. *)
Definition long_description : string :=
  str_of (repeat "x"%char (Z.to_nat (field_size_limit + 1))).

Definition long_expense_world : world :=
  World {[ "expenses.csv" :=
            writerow expense_header
            +:+ writerows [["2024-01-05"; "Ann"; "10.00"; long_description]];
           summary_file := "kept" ]} [] [] [].

End Logger.

(** ** The update watcher ([auto_update.py])

    The file holds two scripts, one after the other: Variant A gates the
    update on a diff, Variant B always installs. Console output is not
    modelled here. *)

Module Updater.

(** *** Paths *)

(** The key a relative path has in the file map: leading [./] are dropped. *)
Fixpoint norm (path : string) : string :=
  match path with
  | String c (String c2 r) => if Ascii.eqb c "." && Ascii.eqb c2 "/" then norm r else path
  | _ => path
  end.

Fixpoint strip_prefix (p s : string) : option string :=
  match p, s with
  | EmptyString, _ => Some s
  | String a p', String b s' => if Ascii.eqb a b then strip_prefix p' s' else None
  | _, _ => None
  end.

(** *** Text files *)

(** Reading in text mode translates CR LF and CR to LF. *)
Fixpoint universal_newlines (s : string) : string :=
  match s with
  | EmptyString => EmptyString
  | String c r =>
      if Ascii.eqb c CR then
        String LF
          match r with
          | String c2 r2 => if Ascii.eqb c2 LF then universal_newlines r2 else universal_newlines r
          | EmptyString => EmptyString
          end
      else String c (universal_newlines r)
  end.

Definition line_of (cur : list ascii) : list string :=
  match cur with
  | [] => []
  | _ => [str_of cur]
  end.

(** [f.readlines()] on translated text: lines end after LF. *)
Fixpoint readlines_from (cur : list ascii) (s : string) : list string :=
  match s with
  | EmptyString => line_of cur
  | String c r =>
      if Ascii.eqb c LF then str_of (cur ++ [c]) :: readlines_from [] r
      else readlines_from (cur ++ [c]) r
  end.

Definition readlines (text : string) : list string := readlines_from [] text.

(** The ASCII line boundaries of [str.splitlines]: LF, VT, FF, CR, FS, GS, RS. *)
Definition line_boundary (c : ascii) : bool := between 10 13 c || between 28 30 c.

(** [s.splitlines(keepends=True)]; CR LF is one boundary. *)
Fixpoint splitlines_from (cur : list ascii) (s : string) : list string :=
  match s with
  | EmptyString => line_of cur
  | String c r =>
      if Ascii.eqb c CR then
        match r with
        | String c2 r2 =>
            if Ascii.eqb c2 LF then str_of (cur ++ [c; c2]) :: splitlines_from [] r2
            else str_of (cur ++ [c]) :: splitlines_from [] r
        | EmptyString => [str_of (cur ++ [c])]
        end
      else if line_boundary c then str_of (cur ++ [c]) :: splitlines_from [] r
      else splitlines_from (cur ++ [c]) r
  end.

Definition splitlines (s : string) : list string := splitlines_from [] s.

(** *** [difflib]

    [unified_diff] is taken by its contract: it yields no line exactly when
    the two sequences are equal. *)
Class Difflib : Type := {
  unified_diff : list string -> list string -> list string;
  unified_diff_nil : forall a b, unified_diff a b = [] <-> a = b
}.

(** *** The clock *)

Record struct_time : Type := StructTime {
  tm_year : Z; tm_mon : Z; tm_mday : Z; tm_hour : Z; tm_min : Z; tm_sec : Z
}.

(** [time.strftime("%Y%m%d-%H%M%S", t)] *)
Definition strftime (t : struct_time) : string :=
  pad 4 (tm_year t) +:+ pad 2 (tm_mon t) +:+ pad 2 (tm_mday t) +:+ "-"
  +:+ pad 2 (tm_hour t) +:+ pad 2 (tm_min t) +:+ pad 2 (tm_sec t).

(** The fields [strftime] prints are in range. *)
Definition in_range (t : struct_time) : Prop :=
  0 <= tm_year t < 10000 /\ 0 <= tm_mon t < 100 /\ 0 <= tm_mday t < 100
  /\ 0 <= tm_hour t < 100 /\ 0 <= tm_min t < 100 /\ 0 <= tm_sec t < 100.

(** *** The world of the watcher: the files, and the local time each
    successive reading of the clock returns. *)
Record world : Type := World {
  files : gmap string string;
  clock : nat -> struct_time;
  tick : nat
}.

Definition with_files (f : gmap string string -> gmap string string) (w : world) : world :=
  World (f (files w)) (clock w) (tick w).

(** [time.strftime("%Y%m%d-%H%M%S")] *)
Definition time_strftime : M world string := fun w =>
  (Ok (strftime (clock w (tick w))), World (files w) (clock w) (S (tick w))).

(** [os.path.exists(path)] *)
Definition path_exists (path : string) : M world bool := fun w =>
  (Ok (bool_decide (is_Some (files w !! norm path))), w).

Definition read_bytes (path : string) : M world string := fun w =>
  match files w !! norm path with
  | Some text => (Ok text, w)
  | None => (Raise FileNotFoundError, w)
  end.

(** [open(path, "r", encoding="utf-8").read()] *)
Definition read_text (path : string) : M world string :=
  universal_newlines <$> read_bytes path.

Definition modify_files (f : gmap string string -> gmap string string) : M world unit :=
  fun w => (Ok tt, with_files f w).

(** [open(path, "w", encoding="utf-8").write(text)] *)
Definition write_text (path text : string) : M world unit :=
  modify_files (fun fs => <[norm path := text]> fs).

(** [shutil.copy(src, dst)] *)
Definition shutil_copy (src dst : string) : M world unit :=
  text ← read_bytes src;
  modify_files (fun fs => <[norm dst := text]> fs).

(** [shutil.move(src, dst)] of a file onto a file path *)
Definition shutil_move (src dst : string) : M world unit :=
  text ← read_bytes src;
  modify_files (fun fs => <[norm dst := text]> (delete (norm src) fs)).

(** [os.remove(path)] *)
Definition os_remove (path : string) : M world unit :=
  read_bytes path;;
  modify_files (fun fs => delete (norm path) fs).

(** The names [os.listdir(folder)] returns for a folder that holds files
    only: what lies directly under the folder, in an order of its own. The
    file map holds no folders, so subfolders, which [os.listdir] returns as
    well, are not listed; what the loops of the watcher do on any listing,
    in any order, is stated on [for_each] over a list of names. *)
Definition entries (folder : string) (fs : gmap string string) : list string :=
  omap (fun key => name ← strip_prefix (norm (path_join folder EmptyString)) key;
                   if has_slash name then None else Some name)
       (map fst (map_to_list fs)).

(** [os.listdir(folder)] *)
Definition listdir (folder : string) : M world (list string) := fun w =>
  (Ok (entries folder (files w)), w).

(** A computation that leaves the file under [key] as it is, whether it
    returns or raises. *)
Definition keeps (key : string) {A} (m : M world A) : Prop :=
  forall w, files (m w).2 !! key = files w !! key.

(** *** Variant A: [*.update.py] in the working folder, gated on a diff *)

Module VariantA.
Section WithDifflib.
Context `{Difflib}.

Definition WATCH_FOLDER : string := "./".
Definition BACKUP_FOLDER : string := "./backups/".
Definition MAIN_FILE : string := "Road_Hawk.py".

Definition backup_current_version : M world unit :=
  timestamp ← time_strftime;
  let backup_path := path_join BACKUP_FOLDER ("Road_Hawk_" +:+ timestamp +:+ ".bak") in
  shutil_copy MAIN_FILE backup_path.

(** What [detect_changes] returns: [True], a list of diff lines, or [None]. *)
Inductive changes : Type :=
  | PyTrue
  | PyList (diff : list string)
  | PyNone.

(** [if changes:] *)
Definition truthy (c : changes) : bool :=
  match c with
  | PyTrue => true
  | PyList (_ :: _) => true
  | _ => false
  end.

Definition detect_changes (new_code : string) : M world changes :=
  main_exists ← path_exists MAIN_FILE;
  if negb main_exists then mret PyTrue
  else
    old_code ← readlines <$> read_text MAIN_FILE;
    let diff := unified_diff old_code (splitlines new_code) in
    mret match diff with
         | [] => PyNone
         | _ => PyList diff
         end.

Definition update_code (new_code : string) : M world unit :=
  c ← detect_changes new_code;
  if truthy c then
    backup_current_version;;
    write_text MAIN_FILE new_code
  else mret tt.

(** The body of [for file in os.listdir(WATCH_FOLDER)]. *)
Definition process_file (file : string) : M world unit :=
  if endswith file ".update.py" then
    let update_path := path_join WATCH_FOLDER file in
    new_code ← read_text update_path;
    update_code new_code;;
    os_remove update_path
  else mret tt.

(** One turn of [while True], the sleep apart. *)
Definition scan : M world unit :=
  names ← listdir WATCH_FOLDER;
  for_each names process_file.

(** [monitor_folder], for a number of turns. *)
Fixpoint monitor_folder (turns : nat) : M world unit :=
  match turns with
  | O => mret tt
  | S n => scan;; monitor_folder n
  end.

End WithDifflib.
End VariantA.

(** *** Variant B: the inbox folder, always installing *)

Module VariantB.

Definition BACKUP_FOLDER : string := "backups".
Definition ARCHIVE_FOLDER : string := "archive".
Definition MAIN_SCRIPT : string := "Road_Hawk.py".

Definition apply_python_update (update_path : string) : M world unit :=
  timestamp ← time_strftime;
  let backup_path := path_join ARCHIVE_FOLDER (MAIN_SCRIPT +:+ "_" +:+ timestamp +:+ ".bak") in
  main_exists ← path_exists MAIN_SCRIPT;
  (if main_exists : bool then shutil_copy MAIN_SCRIPT backup_path else mret tt);;
  shutil_move update_path MAIN_SCRIPT.

Definition archive_file (file_path : string) : M world unit :=
  let new_location := path_join ARCHIVE_FOLDER (basename file_path) in
  shutil_move file_path new_location.

(** The body of [for file in files]. *)
Definition process_file (file : string) : M world unit :=
  let update_path := path_join BACKUP_FOLDER file in
  if endswith file ".py" then apply_python_update update_path
  else if endswith file ".txt" || endswith file ".docx" then archive_file update_path
  else mret tt.

(** One turn of [while True], the sleep apart. *)
Definition scan : M world unit :=
  names ← listdir BACKUP_FOLDER;
  for_each names process_file.

(** [monitor_folder], for a number of turns. *)
Fixpoint monitor_folder (turns : nat) : M world unit :=
  match turns with
  | O => mret tt
  | S n => scan;; monitor_folder n
  end.

End VariantB.

(** A [Difflib] to run Variant A on: the header lines, then every old line
    removed and every new line added, when the sequences differ. *)
Definition whole_file_diff_lines (a b : list string) : list string :=
  if decide (a = b) then []
  else "--- " :: "+++ " :: map (String "-") a ++ map (String "+") b.

#[global] Instance whole_file_diff : Difflib.
Proof.
  refine {| unified_diff := whole_file_diff_lines |}.
  intros a b. unfold whole_file_diff_lines.
  destruct (decide (a = b)) as [E|N]; split; intros Hd; try done; discriminate Hd.
Defined.

(** *** Sample states *)

Definition sample_clock : nat -> struct_time := fun _ => StructTime 2024 3 5 9 7 1.

Definition one_line (s : string) : string := s +:+ String LF EmptyString.

(** Variant A: the target has one line, the candidate is a zero-byte file. *)
Definition world_zero_byte : world :=
  World {[ "Road_Hawk.py" := one_line "print(1)"; "x.update.py" := EmptyString ]} sample_clock 0.

(** Variant A: target and candidate are both zero-byte files. *)
Definition world_both_empty : world :=
  World {[ "Road_Hawk.py" := EmptyString; "x.update.py" := EmptyString ]} sample_clock 0.

(** Variant A: a candidate and no target. *)
Definition world_fresh : world :=
  World {[ "x.update.py" := one_line "print(2)" ]} sample_clock 0.

(** Variant B: an update in the inbox and no target. *)
Definition world_fresh_inbox : world :=
  World {[ "backups/x.py" := one_line "print(2)" ]} sample_clock 0.

(** Variant B: a target, and an inbox with an update, a note and a file of
    another kind. *)
Definition world_inbox : world :=
  World {[ "Road_Hawk.py" := one_line "print(1)"; "backups/x.py" := one_line "print(2)";
           "backups/notes.txt" := "n"; "backups/old.bak" := "o" ]} sample_clock 0.

End Updater.

(** * Facts *)

(** ** Strings *)

Lemma app_String c s t : String c s +:+ t = String c (s +:+ t).
Proof. reflexivity. Qed.

Lemma app_Empty t : EmptyString +:+ t = t.
Proof. reflexivity. Qed.

Lemma app_Empty_r s : s +:+ EmptyString = s.
Proof. induction s as [|c s IH]; [reflexivity|]. rewrite app_String, IH. reflexivity. Qed.

Lemma app_assoc_str s t u : (s +:+ t) +:+ u = s +:+ (t +:+ u).
Proof.
  induction s as [|c s IH]; [reflexivity|].
  rewrite !app_String, IH. reflexivity.
Qed.

Lemma str_of_chars s : str_of (chars s) = s.
Proof. apply string_of_list_ascii_of_string. Qed.

(** ** The csv reader reads back what the csv writer wrote *)

Lemma special_false c :
  special c = false ->
  Ascii.eqb c COMMA = false /\ Ascii.eqb c DQUOTE = false /\
  Ascii.eqb c CR = false /\ Ascii.eqb c LF = false.
Proof.
  unfold special. intros Hs.
  repeat (apply orb_false_elim in Hs as [Hs ?]). auto.
Qed.

(** A field below the limit takes one more character, a field at the limit
    takes none. *)
Lemma add_char_fits field c :
  Z.of_nat (length field) < field_size_limit -> add_char field c = Some (field ++ [c]).
Proof.
  intros Hlen. unfold add_char.
  by destruct (Z.leb_spec field_size_limit (Z.of_nat (length field))); [lia|].
Qed.

Lemma add_char_full field c :
  field_size_limit <= Z.of_nat (length field) -> add_char field c = None.
Proof.
  intros Hlen. unfold add_char.
  by destruct (Z.leb_spec field_size_limit (Z.of_nat (length field))); [|lia].
Qed.

(** One step of the reader on the characters the writer gives a meaning. *)
Lemma step_plain_in_field c field fields s :
  special c = false ->
  csv_parse IN_FIELD field fields (String c s)
  = field' ← add_char field c; csv_parse IN_FIELD field' fields s.
Proof.
  intros Hc. destruct (special_false c Hc) as (Hcomma & _ & Hcr & Hlf).
  cbn [csv_parse]. by rewrite Hcr, Hlf, Hcomma.
Qed.

Lemma step_plain_in_quoted c field fields s :
  Ascii.eqb c DQUOTE = false ->
  csv_parse IN_QUOTED_FIELD field fields (String c s)
  = field' ← add_char field c; csv_parse IN_QUOTED_FIELD field' fields s.
Proof. intros Hc. cbn [csv_parse]. by rewrite Hc. Qed.

Lemma step_doubled_quote field fields s :
  csv_parse IN_QUOTED_FIELD field fields (String DQUOTE (String DQUOTE s))
  = field' ← add_char field DQUOTE; csv_parse IN_QUOTED_FIELD field' fields s.
Proof. reflexivity. Qed.

Lemma step_closing_quote field fields s :
  csv_parse IN_QUOTED_FIELD field fields (String DQUOTE s)
  = csv_parse QUOTE_IN_QUOTED_FIELD field fields s.
Proof. reflexivity. Qed.

Lemma step_comma st field fields s :
  st = IN_FIELD \/ st = QUOTE_IN_QUOTED_FIELD ->
  csv_parse st field fields (String COMMA s) = csv_parse START_FIELD [] (save_field field fields) s.
Proof. intros [-> | ->]; reflexivity. Qed.

Lemma step_crlf st field fields s :
  st = IN_FIELD \/ st = QUOTE_IN_QUOTED_FIELD ->
  csv_parse st field fields (String CR (String LF s))
  = cons (save_field field fields) <$> csv_parse START_RECORD [] [] s.
Proof. intros [-> | ->]; reflexivity. Qed.

Lemma step_open_quote st fields s :
  field_start st ->
  csv_parse st [] fields (String DQUOTE s) = csv_parse IN_QUOTED_FIELD [] fields s.
Proof. intros [-> | ->]; reflexivity. Qed.

Lemma step_first_plain st c fields s :
  field_start st -> special c = false ->
  csv_parse st [] fields (String c s) = csv_parse IN_FIELD [c] fields s.
Proof.
  intros Hst Hc. destruct (special_false c Hc) as (Hcomma & Hq & Hcr & Hlf).
  destruct Hst as [-> | ->]; cbn [csv_parse]; by rewrite Hcr, Hlf, Hq, Hcomma.
Qed.

Lemma step_empty_comma st fields s :
  field_start st ->
  csv_parse st [] fields (String COMMA s) = csv_parse START_FIELD [] (fields ++ [EmptyString]) s.
Proof. intros [-> | ->]; reflexivity. Qed.

Lemma step_empty_crlf fields s :
  csv_parse START_FIELD [] fields (String CR (String LF s))
  = cons (fields ++ [EmptyString]) <$> csv_parse START_RECORD [] [] s.
Proof. reflexivity. Qed.

(** The rest of a field: it is taken where it fits with what the field
    holds already, and the reader raises where it does not. *)
Lemma parse_raw_tail f : forall acc fields s,
  has_special f = false -> Z.of_nat (length acc) <= field_size_limit ->
  csv_parse IN_FIELD acc fields (f +:+ s)
  = if Z.of_nat (length acc + String.length f) <=? field_size_limit
    then csv_parse IN_FIELD (acc ++ chars f) fields s
    else None.
Proof.
  induction f as [|c f IH]; intros acc fields s Hf Hacc; simpl in Hf.
  - rewrite app_Empty. cbn [String.length chars list_ascii_of_string].
    rewrite Nat.add_0_r, app_nil_r.
    by destruct (Z.leb_spec (Z.of_nat (length acc)) field_size_limit); [|lia].
  - apply orb_false_elim in Hf as [Hc Hf].
    rewrite app_String, step_plain_in_field by done. cbn [String.length].
    destruct (Z.leb_spec field_size_limit (Z.of_nat (length acc))) as [Hfull|Hfits].
    + rewrite add_char_full by done. cbn.
      by destruct (Z.leb_spec (Z.of_nat (length acc + S (String.length f))) field_size_limit);
        [lia|].
    + rewrite add_char_fits by done. cbn. rewrite IH by (rewrite ?length_app; cbn; done || lia).
      rewrite length_app. cbn [length]. rewrite <- app_assoc. cbn [chars list_ascii_of_string app].
      by replace (length acc + 1 + String.length f)%nat
        with (length acc + S (String.length f))%nat by lia.
Qed.

Lemma parse_quoted_body f : forall acc fields s,
  Z.of_nat (length acc) <= field_size_limit ->
  csv_parse IN_QUOTED_FIELD acc fields (double_quotes f +:+ s)
  = if Z.of_nat (length acc + String.length f) <=? field_size_limit
    then csv_parse IN_QUOTED_FIELD (acc ++ chars f) fields s
    else None.
Proof.
  induction f as [|c f IH]; intros acc fields s Hacc.
  - rewrite app_Empty. cbn [String.length chars list_ascii_of_string].
    rewrite Nat.add_0_r, app_nil_r.
    by destruct (Z.leb_spec (Z.of_nat (length acc)) field_size_limit); [|lia].
  - assert (csv_parse IN_QUOTED_FIELD acc fields (double_quotes (String c f) +:+ s)
            = field' ← add_char acc c;
              csv_parse IN_QUOTED_FIELD field' fields (double_quotes f +:+ s)) as ->.
    { cbn [double_quotes]. destruct (Ascii.eqb c DQUOTE) eqn:Hq.
      - apply Ascii.eqb_eq in Hq as ->. by rewrite !app_String, step_doubled_quote.
      - by rewrite app_String, step_plain_in_quoted. }
    cbn [String.length].
    destruct (Z.leb_spec field_size_limit (Z.of_nat (length acc))) as [Hfull|Hfits].
    + rewrite add_char_full by done. cbn.
      by destruct (Z.leb_spec (Z.of_nat (length acc + S (String.length f))) field_size_limit);
        [lia|].
    + rewrite add_char_fits by done. cbn. rewrite IH by (rewrite ?length_app; cbn; lia).
      rewrite length_app. cbn [length]. rewrite <- app_assoc. cbn [chars list_ascii_of_string app].
      by replace (length acc + 1 + String.length f)%nat
        with (length acc + S (String.length f))%nat by lia.
Qed.

Lemma parse_quoted_field st f fields s :
  field_start st ->
  csv_parse st [] fields (quoted f +:+ s)
  = if within_limit f then csv_parse QUOTE_IN_QUOTED_FIELD (chars f) fields s else None.
Proof.
  intros Hst. unfold quoted, within_limit.
  rewrite app_String, app_assoc_str, step_open_quote, parse_quoted_body by done.
  cbn [length Nat.add app].
  destruct (Z.of_nat (String.length f) <=? field_size_limit); [|done].
  by rewrite app_String, app_Empty, step_closing_quote.
Qed.

Lemma parse_raw_field st c f fields s :
  field_start st -> special c = false -> has_special f = false ->
  csv_parse st [] fields (String c f +:+ s)
  = if within_limit (String c f) then csv_parse IN_FIELD (c :: chars f) fields s else None.
Proof.
  intros Hst Hc Hf. unfold within_limit.
  by rewrite app_String, step_first_plain, parse_raw_tail.
Qed.

Lemma parse_field_comma st f fields s :
  field_start st ->
  csv_parse st [] fields (csv_field f +:+ String COMMA s)
  = if within_limit f then csv_parse START_FIELD [] (fields ++ [f]) s else None.
Proof.
  intros Hst. unfold csv_field. destruct (has_special f) eqn:Hf.
  - rewrite parse_quoted_field by done. destruct (within_limit f); [|done].
    rewrite step_comma by auto. unfold save_field. by rewrite str_of_chars.
  - destruct f as [|c f].
    + by rewrite app_Empty, step_empty_comma.
    + simpl in Hf. apply orb_false_elim in Hf as [Hc Hf].
      rewrite parse_raw_field by done. destruct (within_limit (String c f)); [|done].
      rewrite step_comma by auto.
      unfold save_field. change (c :: chars f) with (chars (String c f)). by rewrite str_of_chars.
Qed.

Lemma parse_field_crlf st f fields s :
  field_start st -> (st = START_FIELD \/ f <> EmptyString) ->
  csv_parse st [] fields (csv_field f +:+ CRLF +:+ s)
  = if within_limit f then cons (fields ++ [f]) <$> csv_parse START_RECORD [] [] s else None.
Proof.
  intros Hst Hne. unfold csv_field, CRLF. rewrite (app_String CR), (app_String LF), app_Empty.
  destruct (has_special f) eqn:Hf.
  - rewrite parse_quoted_field by done. destruct (within_limit f); [|done].
    rewrite step_crlf by auto. unfold save_field. by rewrite str_of_chars.
  - destruct f as [|c f].
    + rewrite app_Empty. destruct Hne as [-> | ?]; [|done]. apply step_empty_crlf.
    + simpl in Hf. apply orb_false_elim in Hf as [Hc Hf].
      rewrite parse_raw_field by done. destruct (within_limit (String c f)); [|done].
      rewrite step_crlf by auto.
      unfold save_field. change (c :: chars f) with (chars (String c f)). by rewrite str_of_chars.
Qed.

Lemma join_cons sep p q rest : join sep (p :: q :: rest) = p +:+ sep +:+ join sep (q :: rest).
Proof. reflexivity. Qed.

Lemma parse_fields row : forall fields s,
  row <> [] ->
  csv_parse START_FIELD [] fields (join "," (map csv_field row) +:+ CRLF +:+ s)
  = if forallb within_limit row
    then cons (fields ++ row) <$> csv_parse START_RECORD [] [] s
    else None.
Proof.
  induction row as [|f row IH]; intros fields s Hne; [done|].
  destruct row as [|f' row].
  - cbn [forallb]. rewrite andb_true_r. simpl. apply parse_field_crlf; [by right | by left].
  - cbn [map]. rewrite join_cons, !app_assoc_str, app_String, app_Empty.
    rewrite parse_field_comma by (by right).
    cbn [forallb] in *. destruct (within_limit f); [|done].
    cbn [map andb] in IH |- *. rewrite IH by done. by rewrite <- app_assoc.
Qed.

Lemma parse_writerow row s :
  csv_parse START_RECORD [] [] (writerow row +:+ s)
  = if forallb within_limit row then cons row <$> csv_parse START_RECORD [] [] s else None.
Proof.
  destruct row as [|f [|f' row]].
  - reflexivity.
  - destruct f as [|c f]; [reflexivity|].
    change (writerow [String c f]) with (csv_field (String c f) +:+ CRLF).
    cbn [forallb]. rewrite andb_true_r.
    rewrite app_assoc_str, parse_field_crlf; [done | by left | by right].
  - assert (writerow (f :: f' :: row)
            = (csv_field f +:+ "," +:+ join "," (map csv_field (f' :: row))) +:+ CRLF) as ->
      by (by destruct f).
    rewrite !app_assoc_str, app_String, app_Empty.
    rewrite parse_field_comma by (by left).
    cbn [forallb]. destruct (within_limit f); [|done].
    by rewrite parse_fields.
Qed.

Lemma writerows_cons row rows : writerows (row :: rows) = writerow row +:+ writerows rows.
Proof. reflexivity. Qed.

Lemma writerows_app rows1 rows2 : writerows (rows1 ++ rows2) = writerows rows1 +:+ writerows rows2.
Proof.
  induction rows1 as [|row rows1 IH]; [reflexivity|].
  cbn [app]. by rewrite !writerows_cons, IH, app_assoc_str.
Qed.

Lemma rows_within_limit_app rows1 rows2 :
  rows_within_limit (rows1 ++ rows2) = rows_within_limit rows1 && rows_within_limit rows2.
Proof. apply forallb_app. Qed.

(** Rows of the writer are read back as they were written where every field
    is within the limit of the reader; where one is not, the reader raises. *)
Lemma csv_reader_writerows_app rows s :
  csv_reader (writerows rows +:+ s)
  = if rows_within_limit rows then app rows <$> csv_reader s else None.
Proof.
  induction rows as [|row rows IH].
  - rewrite app_Empty. cbn. by destruct (csv_reader s).
  - rewrite writerows_cons, app_assoc_str. unfold csv_reader in *.
    rewrite parse_writerow, IH. cbn [rows_within_limit forallb].
    destruct (forallb within_limit row); [|done]. cbn [andb].
    fold (rows_within_limit rows). destruct (rows_within_limit rows); [|done].
    by destruct (csv_parse START_RECORD [] [] s).
Qed.

Lemma csv_reader_writerows rows :
  csv_reader (writerows rows) = if rows_within_limit rows then Some rows else None.
Proof.
  rewrite <- (app_Empty_r (writerows rows)), csv_reader_writerows_app.
  destruct (rows_within_limit rows); [|done]. cbn. by rewrite app_nil_r.
Qed.

(** ** A formatted amount is read back by [float] *)

Lemma all_chars_app p s t : all_chars p (s +:+ t) = all_chars p s && all_chars p t.
Proof.
  induction s as [|c s IH]; [reflexivity|].
  rewrite app_String. simpl. by rewrite IH, andb_assoc.
Qed.

Lemma all_chars_impl (p q : ascii -> bool) s :
  (forall c, p c = true -> q c = true) -> all_chars p s = true -> all_chars q s = true.
Proof.
  intros Hpq. induction s as [|c s IH]; [done|]. simpl.
  intros [Hc Hs]%andb_prop. by rewrite (Hpq c Hc), IH.
Qed.

Lemma isdigit_not c d : isdigit c = true -> isdigit d = false -> Ascii.eqb c d = false.
Proof.
  intros Hc Hd. destruct (Ascii.eqb_spec c d) as [->|]; [congruence | done].
Qed.

Lemma digits_of_uint d : all_chars isdigit (NilEmpty.string_of_uint d) = true.
Proof. induction d; simpl; auto. Qed.

Lemma decimal_digits n : all_chars isdigit (decimal n) = true.
Proof.
  unfold decimal, NilZero.string_of_uint.
  destruct (N.to_uint (Z.to_N n)) eqn:E; try (rewrite <- E); try apply digits_of_uint.
  reflexivity.
Qed.

Lemma decimal_nonempty n : decimal n <> EmptyString.
Proof.
  unfold decimal, NilZero.string_of_uint.
  destruct (N.to_uint (Z.to_N n)); discriminate.
Qed.

Lemma digit_char k : 0 <= k <= 9 -> isdigit (chr (Z.to_nat (48 + k))) = true.
Proof.
  intros Hk.
  assert (k = 0 \/ k = 1 \/ k = 2 \/ k = 3 \/ k = 4 \/ k = 5 \/ k = 6 \/ k = 7 \/ k = 8 \/ k = 9)
    as Hcases by lia.
  repeat (destruct Hcases as [-> | Hcases]; [reflexivity|]). by subst.
Qed.

Lemma two_digits_digits n : 0 <= n < 100 -> all_chars isdigit (two_digits n) = true.
Proof.
  intros Hn. unfold two_digits. simpl.
  rewrite !digit_char; [done | |].
  - pose proof (Z.mod_pos_bound n 10). lia.
  - split; [apply Z.div_pos; lia | apply Z.lt_succ_r, Z.div_lt_upper_bound; lia].
Qed.

(** Strings without white space and underscores pass [float]'s cleaning. *)
Lemma strip_underscores_none s : forall prev,
  Ascii.eqb prev "_" = false ->
  all_chars (fun c => negb (Ascii.eqb c "_")) s = true ->
  strip_underscores prev s = Some s.
Proof.
  induction s as [|c s IH]; intros prev Hprev Hs; simpl in *.
  - by rewrite Hprev.
  - apply andb_prop in Hs as [Hc Hs]. apply negb_true_iff in Hc.
    rewrite Hc, Hprev. simpl. by rewrite IH.
Qed.

Lemma lstrip_none sp s : all_chars (fun c => negb (sp c)) s = true -> lstrip_with sp s = s.
Proof.
  destruct s as [|c s]; [done|]. simpl. intros [Hc _]%andb_prop.
  apply negb_true_iff in Hc. by rewrite Hc.
Qed.

Lemma rstrip_none sp s : all_chars (fun c => negb (sp c)) s = true -> rstrip_with sp s = s.
Proof.
  induction s as [|c s IH]; [done|]. simpl. intros [Hc Hs]%andb_prop.
  apply negb_true_iff in Hc. rewrite IH by done. destruct s; by rewrite ?Hc.
Qed.

Lemma span_digits_all d : all_chars isdigit d = true -> span_digits d = (d, EmptyString).
Proof.
  induction d as [|c d IH]; [done|]. simpl. intros [Hc Hd]%andb_prop.
  by rewrite Hc, IH.
Qed.

Lemma span_digits_app d c r :
  all_chars isdigit d = true -> isdigit c = false ->
  span_digits (d +:+ String c r) = (d, String c r).
Proof.
  intros Hd Hc. induction d as [|a d IH].
  - rewrite app_Empty. simpl. by rewrite Hc.
  - simpl in Hd. apply andb_prop in Hd as [Ha Hd]. rewrite app_String. simpl. by rewrite Ha, IH.
Qed.

Lemma amount_char_clean c :
  amount_char c = true ->
  negb (Ascii.eqb c "_") = true /\ negb (Py_ISSPACE c) = true.
Proof.
  unfold amount_char. intros Hc.
  destruct (isdigit c) eqn:Hd.
  - unfold isdigit, Py_ISSPACE, between in *.
    destruct (Ascii.eqb_spec c "_") as [->|]; [discriminate Hd|].
    split; [done|]. apply negb_true_iff.
    apply andb_prop in Hd as [H1%Z.leb_le H2%Z.leb_le].
    apply orb_false_intro; apply andb_false_iff; right; apply Z.leb_gt; lia.
  - simpl in Hc. apply orb_prop in Hc as [->%Ascii.eqb_eq | ->%Ascii.eqb_eq]; by split.
Qed.

Lemma plain_amount_parses (neg : bool) (d f : string) :
  d <> EmptyString -> all_chars isdigit d = true ->
  f <> EmptyString -> all_chars isdigit f = true ->
  float_of_str (sign_str neg +:+ d +:+ "." +:+ f)
  = Some (decimal_to_float neg (digits_value 0 (d +:+ f)) (- Z.of_nat (String.length f))).
Proof.
  intros Hd0 Hd Hf0 Hf. unfold float_of_str.
  assert (all_chars amount_char (sign_str neg +:+ d +:+ "." +:+ f) = true) as Hall.
  { rewrite !all_chars_app.
    rewrite (all_chars_impl isdigit amount_char d), (all_chars_impl isdigit amount_char f);
      try done; try (intros c Hc; unfold amount_char; by rewrite Hc).
    by destruct neg. }
  rewrite strip_underscores_none; [| done |].
  2:{ eapply all_chars_impl; [|exact Hall]. intros c Hc. by apply amount_char_clean. }
  cbn [mbind option_bind].
  assert (all_chars (fun c => negb (Py_ISSPACE c)) (sign_str neg +:+ d +:+ "." +:+ f) = true) as Hsp.
  { eapply all_chars_impl; [|exact Hall]. intros c Hc. by apply amount_char_clean. }
  rewrite lstrip_none, rstrip_none by (by rewrite ?lstrip_none).
  assert (take_sign (sign_str neg +:+ d +:+ "." +:+ f) = (neg, d +:+ "." +:+ f)) as ->.
  { destruct neg; [reflexivity|]. rewrite app_Empty.
    destruct d as [|c d]; [done|]. simpl in Hd. apply andb_prop in Hd as [Hc _].
    rewrite app_String. unfold take_sign.
    by rewrite (isdigit_not c "-"), (isdigit_not c "+"). }
  unfold parse_decimal.
  change ("." +:+ f) with (String "." f).
  rewrite span_digits_app by done.
  change (Ascii.eqb "." ".") with true. cbn iota.
  rewrite (span_digits_all f) by done.
  destruct d as [|c d]; [done|]. rewrite app_String. reflexivity.
Qed.

Lemma format_2f_parses x : is_Some (float_of_str (format_2f x)).
Proof.
  unfold format_2f. destruct (Prim2SF x) as [s | s | | s m e].
  - destruct s; vm_compute; eauto.
  - destruct s; vm_compute; eauto.
  - vm_compute; eauto.
  - cbv zeta. rewrite plain_amount_parses.
    + by eexists.
    + apply decimal_nonempty.
    + apply decimal_digits.
    + unfold two_digits. discriminate.
    + apply two_digits_digits, Z.mod_pos_bound. lia.
Qed.

(** ** [os.path] *)

Lemma has_slash_not_absolute s : has_slash s = false -> is_absolute s = false.
Proof. destruct s as [|c s]; [done|]. simpl. by intros [? _]%orb_false_elim. Qed.

Lemma has_slash_basename p : has_slash (basename p) = false.
Proof.
  induction p as [|c p IH]; [done|]. simpl.
  destruct (has_slash p) eqn:Hp; [done|].
  destruct (Ascii.eqb c "/") eqn:Hc; [done|]. simpl. by rewrite Hc, Hp.
Qed.

(** ** The driver log *)

Module LoggerFacts.
Import Logger.

(** Unfolding the monad. *)
Ltac run :=
  unfold try_except, try_else, or_raise, raise, mbind, M_bind, mret, M_ret, fmap, M_fmap,
    print, logging, isfile, append_file, write_file, read_file, with_files in *;
  cbn [files stdin stdout log fst snd] in *.

Lemma is_Some_Some {A} (x : A) : bool_decide (is_Some (Some x)) = true.
Proof. reflexivity. Qed.

Lemma is_Some_None {A} : bool_decide (is_Some (@None A)) = false.
Proof. reflexivity. Qed.

(** *** [write_to_csv] *)

Lemma write_to_csv_run filename header row w :
  write_to_csv filename header row w
  = (Ok tt, with_files (fun fs => <[filename := appended header row (fs !! filename)]> fs) w).
Proof.
  destruct w as [fs i o l]. unfold write_to_csv. run.
  destruct (fs !! filename) as [old|] eqn:E.
  - rewrite is_Some_Some. cbn. by rewrite E.
  - rewrite is_Some_None. cbn. rewrite E, lookup_insert_eq. cbn.
    by rewrite insert_insert_eq.
Qed.


Lemma with_files_id w : with_files (fun fs => fs) w = w.
Proof. by destruct w. Qed.

Lemma for_each_write_to_csv filename header rows : forall w,
  for_each rows (write_to_csv filename header) w
  = (Ok tt, with_files (fun fs =>
       fold_left (fun fs row => <[filename := appended header row (fs !! filename)]> fs) rows fs) w).
Proof.
  induction rows as [|row rows IH]; intros w.
  - cbn. by rewrite with_files_id.
  - cbn [for_each]. unfold mbind, M_bind. rewrite write_to_csv_run, IH. by destruct w.
Qed.

Lemma fold_appended_present filename header rows : forall (fs : gmap string string) old,
  fs !! filename = Some old ->
  fold_left (fun fs row => <[filename := appended header row (fs !! filename)]> fs) rows fs
  = <[filename := old +:+ writerows rows]> fs.
Proof.
  induction rows as [|row rows IH]; intros fs old Hold.
  - cbn. by rewrite app_Empty_r, insert_id.
  - cbn [fold_left]. rewrite (IH _ (old +:+ writerow row)).
    + by rewrite insert_insert_eq, writerows_cons, app_assoc_str.
    + by rewrite Hold, lookup_insert_eq.
Qed.

(** C7. A sequence of appends through [write_to_csv] never fails and touches
    nothing but the one file. A file that existed keeps its text and gains
    the rows after it, with no header; a file that did not exist starts with
    the header, written once, before the first row. Read back, such a file
    is the header and then the rows, and rows appended to a file of earlier
    rows leave those as they were; the reader reads back every row whose
    fields are within its field size limit, and raises where a field is
    longer. *)
Theorem write_to_csv_append_only (filename : string) (header : list string)
    (rows : list (list string)) (w : world) :
  for_each rows (write_to_csv filename header) w
  = (Ok tt,
     match rows with
     | [] => w
     | _ :: _ =>
         with_files (fun fs =>
           <[filename := match fs !! filename with
                         | Some old => old +:+ writerows rows
                         | None => writerow header +:+ writerows rows
                         end]> fs) w
     end)
  /\ csv_reader (writerow header +:+ writerows rows)
     = (if rows_within_limit (header :: rows) then Some (header :: rows) else None)
  /\ forall earlier,
       csv_reader (writerows earlier +:+ writerows rows)
       = (if rows_within_limit (earlier ++ rows) then Some (earlier ++ rows) else None).
Proof.
  split; [|split].
  - rewrite for_each_write_to_csv. f_equal. destruct rows as [|row rows].
    + apply with_files_id.
    + destruct w as [fs i o l]. unfold with_files. cbn [files stdin stdout log]. f_equal.
      cbn [fold_left]. destruct (fs !! filename) as [old|] eqn:E.
      * rewrite (fold_appended_present _ _ _ _ (old +:+ writerow row)).
        -- by rewrite insert_insert_eq, writerows_cons, app_assoc_str.
        -- by rewrite lookup_insert_eq.
      * rewrite (fold_appended_present _ _ _ _ (writerow header +:+ writerow row)).
        -- by rewrite insert_insert_eq, writerows_cons, app_assoc_str.
        -- by rewrite lookup_insert_eq.
  - change (writerow header +:+ writerows rows) with (writerows (header :: rows)).
    apply csv_reader_writerows.
  - intros earlier. by rewrite <- writerows_app, csv_reader_writerows.
Qed.

(** *** [calculate_pay] *)

(** C1. [calculate_pay] returns for every driver type and every pair of
    floats, raising nothing and touching no file: [miles * 0.50] for
    [company], [revenue * 0.80] for [owner], and [0.0] with one warning
    logged for every other driver type. *)
Theorem calculate_pay_spec (driver_type : string) (miles revenue : float) (w : world) :
  exists pay w',
    calculate_pay driver_type miles revenue w = (Ok pay, w')
    /\ files w' = files w /\ stdin w' = stdin w /\ stdout w' = stdout w
    /\ (driver_type = "company" -> pay = (miles * PAY_RATE_PER_MILE)%float /\ w' = w)
    /\ (driver_type = "owner" -> pay = (revenue * OWNER_OPERATOR_PERCENTAGE)%float /\ w' = w)
    /\ (driver_type <> "company" -> driver_type <> "owner" ->
        pay = 0%float
        /\ log w' = log w ++ [(WARNING, "Unknown driver type '%s'. Pay set to 0.")]).
Proof.
  unfold calculate_pay.
  destruct (String.eqb_spec driver_type "company") as [->|Hc].
  - exists (miles * PAY_RATE_PER_MILE)%float, w. repeat split; done.
  - destruct (String.eqb_spec driver_type "owner") as [->|Ho].
    + exists (revenue * OWNER_OPERATOR_PERCENTAGE)%float, w. repeat split; done.
    + eexists _, _. run. repeat split; done.
Qed.

(** The two scenarios of the specification: 500 miles of a company driver
    pay 250.00, 1000 of revenue pay an owner 800.00. *)
Lemma calculate_pay_spec_witness :
  calculate_pay "company" 500 0 (World ∅ [] [] []) = (Ok 250%float, World ∅ [] [] [])
  /\ calculate_pay "owner" 0 1000 (World ∅ [] [] []) = (Ok 800%float, World ∅ [] [] []).
Proof.
  split.
  - destruct (calculate_pay_spec "company" 500 0 (World ∅ [] [] []))
      as (pay & w' & -> & _ & _ & _ & Hcompany & _).
    destruct (Hcompany eq_refl) as [-> ->]. reflexivity.
  - destruct (calculate_pay_spec "owner" 0 1000 (World ∅ [] [] []))
      as (pay & w' & -> & _ & _ & _ & _ & Howner & _).
    destruct (Howner eq_refl) as [-> ->]. reflexivity.
Defined.

(** *** [export_data] *)

(** What [export_data] does, on every state: the summary of the totals where
    both files are read to their end, and a report of the error, with no
    file written, where the reader raises. *)
Lemma export_data_run w :
  export_data w
  = match trip_totals (files w), expense_total (files w) with
    | Some (total_miles, total_pay), Some total_expenses =>
        (Ok tt,
         World (<[summary_file := summary_text total_miles total_pay total_expenses]> (files w))
           (stdin w)
           (stdout w ++ ["Data export complete. Summary saved to 'exports/summary.csv'."])
           (log w ++ [(INFO, "Data exported successfully. Summary report generated.")]))
    | _, _ =>
        (Ok tt,
         World (files w) (stdin w)
           (stdout w ++ ["An error occurred during data export. Check the log for details."])
           (log w ++ [(ERROR, "Unexpected error in export_data: %s")]))
    end.
Proof.
  destruct w as [fs i o l]. unfold export_data, trip_totals, expense_total, rows_of. run.
  destruct (fs !! "trips.csv") as [trips|] eqn:Et;
    destruct (fs !! "expenses.csv") as [expenses|] eqn:Ee;
    try (destruct (DictReader trips) as [trip_rows|] eqn:Etrips);
    try (destruct (DictReader expenses) as [expense_rows|] eqn:Eexpenses);
    try (destruct (fold_left add_trip_row trip_rows (0%float, 0%float)) eqn:Etot);
    repeat (progress (cbn; rewrite ?Et, ?Ee, ?Etrips, ?Eexpenses, ?Etot, ?is_Some_Some,
                        ?is_Some_None));
    reflexivity.
Qed.

Lemma export_data_returns w : (export_data w).1 = Ok tt.
Proof.
  rewrite export_data_run.
  by destruct (trip_totals (files w)) as [[? ?]|], (expense_total (files w)).
Qed.

Section WithDatetime.
Context `{Datetime}.

Ltac run_io :=
  unfold input_float, input_strip, input in *; run.

#[local] Arguments format_2f : simpl never.
#[local] Arguments float_of_str : simpl never.
#[local] Arguments strip : simpl never.
#[local] Arguments lower : simpl never.
#[local] Arguments writerow : simpl never.
#[local] Arguments appended : simpl never.
#[local] Arguments String.eqb : simpl never.
#[local] Arguments last : simpl never.
#[local] Arguments write_to_csv : simpl never.

(** Walks the paths of an interactive operation: one case per answer that
    is missing or does not parse. *)
Ltac paths :=
  repeat first
    [ progress cbn
    | rewrite write_to_csv_run
    | match goal with
      | |- context [match fromisoformat ?s with _ => _ end] =>
          destruct (fromisoformat s) eqn:?
      | |- context [match float_of_str ?s with _ => _ end] =>
          destruct (float_of_str s) eqn:?
      | |- context [if String.eqb ?a ?b then _ else _] =>
          destruct (String.eqb a b) eqn:?
      | |- context [match ?i with [] => _ | _ :: _ => _ end] =>
          is_var i; destruct i
      end ].

Lemma log_trip_logged_inv fs i o l id :
  last (stdout (log_trip (World fs i o l)).2) = Some (String "T" id) ->
  exists a b c d e f miles pay g h,
    files (log_trip (World fs i o l)).2 !! "trips.csv"
    = Some (appended trip_header
              [a; b; c; d; e; f; format_2f miles; format_2f pay; g; h] (fs !! "trips.csv")).
Proof.
  unfold log_trip, log_expense_record, calculate_pay. run_io.
  paths; rewrite last_snoc; intros [= Hmsg];
    try discriminate Hmsg;
    rewrite lookup_insert_eq, ?lookup_insert_ne by done;
    repeat eexists.
Qed.


Lemma log_trip_returns fs i o l : (log_trip (World fs i o l)).1 = Ok tt.
Proof.
  unfold log_trip, log_expense_record, calculate_pay. run_io.
  paths; reflexivity.
Qed.

Lemma log_expense_returns fs i o l : (log_expense (World fs i o l)).1 = Ok tt.
Proof.
  unfold log_expense, log_expense_record. run_io.
  paths; reflexivity.
Qed.

Lemma print_lines_run lines : forall fs i o l,
  for_each lines print (World fs i o l) = (Ok tt, World fs i (o ++ lines) l).
Proof.
  induction lines as [|line lines IH]; intros fs i o l.
  - cbn. by rewrite app_nil_r.
  - cbn [for_each]. unfold mbind, M_bind, print at 1. cbn [files stdin stdout log].
    rewrite IH. by rewrite <- app_assoc.
Qed.

(** After the choice, the menu runs the operation and goes on to the next
    turn on the state the operation left. *)
Lemma main_menu_log_trip n fs rest o l :
  main_menu (S n) (World fs ("1" :: rest) o l)
  = main_menu n (log_trip (World fs rest ((o ++ menu_lines) ++ ["Enter your choice: "]) l)).2.
Proof.
  cbn [main_menu]. unfold mbind at 1, M_bind at 1. rewrite print_lines_run.
  unfold input_strip, input. run.
  change (strip "1") with "1". change (String.eqb "1" "1") with true. cbn iota.
  pose proof (log_trip_returns fs rest ((o ++ menu_lines) ++ ["Enter your choice: "]) l) as Hop.
  set (w0 := World fs rest ((o ++ menu_lines) ++ ["Enter your choice: "]) l) in *.
  change (mbind (fun _ : unit => main_menu n) log_trip w0 = main_menu n (log_trip w0).2).
  unfold mbind, M_bind.
  destruct (log_trip w0) as [[[]|e] w']; [reflexivity | discriminate Hop].
Qed.

Lemma main_menu_log_expense n fs rest o l :
  main_menu (S n) (World fs ("2" :: rest) o l)
  = main_menu n (log_expense (World fs rest ((o ++ menu_lines) ++ ["Enter your choice: "]) l)).2.
Proof.
  cbn [main_menu]. unfold mbind at 1, M_bind at 1. rewrite print_lines_run.
  unfold input_strip, input. run.
  change (strip "2") with "2". change (String.eqb "2" "1") with false.
  change (String.eqb "2" "2") with true. cbn iota.
  pose proof (log_expense_returns fs rest ((o ++ menu_lines) ++ ["Enter your choice: "]) l) as Hop.
  set (w0 := World fs rest ((o ++ menu_lines) ++ ["Enter your choice: "]) l) in *.
  change (mbind (fun _ : unit => main_menu n) log_expense w0 = main_menu n (log_expense w0).2).
  unfold mbind, M_bind.
  destruct (log_expense w0) as [[[]|e] w']; [reflexivity | discriminate Hop].
Qed.

(** *** Malformed answers *)

Lemma log_trip_bad_dates fs trip_id name dtype s e rest o l :
  fromisoformat (strip s) = None \/ fromisoformat (strip e) = None ->
  exists o' l',
    log_trip (World fs (trip_id :: name :: dtype :: s :: e :: rest) o l)
    = (Ok tt, World fs rest (o' ++ ["Error: Invalid date/time format. Trip not logged."]) l').
Proof.
  intros Hbad. unfold log_trip. run_io.
  destruct (fromisoformat (strip s)) as [start_dt|] eqn:Es.
  - destruct Hbad as [?|He]; [done|]. rewrite He. cbn. eauto.
  - cbn. eauto.
Qed.

Lemma log_trip_bad_miles fs trip_id name dtype s e m rest o l start_dt end_dt :
  fromisoformat (strip s) = Some start_dt -> fromisoformat (strip e) = Some end_dt ->
  float_of_str (strip m) = None ->
  exists o' l',
    log_trip (World fs (trip_id :: name :: dtype :: s :: e :: m :: rest) o l)
    = (Ok tt, World fs rest (o' ++ ["Error: Miles must be a number. Trip not logged."]) l').
Proof.
  intros Hs He Hm. unfold log_trip. run_io. rewrite Hs, He. cbn. rewrite Hm. cbn. eauto.
Qed.

Lemma log_trip_bad_revenue fs trip_id name dtype s e m r rest o l start_dt end_dt miles :
  fromisoformat (strip s) = Some start_dt -> fromisoformat (strip e) = Some end_dt ->
  float_of_str (strip m) = Some miles ->
  lower (strip dtype) = "owner" -> float_of_str (strip r) = None ->
  exists o' l',
    log_trip (World fs (trip_id :: name :: dtype :: s :: e :: m :: r :: rest) o l)
    = (Ok tt, World fs rest (o' ++ ["Error: Revenue must be a number. Trip not logged."]) l').
Proof.
  intros Hs He Hm Hd Hr. unfold log_trip. run_io.
  rewrite Hs, He. cbn. rewrite Hm, Hd. cbn. rewrite String.eqb_refl. cbn.
  rewrite Hr. cbn. eauto.
Qed.

Lemma log_expense_bad_amount fs name a rest o l :
  float_of_str (strip a) = None ->
  exists o' l',
    log_expense (World fs (name :: a :: rest) o l)
    = (Ok tt, World fs rest
         (o' ++ ["Error: Expense amount must be a number. Expense not logged."]) l').
Proof.
  intros Ha. unfold log_expense. run_io. rewrite Ha. cbn. eauto.
Qed.

Lemma log_expense_bad_date fs name a description d rest o l amount :
  float_of_str (strip a) = Some amount -> fromisoformat (strip d) = None ->
  exists o' l',
    log_expense (World fs (name :: a :: description :: d :: rest) o l)
    = (Ok tt, World fs rest (o' ++ ["Error: Invalid date format. Use YYYY-MM-DD."]) l').
Proof.
  intros Ha Hd. unfold log_expense. run_io. rewrite Ha. cbn. rewrite Hd. cbn. eauto.
Qed.

Lemma log_trip_bad_expense fs trip_id name dtype s e m revenue_answers add x rest o l
    start_dt end_dt miles :
  fromisoformat (strip s) = Some start_dt -> fromisoformat (strip e) = Some end_dt ->
  float_of_str (strip m) = Some miles ->
  (if String.eqb (lower (strip dtype)) "owner"
   then exists r revenue, revenue_answers = [r] /\ float_of_str (strip r) = Some revenue
   else revenue_answers = []) ->
  lower (strip add) = "y" -> float_of_str (strip x) = None ->
  exists pay o' l',
    log_trip (World fs (trip_id :: name :: dtype :: s :: e :: m :: revenue_answers
                        ++ add :: x :: rest) o l)
    = (Ok tt,
       World (<["trips.csv" :=
                 appended trip_header
                   [strip trip_id; strip name; lower (strip dtype);
                    isoformat (replace_tzinfo start_dt); isoformat (replace_tzinfo end_dt);
                    format_2f (hours_between (replace_tzinfo end_dt) (replace_tzinfo start_dt));
                    format_2f miles; format_2f pay; format_2f 0; EmptyString]
                   (fs !! "trips.csv")]> fs)
         rest
         (o' ++ ["Error: Expense amount must be a number. Expense not logged for trip.";
                 "Trip " +:+ strip trip_id +:+ " logged successfully."])
         l').
Proof.
  intros Hs He Hm Hrev Hadd Hx. unfold log_trip, calculate_pay. run_io.
  rewrite Hs, He. cbn. rewrite Hm. cbn.
  destruct (String.eqb (lower (strip dtype)) "owner") eqn:Ho.
  - destruct Hrev as (r & revenue & -> & Hr). cbn. rewrite Hr. cbn.
    destruct (String.eqb (lower (strip dtype)) "company"); cbn;
      rewrite Hadd, String.eqb_refl; cbn; rewrite Hx; cbn; rewrite write_to_csv_run; cbn;
      eexists _, _, _; rewrite <- (app_assoc _ [_] [_]); reflexivity.
  - subst revenue_answers. cbn.
    destruct (String.eqb (lower (strip dtype)) "company"); cbn;
      rewrite Hadd, String.eqb_refl; cbn; rewrite Hx; cbn; rewrite write_to_csv_run; cbn;
      eexists _, _, _; rewrite <- (app_assoc _ [_] [_]); reflexivity.
Qed.

End WithDatetime.

Lemma DictReader_writerows header rows :
  DictReader (writerow header +:+ writerows rows)
  = if rows_within_limit (header :: rows)
    then Some (map (dict_row header) (filter (fun r => negb (is_blank r)) rows))
    else None.
Proof.
  unfold DictReader.
  change (writerow header +:+ writerows rows) with (writerows (header :: rows)).
  rewrite csv_reader_writerows. by destruct (rows_within_limit (header :: rows)).
Qed.

Lemma appended_kept header row old :
  csv_kept header old ->
  exists rows, appended header row old = writerow header +:+ writerows (rows ++ [row])
    /\ (old = None -> rows = [])
    /\ (forall text, old = Some text -> text = writerow header +:+ writerows rows).
Proof.
  intros [-> | [rows ->]].
  - exists []. cbn. rewrite app_Empty_r. by repeat split.
  - exists rows. cbn. rewrite writerows_app. cbn. rewrite app_Empty_r, app_assoc_str.
    repeat split; [done | by intros ? [= <-]].
Qed.

Lemma csv_readable_Some (fs : gmap string string) path text :
  fs !! path = Some text -> csv_readable fs path = true -> is_Some (csv_reader text).
Proof. unfold csv_readable. intros ->. apply bool_decide_eq_true_1. Qed.

Lemma csv_readable_rows_of (fs : gmap string string) path :
  csv_readable fs path = true <-> is_Some (rows_of fs path).
Proof.
  unfold csv_readable, rows_of, DictReader. destruct (fs !! path) as [text|]; [|by split].
  rewrite bool_decide_eq_true. by destruct (csv_reader text); split; intros [? ?].
Qed.

(** A file kept by [write_to_csv] and the row appended to it: where the
    reader reads the new file to its end, it read the old one, and the new
    row comes after the rows of the old. *)
Lemma rows_of_appended header (fs fs' : gmap string string) path row :
  csv_kept header (fs !! path) ->
  fs' !! path = Some (appended header row (fs !! path)) ->
  row <> [] ->
  csv_readable fs' path = true ->
  exists rows,
    rows_of fs path = Some rows /\ rows_of fs' path = Some (rows ++ [dict_row header row]).
Proof.
  intros Hkept Hnew Hrow Hread.
  destruct (appended_kept header row _ Hkept) as (rows & Happ & Hnone & Hsome).
  apply (csv_readable_Some _ _ _ Hnew) in Hread. rewrite Happ in Hread.
  change (writerow header +:+ writerows (rows ++ [row]))
    with (writerows (header :: rows ++ [row])) in Hread.
  rewrite csv_reader_writerows in Hread.
  destruct (rows_within_limit (header :: rows ++ [row])) eqn:Hlimit; [|by destruct Hread].
  assert (rows_within_limit (header :: rows) = true) as Hold.
  { change (header :: rows ++ [row]) with ((header :: rows) ++ [row]) in Hlimit.
    rewrite rows_within_limit_app in Hlimit. by apply andb_prop in Hlimit as [-> _]. }
  exists (map (dict_row header) (filter (fun r => negb (is_blank r)) rows)). split.
  - unfold rows_of. destruct (fs !! path) as [text|].
    + by rewrite (Hsome text eq_refl), DictReader_writerows, Hold.
    + by rewrite (Hnone eq_refl).
  - unfold rows_of. rewrite Hnew, Happ, DictReader_writerows, Hlimit.
    rewrite filter_app, map_app.
    assert (filter (fun r => negb (is_blank r)) [row] = [row]) as -> by (by destruct row).
    reflexivity.
Qed.

Lemma trip_totals_appended (fs fs' : gmap string string) row :
  csv_kept trip_header (fs !! "trips.csv") ->
  fs' !! "trips.csv" = Some (appended trip_header row (fs !! "trips.csv")) ->
  row <> [] ->
  csv_readable fs' "trips.csv" = true ->
  exists totals,
    trip_totals fs = Some totals
    /\ trip_totals fs' = Some (add_trip_row totals (dict_row trip_header row)).
Proof.
  intros Hkept Hnew Hrow Hread.
  destruct (rows_of_appended _ _ _ _ _ Hkept Hnew Hrow Hread) as (rows & Hold & Hrows).
  unfold trip_totals. rewrite Hold, Hrows. cbn. eexists. split; [done|].
  by rewrite fold_left_app.
Qed.

Lemma float_of_field_str s v :
  float_of_str s = Some v -> float_of_field (Some (Some s)) = Some v.
Proof. destruct s; [discriminate | done]. Qed.

Section WithDatetime.
Context `{Datetime}.

(** C8, amended. A trip that [log_trip] reports as logged is one more row of
    [trips.csv] whose Miles and Pay fields [float] reads; when the file was
    absent before, or was the header and rows the writer wrote, and the
    reader reads both files to their end, no field being longer than its
    field size limit, a following [export_data] adds exactly these two
    values, once, to what the totals of the earlier rows were. *)
Theorem log_trip_export_round_trip (w : world) (id : string) :
  csv_kept trip_header (files w !! "trips.csv") ->
  last (stdout (log_trip w).2) = Some ("Trip " +:+ id +:+ " logged successfully.") ->
  csv_readable (files (log_trip w).2) "trips.csv" = true ->
  csv_readable (files (log_trip w).2) "expenses.csv" = true ->
  exists row miles_field pay_field miles pay total_miles total_pay total_expenses,
    files (log_trip w).2 !! "trips.csv"
    = Some (appended trip_header row (files w !! "trips.csv"))
    /\ dict_get (dict_row trip_header row) "Miles" = Some (Some miles_field)
    /\ dict_get (dict_row trip_header row) "Pay" = Some (Some pay_field)
    /\ float_of_str miles_field = Some miles
    /\ float_of_str pay_field = Some pay
    /\ trip_totals (files w) = Some (total_miles, total_pay)
    /\ trip_totals (files (log_trip w).2)
       = Some ((total_miles + miles)%float, (total_pay + pay)%float)
    /\ expense_total (files (log_trip w).2) = Some total_expenses
    /\ exists w',
         export_data (log_trip w).2 = (Ok tt, w')
         /\ files w' !! summary_file
            = Some (summary_text (total_miles + miles)%float (total_pay + pay)%float
                                 total_expenses).
Proof.
  intros Hkept Hlast Htrips Hexpenses. destruct w as [fs i o l]. cbn [files] in *.
  destruct (log_trip_logged_inv fs i o l _ Hlast)
    as (a & b & c & d & e & f & miles & pay & g & h & Hfile).
  destruct (format_2f_parses miles) as [m Hm].
  destruct (format_2f_parses pay) as [p Hp].
  destruct (trip_totals_appended fs _ _ Hkept Hfile) as ([tm tp] & Hold & Hnew); [done..|].
  apply csv_readable_rows_of in Hexpenses as [expense_rows Hexpenses].
  exists [a; b; c; d; e; f; format_2f miles; format_2f pay; g; h],
    (format_2f miles), (format_2f pay), m, p, tm, tp,
    (fold_left add_expense_row expense_rows 0%float).
  assert (trip_totals (files (log_trip (World fs i o l)).2)
          = Some ((tm + m)%float, (tp + p)%float)) as Htot.
  { rewrite Hnew. unfold add_trip_row.
    change (dict_get (dict_row trip_header [a; b; c; d; e; f; format_2f miles; format_2f pay; g; h]) "Miles")
      with (Some (Some (format_2f miles))).
    change (dict_get (dict_row trip_header [a; b; c; d; e; f; format_2f miles; format_2f pay; g; h]) "Pay")
      with (Some (Some (format_2f pay))).
    by rewrite (float_of_field_str _ _ Hm), (float_of_field_str _ _ Hp). }
  assert (expense_total (files (log_trip (World fs i o l)).2)
          = Some (fold_left add_expense_row expense_rows 0%float)) as Hexp.
  { unfold expense_total. by rewrite Hexpenses. }
  repeat split; try done.
  eexists. split; [rewrite export_data_run, Htot, Hexp; reflexivity|].
  cbn [files]. by rewrite lookup_insert_eq.
Qed.

End WithDatetime.

(** *** Runs *)

(** The offsets of the sample zone around changes of its clocks: the hour
    that the start of daylight saving time skips is still at the standard
    offset, the hour that its end repeats is still at the daylight offset;
    before 2007 the changes are those of their year; before standard time
    the offset is that of local mean time. *)
Lemma minute_datetime_offsets :
  map (fun s => isoformat (Datetime:=minute_datetime) <$> parse_stamp s)
      ["2024-03-10 02:59"; "2024-03-10 03:00"; "2024-11-03 01:59"; "2024-11-03 02:00";
       "2006-04-02 03:00"; "2006-03-12 03:00"; "1883-11-18 12:03"; "1883-11-18 12:04"]
  = [Some "2024-03-10T02:59:00-05:00"; Some "2024-03-10T03:00:00-04:00";
     Some "2024-11-03T01:59:00-04:00"; Some "2024-11-03T02:00:00-05:00";
     Some "2006-04-02T03:00:00-04:00"; Some "2006-03-12T03:00:00-05:00";
     Some "1883-11-18T12:03:00-04:56:02"; Some "1883-11-18T12:04:00-05:00"].
Proof. vm_compute. reflexivity. Qed.


(** C4, as stated, fails: the expense amount of this trip does not parse,
    and the trip row is appended all the same. *)
Lemma bad_expense_amount_still_logs_trip :
  float_of_str (strip "abc") = None
  /\ log_trip (World ∅ trip_with_bad_expense [] [])
     = (Ok tt,
        World {[ "trips.csv" := writerows [trip_header; trip_row_T1] ]} []
          ["Enter Trip ID: "; "Enter Driver Name: "; "Enter Driver Type (company/owner): ";
           "Enter Start Time (YYYY-MM-DD HH:MM, local time): ";
           "Enter End Time (YYYY-MM-DD HH:MM, local time): ";
           "Enter miles driven: "; "Any expense to log for this trip? (y/n): ";
           "  Enter expense amount: ";
           "Error: Expense amount must be a number. Expense not logged for trip.";
           "Trip T1 logged successfully."]
          [(ERROR, "Expense amount must be numeric.");
           (INFO, "Logged trip T1 for driver Ann.")]).
Proof. split; vm_compute; reflexivity. Qed.


(** C4, amended. Every answer of [log_trip] or [log_expense] that must parse
    and does not (a date and time, the miles, the revenue of an owner, the
    amount or the date of an expense) is reported, the operation returns
    without raising, and no file is touched. The amount of the optional
    expense of a trip is the exception: it is reported, no expense row is
    written, and the trip row is appended with an expense of 0.00 and no
    description. Whatever the answers, the menu goes on to its next turn on
    the state the operation left. *)
Theorem malformed_input_handling `{Datetime} (fs : gmap string string)
    (o : list string) (l : list (level * string)) (rest : list string) :
  (forall trip_id name dtype s e,
     fromisoformat (strip s) = None \/ fromisoformat (strip e) = None ->
     exists o' l',
       log_trip (World fs (trip_id :: name :: dtype :: s :: e :: rest) o l)
       = (Ok tt, World fs rest (o' ++ ["Error: Invalid date/time format. Trip not logged."]) l'))
  /\ (forall trip_id name dtype s e m start_dt end_dt,
     fromisoformat (strip s) = Some start_dt -> fromisoformat (strip e) = Some end_dt ->
     float_of_str (strip m) = None ->
     exists o' l',
       log_trip (World fs (trip_id :: name :: dtype :: s :: e :: m :: rest) o l)
       = (Ok tt, World fs rest (o' ++ ["Error: Miles must be a number. Trip not logged."]) l'))
  /\ (forall trip_id name dtype s e m r start_dt end_dt miles,
     fromisoformat (strip s) = Some start_dt -> fromisoformat (strip e) = Some end_dt ->
     float_of_str (strip m) = Some miles ->
     lower (strip dtype) = "owner" -> float_of_str (strip r) = None ->
     exists o' l',
       log_trip (World fs (trip_id :: name :: dtype :: s :: e :: m :: r :: rest) o l)
       = (Ok tt, World fs rest (o' ++ ["Error: Revenue must be a number. Trip not logged."]) l'))
  /\ (forall name a,
     float_of_str (strip a) = None ->
     exists o' l',
       log_expense (World fs (name :: a :: rest) o l)
       = (Ok tt, World fs rest
            (o' ++ ["Error: Expense amount must be a number. Expense not logged."]) l'))
  /\ (forall name a description d amount,
     float_of_str (strip a) = Some amount -> fromisoformat (strip d) = None ->
     exists o' l',
       log_expense (World fs (name :: a :: description :: d :: rest) o l)
       = (Ok tt, World fs rest (o' ++ ["Error: Invalid date format. Use YYYY-MM-DD."]) l'))
  /\ (forall trip_id name dtype s e m revenue_answers add x start_dt end_dt miles,
     fromisoformat (strip s) = Some start_dt -> fromisoformat (strip e) = Some end_dt ->
     float_of_str (strip m) = Some miles ->
     (if String.eqb (lower (strip dtype)) "owner"
      then exists r revenue, revenue_answers = [r] /\ float_of_str (strip r) = Some revenue
      else revenue_answers = []) ->
     lower (strip add) = "y" -> float_of_str (strip x) = None ->
     exists pay o' l',
       log_trip (World fs (trip_id :: name :: dtype :: s :: e :: m :: revenue_answers
                           ++ add :: x :: rest) o l)
       = (Ok tt,
          World (<["trips.csv" :=
                    appended trip_header
                      [strip trip_id; strip name; lower (strip dtype);
                       isoformat (replace_tzinfo start_dt); isoformat (replace_tzinfo end_dt);
                       format_2f (hours_between (replace_tzinfo end_dt) (replace_tzinfo start_dt));
                       format_2f miles; format_2f pay; format_2f 0; EmptyString]
                      (fs !! "trips.csv")]> fs)
            rest
            (o' ++ ["Error: Expense amount must be a number. Expense not logged for trip.";
                    "Trip " +:+ strip trip_id +:+ " logged successfully."])
            l'))
  /\ (forall turns answers,
     main_menu (S turns) (World fs ("1" :: answers) o l)
     = main_menu turns
         (log_trip (World fs answers ((o ++ menu_lines) ++ ["Enter your choice: "]) l)).2
     /\ main_menu (S turns) (World fs ("2" :: answers) o l)
        = main_menu turns
            (log_expense (World fs answers ((o ++ menu_lines) ++ ["Enter your choice: "]) l)).2).
Proof.
  split; [intros; by apply log_trip_bad_dates|].
  split; [intros; by eapply log_trip_bad_miles|].
  split; [intros; by eapply log_trip_bad_revenue|].
  split; [intros; by apply log_expense_bad_amount|].
  split; [intros; by eapply log_expense_bad_date|].
  split; [intros; by eapply log_trip_bad_expense|].
  intros turns answers. split; [apply main_menu_log_trip | apply main_menu_log_expense].
Qed.

Lemma malformed_input_handling_witness :
  (exists o' l',
     log_trip (World ∅ ["T1"; "Ann"; "company"; "tomorrow"; "2024-01-01 10:30"] [] [])
     = (Ok tt, World ∅ [] (o' ++ ["Error: Invalid date/time format. Trip not logged."]) l'))
  /\ (exists o' l',
     log_trip (World ∅ ["T1"; "Ann"; "company"; "2024-01-01 08:00"; "2024-01-01 10:30"; "far"] [] [])
     = (Ok tt, World ∅ [] (o' ++ ["Error: Miles must be a number. Trip not logged."]) l'))
  /\ (exists o' l',
     log_expense (World ∅ [EmptyString; "12,50"] [] [])
     = (Ok tt, World ∅ []
          (o' ++ ["Error: Expense amount must be a number. Expense not logged."]) l'))
  /\ (exists row o' l',
     log_trip (World ∅ ["T1"; "Ann"; "company"; "2024-01-01 08:00"; "2024-01-01 10:30";
                        "100"; "y"; "abc"] [] [])
     = (Ok tt,
        World (<["trips.csv" := appended trip_header row None]> ∅) []
          (o' ++ ["Error: Expense amount must be a number. Expense not logged for trip.";
                  "Trip " +:+ strip "T1" +:+ " logged successfully."])
          l')).
Proof.
  destruct (malformed_input_handling (H:=minute_datetime) ∅ [] [] [])
    as (Hdates & Hmiles & _ & Hamount & _ & Hexpense & _).
  repeat split.
  - apply (Hdates "T1" "Ann" "company" "tomorrow" "2024-01-01 10:30").
    left. vm_compute. reflexivity.
  - apply (Hmiles "T1" "Ann" "company" "2024-01-01 08:00" "2024-01-01 10:30" "far"
             (Stamp 2024 1 1 8 0) (Stamp 2024 1 1 10 30)); vm_compute; reflexivity.
  - apply (Hamount EmptyString "12,50"). vm_compute. reflexivity.
  - destruct (Hexpense "T1" "Ann" "company" "2024-01-01 08:00" "2024-01-01 10:30" "100" []
                "y" "abc" (Stamp 2024 1 1 8 0) (Stamp 2024 1 1 10 30) 100%float)
      as (pay & o' & l' & Hrun); try (vm_compute; reflexivity).
    eexists _, o', l'. exact Hrun.
Defined.



(** C2, at the failing input: the one row of this [trips.csv] has Miles
    10.00 and a Pay that is no number. The row is not passed over: its miles
    are in the total. *)
Theorem export_data_adds_miles_of_bad_row :
  float_of_str "abc" = None
  /\ DictReader trips_bad_pay
     = Some [dict_row trip_header
               ["T1"; "Ann"; "company"; "2024-01-01T08:00:00-05:00";
                "2024-01-01T10:30:00-05:00"; "2.50"; "10.00"; "abc"; "0.00"; EmptyString]]
  /\ trip_totals {[ "trips.csv" := trips_bad_pay ]} = Some (10%float, 0%float)
  /\ files (export_data (World {[ "trips.csv" := trips_bad_pay ]} [] [] [])).2 !! summary_file
     = Some (writerows [["Metric"; "Amount"]; ["Total Miles"; "10.00"];
                        ["Total Pay"; "$0.00"]; ["Total Expenses"; "$0.00"]]).
Proof. repeat split; vm_compute; reflexivity. Qed.

(** What the loop over [trips.csv] adds for a row, case by case. *)
Lemma add_trip_row_cases total_miles total_pay row :
  add_trip_row (total_miles, total_pay) row
  = match float_of_field (dict_get row "Miles"), float_of_field (dict_get row "Pay") with
    | None, _ => (total_miles, total_pay)
    | Some miles, None => ((total_miles + miles)%float, total_pay)
    | Some miles, Some pay => ((total_miles + miles)%float, (total_pay + pay)%float)
    end.
Proof. unfold add_trip_row. by destruct (float_of_field (dict_get row "Miles")). Qed.

(** *** The round trip of a trip *)

Lemma log_trip_export_round_trip_witness :
  exists miles pay w',
    trip_totals (files (log_trip (World ∅ trip_company_100 [] [])).2)
    = Some ((0 + miles)%float, (0 + pay)%float)
    /\ export_data (log_trip (World ∅ trip_company_100 [] [])).2 = (Ok tt, w')
    /\ files w' !! summary_file
       = Some (summary_text (0 + miles)%float (0 + pay)%float 0%float).
Proof.
  destruct (log_trip_export_round_trip (H:=minute_datetime)
              (World ∅ trip_company_100 [] []) "T1")
    as (row & mf & pf & m & p & tm & tp & te & _ & _ & _ & _ & _ & Hold & Htot & Hexp
        & w' & Hrun & Hsum).
  - by left.
  - vm_compute. reflexivity.
  - vm_compute. reflexivity.
  - vm_compute. reflexivity.
  - vm_compute in Hold. injection Hold as <- <-.
    vm_compute in Hexp. injection Hexp as <-.
    exists m, p, w'. split; [exact Htot|]. split; [exact Hrun|]. exact Hsum.
Defined.

(** C8, as stated, fails: [trips.csv] exists and is empty, so no header is
    written; the row of the trip becomes the line of field names and adds
    nothing to the totals. *)
Lemma headerless_trip_adds_nothing :
  last (stdout (log_trip empty_trips_world).2) = Some "Trip T1 logged successfully."
  /\ files (log_trip empty_trips_world).2 !! "trips.csv"
     = Some (writerow ["T1"; "Ann"; "company"; "2024-01-01T08:00:00-05:00";
                       "2024-01-01T10:30:00-05:00"; "2.50"; "100.00"; "50.00"; "0.00";
                       EmptyString])
  /\ trip_totals (files (log_trip empty_trips_world).2) = Some (0%float, 0%float)
  /\ files (export_data (log_trip empty_trips_world).2).2 !! summary_file
     = Some (writerows [["Metric"; "Amount"]; ["Total Miles"; "0.00"];
                        ["Total Pay"; "$0.00"]; ["Total Expenses"; "$0.00"]]).
Proof. repeat split; vm_compute; reflexivity. Qed.

(** *** The records of a trip and of an expense *)

Section Records.
Context `{Datetime}.

#[local] Arguments format_2f : simpl never.
#[local] Arguments float_of_str : simpl never.
#[local] Arguments strip : simpl never.
#[local] Arguments lower : simpl never.
#[local] Arguments writerow : simpl never.
#[local] Arguments appended : simpl never.
#[local] Arguments String.eqb : simpl never.
#[local] Arguments write_to_csv : simpl never.

Ltac run_io :=
  unfold input_float, input_strip, input in *; run.

(** The state [log_expense] reaches on answers that parse. *)
Lemma log_expense_run fs name a description d rest o l amount dt :
  float_of_str (strip a) = Some amount -> fromisoformat (strip d) = Some dt ->
  exists o',
    log_expense (World fs (name :: a :: description :: d :: rest) o l)
    = (Ok tt,
       World (<["expenses.csv" :=
                 appended expense_header
                   [date_isoformat (to_date dt);
                    if String.eqb (strip name) EmptyString then "General" else strip name;
                    format_2f amount; strip description]
                   (fs !! "expenses.csv")]> fs)
         rest
         (o' ++ ["Expense logged successfully."])
         (l ++ [(INFO, "Expense logged: "
                       +:+ (if String.eqb (strip name) EmptyString then "General" else strip name)
                       +:+ " - $" +:+ format_2f amount +:+ " for " +:+ strip description +:+ ".")])).
Proof.
  intros Ha Hd. unfold log_expense, log_expense_record. run_io.
  rewrite Ha. cbn. rewrite Hd. cbn. rewrite write_to_csv_run. cbn.
  eexists. reflexivity.
Qed.

(** The pay of a trip, as [log_trip] has it from [calculate_pay]. *)
Lemma calculate_pay_run driver_type miles revenue w :
  calculate_pay driver_type miles revenue w
  = (Ok (if String.eqb driver_type "company" then (miles * PAY_RATE_PER_MILE)%float
         else if String.eqb driver_type "owner" then (revenue * OWNER_OPERATOR_PERCENTAGE)%float
         else 0%float),
     World (files w) (stdin w) (stdout w)
       (log w ++ if String.eqb driver_type "company" || String.eqb driver_type "owner"
                 then [] else [(WARNING, "Unknown driver type '%s'. Pay set to 0.")])).
Proof.
  destruct w as [fs i o l]. unfold calculate_pay.
  destruct (String.eqb driver_type "company"); [by rewrite app_nil_r|].
  destruct (String.eqb driver_type "owner"); [by rewrite app_nil_r|].
  reflexivity.
Qed.

(** The state [log_trip] reaches on answers that parse, where no expense is
    asked for. *)
Lemma log_trip_run fs trip_id name dtype s e m revenue_answers add rest o l
    start_dt end_dt miles revenue :
  fromisoformat (strip s) = Some start_dt -> fromisoformat (strip e) = Some end_dt ->
  float_of_str (strip m) = Some miles ->
  (if String.eqb (lower (strip dtype)) "owner"
   then exists r, revenue_answers = [r] /\ float_of_str (strip r) = Some revenue
   else revenue_answers = [] /\ revenue = 0%float) ->
  lower (strip add) <> "y" ->
  exists o',
    log_trip (World fs (trip_id :: name :: dtype :: s :: e :: m :: revenue_answers
                        ++ add :: rest) o l)
    = (Ok tt,
       World (<["trips.csv" :=
                 appended trip_header
                   [strip trip_id; strip name; lower (strip dtype);
                    isoformat (replace_tzinfo start_dt); isoformat (replace_tzinfo end_dt);
                    format_2f (hours_between (replace_tzinfo end_dt) (replace_tzinfo start_dt));
                    format_2f miles;
                    format_2f
                      (if String.eqb (lower (strip dtype)) "company"
                       then (miles * PAY_RATE_PER_MILE)%float
                       else if String.eqb (lower (strip dtype)) "owner"
                       then (revenue * OWNER_OPERATOR_PERCENTAGE)%float
                       else 0%float);
                    format_2f 0; EmptyString]
                   (fs !! "trips.csv")]> fs)
         rest
         (o' ++ ["Trip " +:+ strip trip_id +:+ " logged successfully."])
         ((l ++ if String.eqb (lower (strip dtype)) "company"
                   || String.eqb (lower (strip dtype)) "owner"
                then [] else [(WARNING, "Unknown driver type '%s'. Pay set to 0.")])
          ++ [(INFO, "Logged trip " +:+ strip trip_id +:+ " for driver " +:+ strip name +:+ ".")])).
Proof.
  intros Hs He Hm Hrev Hadd. unfold log_trip. run_io.
  rewrite Hs, He. cbn. rewrite Hm. cbn.
  apply String.eqb_neq in Hadd.
  destruct (String.eqb (lower (strip dtype)) "owner") eqn:Ho.
  - destruct Hrev as (r & -> & Hr). cbn. rewrite Hr. cbn.
    rewrite calculate_pay_run. cbn. rewrite Ho, Hadd. cbn. rewrite write_to_csv_run. cbn.
    eexists. reflexivity.
  - destruct Hrev as [-> ->]. cbn.
    rewrite calculate_pay_run. cbn. rewrite Ho, Hadd. cbn. rewrite write_to_csv_run. cbn.
    eexists. reflexivity.
Qed.

(** The state [log_trip] reaches on answers that parse, with an expense. *)
Lemma log_trip_expense_run fs trip_id name dtype s e m revenue_answers add x description rest
    o l start_dt end_dt miles revenue amount :
  fromisoformat (strip s) = Some start_dt -> fromisoformat (strip e) = Some end_dt ->
  float_of_str (strip m) = Some miles ->
  (if String.eqb (lower (strip dtype)) "owner"
   then exists r, revenue_answers = [r] /\ float_of_str (strip r) = Some revenue
   else revenue_answers = [] /\ revenue = 0%float) ->
  lower (strip add) = "y" -> float_of_str (strip x) = Some amount ->
  exists o' l',
    log_trip (World fs (trip_id :: name :: dtype :: s :: e :: m :: revenue_answers
                        ++ add :: x :: description :: rest) o l)
    = (Ok tt,
       World (<["trips.csv" :=
                 appended trip_header
                   [strip trip_id; strip name; lower (strip dtype);
                    isoformat (replace_tzinfo start_dt); isoformat (replace_tzinfo end_dt);
                    format_2f (hours_between (replace_tzinfo end_dt) (replace_tzinfo start_dt));
                    format_2f miles;
                    format_2f
                      (if String.eqb (lower (strip dtype)) "company"
                       then (miles * PAY_RATE_PER_MILE)%float
                       else if String.eqb (lower (strip dtype)) "owner"
                       then (revenue * OWNER_OPERATOR_PERCENTAGE)%float
                       else 0%float);
                    format_2f amount; strip description]
                   (fs !! "trips.csv")]>
                (<["expenses.csv" :=
                    appended expense_header
                      [date_isoformat (to_date (replace_tzinfo start_dt));
                       str_or (strip name) "General"; format_2f amount; strip description]
                      (fs !! "expenses.csv")]> fs))
         rest
         (o' ++ ["Trip " +:+ strip trip_id +:+ " logged successfully."])
         l').
Proof.
  intros Hs He Hm Hrev Hadd Hx. unfold log_trip, log_expense_record. run_io.
  rewrite Hs, He. cbn. rewrite Hm. cbn.
  destruct (String.eqb (lower (strip dtype)) "owner") eqn:Ho.
  - destruct Hrev as (r & -> & Hr). cbn. rewrite Hr. cbn.
    rewrite calculate_pay_run. cbn. rewrite Ho, Hadd, String.eqb_refl. cbn. rewrite Hx. cbn.
    repeat (rewrite write_to_csv_run; cbn).
    rewrite lookup_insert_ne by done.
    eexists _, _. reflexivity.
  - destruct Hrev as [-> ->]. cbn.
    rewrite calculate_pay_run. cbn. rewrite Ho, Hadd, String.eqb_refl. cbn. rewrite Hx. cbn.
    repeat (rewrite write_to_csv_run; cbn).
    rewrite lookup_insert_ne by done.
    eexists _, _. reflexivity.
Qed.

(** Every path of [log_trip] and [log_expense] leaves of the pending input a
    part of what it was. *)
Ltac walk :=
  repeat first
    [ progress cbn
    | rewrite write_to_csv_run
    | match goal with
      | |- context [match fromisoformat ?s with _ => _ end] =>
          destruct (fromisoformat s) eqn:?
      | |- context [match float_of_str ?s with _ => _ end] =>
          destruct (float_of_str s) eqn:?
      | |- context [if String.eqb ?a ?b then _ else _] =>
          destruct (String.eqb a b) eqn:?
      | |- context [match ?i with [] => _ | _ :: _ => _ end] =>
          is_var i; destruct i
      end ].

Lemma log_trip_stdin fs i o l :
  (length (stdin (log_trip (World fs i o l)).2) <= length i)%nat.
Proof.
  unfold log_trip, log_expense_record, calculate_pay. run_io.
  walk; lia.
Qed.

Lemma log_expense_stdin fs i o l :
  (length (stdin (log_expense (World fs i o l)).2) <= length i)%nat.
Proof.
  unfold log_expense, log_expense_record. run_io.
  walk; lia.
Qed.

(** An operation that does not report success has written nothing. *)
Lemma log_trip_all_or_nothing fs i o l :
  files (log_trip (World fs i o l)).2 = fs
  \/ exists trip_id,
       last (stdout (log_trip (World fs i o l)).2)
       = Some ("Trip " +:+ trip_id +:+ " logged successfully.").
Proof.
  unfold log_trip, log_expense_record, calculate_pay. run_io.
  walk; first [by left | right; rewrite last_snoc; by eexists].
Qed.

Lemma log_expense_all_or_nothing fs i o l :
  files (log_expense (World fs i o l)).2 = fs
  \/ last (stdout (log_expense (World fs i o l)).2) = Some "Expense logged successfully.".
Proof.
  unfold log_expense, log_expense_record. run_io.
  walk; first [by left | right; by rewrite last_snoc].
Qed.

End Records.

(** *** [upload_receipt] *)

Lemma receipts_path p : path_join "receipts" (basename p) = "receipts/" +:+ basename p.
Proof.
  unfold path_join. by rewrite (has_slash_not_absolute _ (has_slash_basename p)).
Qed.

Section Receipts.

#[local] Arguments strip : simpl never.
#[local] Arguments basename : simpl never.
#[local] Arguments path_join : simpl never.

Lemma upload_receipt_run fs i o l :
  upload_receipt (World fs i o l)
  = match i with
    | [] =>
        (Raise EOFError,
         World fs [] (o ++ ["Enter the path to the receipt/document file: "]) l)
    | path :: rest =>
        match fs !! strip path with
        | None =>
            (Ok tt,
             World fs rest
               (o ++ ["Enter the path to the receipt/document file: ";
                      "Error: File not found. Please check the path and try again."])
               (l ++ [(ERROR, "Receipt upload failed - file not found: %s")]))
        | Some text =>
            (Ok tt,
             World (<["receipts/" +:+ basename (strip path) := text]> fs) rest
               (o ++ ["Enter the path to the receipt/document file: ";
                      "Receipt '" +:+ basename (strip path)
                      +:+ "' uploaded to the 'receipts' folder."])
               (l ++ [(INFO, "Uploaded receipt '" +:+ basename (strip path)
                             +:+ "' to receipts directory.")]))
        end
    end.
Proof.
  unfold upload_receipt, Logger.shutil_copy.
  unfold input_strip, input. run.
  destruct i as [|path rest]; [reflexivity|]. cbn.
  destruct (fs !! strip path) as [text|] eqn:E; cbn.
  - rewrite E. cbn. rewrite receipts_path. by rewrite <- !app_assoc.
  - by rewrite <- !app_assoc.
Qed.

End Receipts.

(** *** [main_menu] *)

Section Menu.
Context `{Datetime}.

Lemma main_menu_S n fs i o l :
  main_menu (S n) (World fs i o l)
  = match i with
    | [] => (Raise EOFError, World fs [] ((o ++ menu_lines) ++ ["Enter your choice: "]) l)
    | c :: rest =>
        (if String.eqb (strip c) "1" then log_trip;; main_menu n
         else if String.eqb (strip c) "2" then log_expense;; main_menu n
         else if String.eqb (strip c) "3" then upload_receipt;; main_menu n
         else if String.eqb (strip c) "4" then export_data;; main_menu n
         else if String.eqb (strip c) "5" then print "Exiting Driver Log. Goodbye!"
         else (print "Invalid choice. Please enter a number from 1-5.";; main_menu n))
          (World fs rest ((o ++ menu_lines) ++ ["Enter your choice: "]) l)
    end.
Proof.
  cbn [main_menu]. unfold mbind at 1, M_bind at 1. rewrite print_lines_run.
  unfold input_strip, input. unfold mbind at 1, M_bind at 1. unfold mbind at 1, M_bind at 1.
  cbn [files stdin stdout log]. destruct i as [|c rest]; reflexivity.
Qed.

Lemma menu_operation_log_trip : menu_operation log_trip.
Proof.
  intros [fs i o l]. split; [apply log_trip_stdin|]. left. apply log_trip_returns.
Qed.

Lemma menu_operation_log_expense : menu_operation log_expense.
Proof.
  intros [fs i o l]. split; [apply log_expense_stdin|]. left. apply log_expense_returns.
Qed.

Lemma menu_operation_upload_receipt : menu_operation upload_receipt.
Proof.
  intros [fs i o l]. rewrite upload_receipt_run.
  destruct i as [|path rest]; [by split; [|right]|].
  destruct (fs !! strip path); cbn; (split; [lia | by left]).
Qed.

Lemma menu_operation_export_data : menu_operation export_data.
Proof.
  intros w. rewrite export_data_run.
  by destruct (trip_totals (files w)) as [[? ?]|], (expense_total (files w)); (split; [|left]).
Qed.

Lemma menu_operation_print line : menu_operation (print line).
Proof. intros w. by split; [|left]. Qed.

(** One turn of the loop after the choice: the operation, then the turns
    that are left. *)
Lemma menu_turn op n m w :
  menu_operation op ->
  (forall w', (length (stdin w') < n)%nat ->
     menu_ended (main_menu n w')
     /\ forall m', (length (stdin w') < m')%nat -> main_menu m' w' = main_menu n w') ->
  (length (stdin w) < n)%nat -> (length (stdin w) < m)%nat ->
  menu_ended ((op;; main_menu n) w) /\ (op;; main_menu m) w = (op;; main_menu n) w.
Proof.
  intros Hop IH Hn Hm. unfold mbind, M_bind. destruct (Hop w) as [Hlen Hres].
  destruct (op w) as [[[]|e] w']; cbn in *.
  - destruct (IH w') as [Hend Hfuel]; [lia|]. split; [done | apply Hfuel; lia].
  - destruct Hres as [?|[[= ->] Hin]]; [done|]. split; [by right | done].
Qed.

Lemma main_menu_enough n : forall w,
  (length (stdin w) < n)%nat ->
  menu_ended (main_menu n w)
  /\ forall m, (length (stdin w) < m)%nat -> main_menu m w = main_menu n w.
Proof.
  induction n as [|n IH]; intros [fs i o l] Hn; cbn [stdin] in *; [lia|].
  assert (forall m, (length i < m)%nat -> exists m', m = S m') as Hpos.
  { intros [|m'] ?; [lia | by eexists]. }
  destruct i as [|c rest].
  { split; [by right|]. intros m [m' ->]%Hpos. by rewrite !main_menu_S. }
  cbn [length] in *.
  set (w1 := World fs rest ((o ++ menu_lines) ++ ["Enter your choice: "]) l).
  assert (forall op, menu_operation op ->
            forall m', (length rest < m')%nat ->
              menu_ended ((op;; main_menu n) w1)
              /\ (op;; main_menu m') w1 = (op;; main_menu n) w1) as Hturn.
  { intros op Hop m' Hm'. apply menu_turn; [done | exact IH | cbn; lia | done]. }
  split.
  - rewrite main_menu_S. fold w1.
    repeat match goal with
    | |- context [if String.eqb ?a ?b then _ else _] => destruct (String.eqb a b)
    end;
      try (refine (proj1 (Hturn _ _ (S (length rest)) _));
           [first [apply menu_operation_log_trip | apply menu_operation_log_expense
                  | apply menu_operation_upload_receipt | apply menu_operation_export_data
                  | apply menu_operation_print] | lia]).
    left. split; [done|]. cbn. by rewrite last_snoc.
  - intros m Hm. destruct (Hpos m Hm) as [m' ->]. rewrite !main_menu_S. fold w1.
    repeat match goal with
    | |- context [if String.eqb ?a ?b then _ else _] => destruct (String.eqb a b)
    end;
      try (refine (proj2 (Hturn _ _ m' _));
           [first [apply menu_operation_log_trip | apply menu_operation_log_expense
                  | apply menu_operation_upload_receipt | apply menu_operation_export_data
                  | apply menu_operation_print] | lia]).
    reflexivity.
Qed.

End Menu.

(** *** What the operations of the menu guarantee *)

Lemma format_2f_zero : format_2f 0 = "0.00".
Proof. reflexivity. Qed.

Lemma expense_total_appended (fs fs' : gmap string string) row :
  csv_kept expense_header (fs !! "expenses.csv") ->
  fs' !! "expenses.csv" = Some (appended expense_header row (fs !! "expenses.csv")) ->
  row <> [] ->
  csv_readable fs' "expenses.csv" = true ->
  exists total,
    expense_total fs = Some total
    /\ expense_total fs' = Some (add_expense_row total (dict_row expense_header row)).
Proof.
  intros Hkept Hnew Hrow Hread.
  destruct (rows_of_appended _ _ _ _ _ Hkept Hnew Hrow Hread) as (rows & Hold & Hrows).
  unfold expense_total. rewrite Hold, Hrows. cbn. eexists. split; [done|].
  by rewrite fold_left_app.
Qed.

(** A file that is not written is read as before. *)
Lemma csv_readable_other (fs : gmap string string) path key text :
  key <> path -> csv_readable (<[key := text]> fs) path = csv_readable fs path.
Proof. intros Hne. unfold csv_readable. by rewrite lookup_insert_ne. Qed.

Lemma csv_readable_trip_totals (fs : gmap string string) :
  csv_readable fs "trips.csv" = true -> exists totals, trip_totals fs = Some totals.
Proof.
  intros [rows Hrows]%csv_readable_rows_of. unfold trip_totals. rewrite Hrows. by eexists.
Qed.

Lemma csv_readable_expense_total (fs : gmap string string) :
  csv_readable fs "expenses.csv" = true -> exists total, expense_total fs = Some total.
Proof.
  intros [rows Hrows]%csv_readable_rows_of. unfold expense_total. rewrite Hrows. by eexists.
Qed.

(** The summary of an export, where the totals are known. *)
Lemma export_data_summary w total_miles total_pay total_expenses :
  trip_totals (files w) = Some (total_miles, total_pay) ->
  expense_total (files w) = Some total_expenses ->
  files (export_data w).2 !! summary_file
  = Some (summary_text total_miles total_pay total_expenses).
Proof.
  intros Ht He. rewrite export_data_run, Ht, He. cbn [files snd]. apply lookup_insert_eq.
Qed.

(** *** Not-a-number *)

Lemma add_nan_l x y : Prim2SF x = S754_nan -> Prim2SF (x + y) = S754_nan.
Proof. intros Hx. by rewrite add_spec, Hx. Qed.

Lemma add_nan_r x y : Prim2SF y = S754_nan -> Prim2SF (x + y) = S754_nan.
Proof. intros Hy. rewrite add_spec, Hy. by destruct (Prim2SF x). Qed.

Lemma add_trip_row_keeps_nan totals row :
  Prim2SF totals.1 = S754_nan -> Prim2SF (add_trip_row totals row).1 = S754_nan.
Proof.
  destruct totals as [tm tp]. cbn [fst]. intros Hnan. unfold add_trip_row.
  destruct (float_of_field (dict_get row "Miles")) as [miles|]; [|done].
  destruct (float_of_field (dict_get row "Pay")); cbn [fst]; by apply add_nan_l.
Qed.

Lemma add_trip_row_takes_nan totals row miles :
  float_of_field (dict_get row "Miles") = Some miles -> Prim2SF miles = S754_nan ->
  Prim2SF (add_trip_row totals row).1 = S754_nan.
Proof.
  destruct totals as [tm tp]. intros Hm Hnan. unfold add_trip_row. rewrite Hm.
  destruct (float_of_field (dict_get row "Pay")); cbn [fst]; by apply add_nan_r.
Qed.

Lemma fold_add_trip_row_keeps_nan rows : forall totals,
  Prim2SF totals.1 = S754_nan ->
  Prim2SF (fold_left add_trip_row rows totals).1 = S754_nan.
Proof.
  induction rows as [|row rows IH]; intros totals Hnan; [done|].
  cbn [fold_left]. by apply IH, add_trip_row_keeps_nan.
Qed.

Lemma fold_add_trip_row_takes_nan rows row miles : forall totals,
  row ∈ rows ->
  float_of_field (dict_get row "Miles") = Some miles -> Prim2SF miles = S754_nan ->
  Prim2SF (fold_left add_trip_row rows totals).1 = S754_nan.
Proof.
  induction rows as [|r rows IH]; intros totals Hin Hm Hnan.
  { by apply not_elem_of_nil in Hin. }
  cbn [fold_left]. apply elem_of_cons in Hin as [<-|Hin].
  - by apply fold_add_trip_row_keeps_nan, (add_trip_row_takes_nan _ _ miles).
  - by apply IH.
Qed.

(** X11. [float] takes [nan] for a number, so the miles of a trip may be
    not-a-number, written [nan] in the Miles field. One such row among the
    rows of [trips.csv] makes the Total Miles of every export that reads the
    two files to their end [nan], whatever the other rows hold. The two
    files are ASCII, and no field is longer than the field size limit of the
    reader. *)
Theorem nan_miles_poison_total (fs : gmap string string) (rows : list (list string))
    (row : list string) (field : string) (miles : float) (i o : list string)
    (l : list (level * string)) :
  ascii_file fs "trips.csv" = true -> ascii_file fs "expenses.csv" = true ->
  csv_readable fs "trips.csv" = true -> csv_readable fs "expenses.csv" = true ->
  fs !! "trips.csv" = Some (writerow trip_header +:+ writerows rows) ->
  row ∈ rows ->
  dict_get (dict_row trip_header row) "Miles" = Some (Some field) ->
  float_of_str field = Some miles -> Prim2SF miles = S754_nan ->
  float_of_str "nan" = Some nan
  /\ format_2f miles = "nan"
  /\ exists total_miles total_pay total_expenses,
       trip_totals fs = Some (total_miles, total_pay)
       /\ expense_total fs = Some total_expenses
       /\ files (export_data (World fs i o l)).2 !! summary_file
          = Some (writerows [["Metric"; "Amount"]; ["Total Miles"; "nan"];
                             ["Total Pay"; "$" +:+ format_2f total_pay];
                             ["Total Expenses"; "$" +:+ format_2f total_expenses]]).
Proof.
  intros _ _ Htrips Hexpenses Hfile Hin Hfield Hparse Hnan.
  split; [reflexivity|]. split; [unfold format_2f; by rewrite Hnan|].
  destruct (csv_readable_trip_totals _ Htrips) as [[tm tp] Htot].
  destruct (csv_readable_expense_total _ Hexpenses) as [te Hexp].
  exists tm, tp, te. split; [done|]. split; [done|].
  rewrite (export_data_summary _ tm tp te) by done.
  assert (format_2f tm = "nan") as Htotal.
  { unfold format_2f.
    assert (Prim2SF tm = S754_nan) as ->; [|done].
    unfold trip_totals, rows_of in Htot. rewrite Hfile, DictReader_writerows in Htot.
    destruct (rows_within_limit (trip_header :: rows)); [|done].
    cbn in Htot. injection Htot as Htot.
    change tm with (tm, tp).1. rewrite <- Htot.
    apply (fold_add_trip_row_takes_nan _ (dict_row trip_header row) miles); [| |done].
    + apply list_elem_of_In, in_map, list_elem_of_In.
      apply list_elem_of_filter. split; [|done]. by destruct row.
    + rewrite Hfield. by apply float_of_field_str. }
  unfold summary_text, summary_rows. by rewrite Htotal.
Qed.

(** X24. What a row of [trips.csv] adds to the totals of an export, the file
    being the header and rows the writer wrote: its miles and its pay where
    [float] reads both fields; its miles alone where the Pay field is no
    number, so that the row is not passed over; nothing, not even a pay that
    is a number, where the Miles field is no number. An empty or missing
    field counts as 0 and passes nothing over. The export before the row and
    the export after it are compared; the files are ASCII, and the reader
    reads them to their end. *)
Theorem trip_row_contribution (before after : world)
    (rows : list (list string)) (row : list string) :
  ascii_file (files after) "trips.csv" = true ->
  csv_readable (files after) "trips.csv" = true ->
  csv_readable (files after) "expenses.csv" = true ->
  files before !! "trips.csv" = Some (writerow trip_header +:+ writerows rows) ->
  files after !! "trips.csv" = Some (writerow trip_header +:+ writerows (rows ++ [row])) ->
  files after !! "expenses.csv" = files before !! "expenses.csv" ->
  row <> [] ->
  exists total_miles total_pay total_expenses,
    trip_totals (files before) = Some (total_miles, total_pay)
    /\ expense_total (files before) = Some total_expenses
    /\ files (export_data before).2 !! summary_file
       = Some (summary_text total_miles total_pay total_expenses)
    /\ files (export_data after).2 !! summary_file
       = Some match float_of_field (dict_get (dict_row trip_header row) "Miles"),
                    float_of_field (dict_get (dict_row trip_header row) "Pay") with
              | None, _ => summary_text total_miles total_pay total_expenses
              | Some miles, None =>
                  summary_text (total_miles + miles)%float total_pay total_expenses
              | Some miles, Some pay =>
                  summary_text (total_miles + miles)%float (total_pay + pay)%float
                    total_expenses
              end.
Proof.
  intros _ Htrips Hexpenses Hbefore Hafter Hsame Hrow.
  destruct (trip_totals_appended (files before) (files after) row)
    as ([tm tp] & Hold & Hnew); [by right; eexists | | done | done |].
  { rewrite Hafter, Hbefore. cbn [appended].
    by rewrite writerows_app, writerows_cons, app_assoc_str, app_Empty_r. }
  destruct (csv_readable_expense_total _ Hexpenses) as [te Hexp].
  assert (expense_total (files before) = Some te) as Hexp'.
  { unfold expense_total, rows_of in *. by rewrite <- Hsame. }
  exists tm, tp, te. split; [done|]. split; [done|].
  split; [by apply export_data_summary|].
  rewrite add_trip_row_cases in Hnew.
  destruct (float_of_field (dict_get (dict_row trip_header row) "Miles")) as [miles|];
    [destruct (float_of_field (dict_get (dict_row trip_header row) "Pay")) as [pay|]|];
    by rewrite (export_data_summary _ _ _ te Hnew Hexp).
Qed.

Section Operations.
Context `{Datetime}.

(** X1. The pay of a logged trip follows the driver type, read without regard
    to case and surrounding blanks: a company driver is asked for no revenue
    and paid [miles * 0.50]; an owner is asked for the revenue and paid
    [revenue * 0.80]; with any other driver type the trip is logged all the
    same, with a pay of 0.00 and a warning in the log. Any answer but [y] to
    the question about an expense logs the trip without one. The row is
    appended to [trips.csv], no other file changes, and the answers of the
    trip, which are ASCII, are all that is read. *)
Theorem log_trip_pay_by_driver_type (fs : gmap string string)
    (trip_id name dtype s e m add : string) (rest o : list string)
    (l : list (level * string)) (start_dt end_dt : datetime) (miles : float) :
  fromisoformat (strip s) = Some start_dt -> fromisoformat (strip e) = Some end_dt ->
  float_of_str (strip m) = Some miles ->
  lower (strip add) <> "y" ->
  forallb isascii [trip_id; name; dtype; s; e; m; add] = true ->
  let row (pay : float) :=
    [strip trip_id; strip name; lower (strip dtype);
     isoformat (replace_tzinfo start_dt); isoformat (replace_tzinfo end_dt);
     format_2f (hours_between (replace_tzinfo end_dt) (replace_tzinfo start_dt));
     format_2f miles; format_2f pay; "0.00"; EmptyString] in
  let logged (pay : float) (o' : list string) (notes : list (level * string)) :=
    (Ok tt,
     World (<["trips.csv" := appended trip_header (row pay) (fs !! "trips.csv")]> fs) rest
       (o' ++ ["Trip " +:+ strip trip_id +:+ " logged successfully."])
       ((l ++ notes)
        ++ [(INFO, "Logged trip " +:+ strip trip_id +:+ " for driver " +:+ strip name +:+ ".")])) in
  (lower (strip dtype) = "company" ->
     exists o',
       log_trip (World fs (trip_id :: name :: dtype :: s :: e :: m :: add :: rest) o l)
       = logged (miles * PAY_RATE_PER_MILE)%float o' [])
  /\ (lower (strip dtype) = "owner" ->
      forall r revenue, isascii r = true -> float_of_str (strip r) = Some revenue ->
      exists o',
        log_trip (World fs (trip_id :: name :: dtype :: s :: e :: m :: r :: add :: rest) o l)
        = logged (revenue * OWNER_OPERATOR_PERCENTAGE)%float o' [])
  /\ (lower (strip dtype) <> "company" -> lower (strip dtype) <> "owner" ->
      exists o',
        log_trip (World fs (trip_id :: name :: dtype :: s :: e :: m :: add :: rest) o l)
        = logged 0%float o' [(WARNING, "Unknown driver type '%s'. Pay set to 0.")]).
Proof.
  intros Hs He Hm Hadd _ row logged. subst row logged. cbv beta.
  split; [|split].
  - intros Hc.
    destruct (log_trip_run fs trip_id name dtype s e m [] add rest o l start_dt end_dt miles 0
                Hs He Hm) as [o' Hrun]; [by rewrite Hc | done |].
    exists o'. cbn [app] in Hrun. rewrite Hrun, Hc, format_2f_zero. reflexivity.
  - intros Ho r revenue _ Hr.
    destruct (log_trip_run fs trip_id name dtype s e m [r] add rest o l start_dt end_dt miles
                revenue Hs He Hm) as [o' Hrun]; [rewrite Ho; by eexists | done |].
    exists o'. cbn [app] in Hrun. rewrite Hrun, Ho, format_2f_zero. reflexivity.
  - intros Hc Ho. apply String.eqb_neq in Hc, Ho.
    destruct (log_trip_run fs trip_id name dtype s e m [] add rest o l start_dt end_dt miles 0
                Hs He Hm) as [o' Hrun]; [by rewrite Ho | done |].
    exists o'. cbn [app] in Hrun. rewrite Hrun, Hc, Ho, format_2f_zero. reflexivity.
Qed.

(** X2. The expense of a trip goes to both files: a row of [expenses.csv] dated
    by the day the trip starts, under the driver's name or [General] when
    the name is blank, and the ExpenseAmount and ExpenseDescription fields
    of the trip's row in [trips.csv], with the same amount and description.
    No other file changes. The answers are ASCII. *)
Theorem log_trip_records_expense (fs : gmap string string)
    (trip_id name dtype s e m : string) (revenue_answers : list string)
    (add x description : string) (rest o : list string) (l : list (level * string))
    (start_dt end_dt : datetime) (miles revenue amount : float) :
  fromisoformat (strip s) = Some start_dt -> fromisoformat (strip e) = Some end_dt ->
  float_of_str (strip m) = Some miles ->
  (if String.eqb (lower (strip dtype)) "owner"
   then exists r, revenue_answers = [r] /\ float_of_str (strip r) = Some revenue
   else revenue_answers = [] /\ revenue = 0%float) ->
  lower (strip add) = "y" -> float_of_str (strip x) = Some amount ->
  forallb isascii (trip_id :: name :: dtype :: s :: e :: m :: revenue_answers
                   ++ [add; x; description]) = true ->
  exists trip_row w',
    log_trip (World fs (trip_id :: name :: dtype :: s :: e :: m :: revenue_answers
                        ++ add :: x :: description :: rest) o l)
    = (Ok tt, w')
    /\ stdin w' = rest
    /\ last (stdout w') = Some ("Trip " +:+ strip trip_id +:+ " logged successfully.")
    /\ files w' !! "expenses.csv"
       = Some (appended expense_header
                 [date_isoformat (to_date (replace_tzinfo start_dt));
                  if String.eqb (strip name) EmptyString then "General" else strip name;
                  format_2f amount; strip description]
                 (fs !! "expenses.csv"))
    /\ files w' !! "trips.csv" = Some (appended trip_header trip_row (fs !! "trips.csv"))
    /\ dict_get (dict_row trip_header trip_row) "DriverName" = Some (Some (strip name))
    /\ dict_get (dict_row trip_header trip_row) "ExpenseAmount" = Some (Some (format_2f amount))
    /\ dict_get (dict_row trip_header trip_row) "ExpenseDescription"
       = Some (Some (strip description))
    /\ forall key, key <> "trips.csv" -> key <> "expenses.csv" -> files w' !! key = fs !! key.
Proof.
  intros Hs He Hm Hrev Hadd Hx _.
  destruct (log_trip_expense_run fs trip_id name dtype s e m revenue_answers add x description
              rest o l start_dt end_dt miles revenue amount Hs He Hm Hrev Hadd Hx)
    as (o' & l' & Hrun).
  eexists _, _. split; [exact Hrun|]. cbn [files stdin stdout].
  split; [done|]. split; [by rewrite last_snoc|].
  split.
  { rewrite lookup_insert_ne, lookup_insert_eq by done. do 3 f_equal.
    by destruct (strip name). }
  split; [by rewrite lookup_insert_eq|].
  split; [reflexivity|]. split; [reflexivity|]. split; [reflexivity|].
  intros key Ht He'. by rewrite !lookup_insert_ne.
Qed.

(** X3. An expense whose amount and date parse is one more row of
    [expenses.csv]: the date, the driver's name or [General] when the name
    is blank, the amount with two decimals, the description. Nothing else
    changes, and the four answers, which are ASCII, are all that is read. *)
Theorem log_expense_records (fs : gmap string string) (name a description d : string)
    (rest o : list string) (l : list (level * string)) (amount : float) (dt : datetime) :
  float_of_str (strip a) = Some amount -> fromisoformat (strip d) = Some dt ->
  forallb isascii [name; a; description; d] = true ->
  exists w',
    log_expense (World fs (name :: a :: description :: d :: rest) o l) = (Ok tt, w')
    /\ stdin w' = rest
    /\ last (stdout w') = Some "Expense logged successfully."
    /\ files w' !! "expenses.csv"
       = Some (appended expense_header
                 [date_isoformat (to_date dt);
                  if String.eqb (strip name) EmptyString then "General" else strip name;
                  format_2f amount; strip description]
                 (fs !! "expenses.csv"))
    /\ forall key, key <> "expenses.csv" -> files w' !! key = fs !! key.
Proof.
  intros Ha Hd _.
  destruct (log_expense_run fs name a description d rest o l amount dt Ha Hd) as [o' Hrun].
  eexists. split; [exact Hrun|]. cbn [files stdin stdout].
  split; [done|]. split; [by rewrite last_snoc|].
  split; [by rewrite lookup_insert_eq|].
  intros key Hkey. by rewrite lookup_insert_ne.
Qed.

(** X4. An expense logged through [log_expense] counts once in the next export:
    where [expenses.csv] was absent or was the header and rows the writer
    wrote, Total Expenses grows by what [float] reads from the Amount field,
    the amount rounded to two decimals, and the totals of the trips stay.
    Answers and files are ASCII, and the export reads both files to their
    end, no field being longer than the field size limit of the reader. *)
Theorem log_expense_export_round_trip (fs : gmap string string)
    (name a description d : string) (rest o : list string) (l : list (level * string))
    (amount : float) (dt : datetime) :
  csv_kept expense_header (fs !! "expenses.csv") ->
  float_of_str (strip a) = Some amount -> fromisoformat (strip d) = Some dt ->
  ascii_file fs "trips.csv" = true -> ascii_file fs "expenses.csv" = true ->
  forallb isascii [name; a; description; d] = true ->
  csv_readable
    (files (log_expense (World fs (name :: a :: description :: d :: rest) o l)).2)
    "trips.csv" = true ->
  csv_readable
    (files (log_expense (World fs (name :: a :: description :: d :: rest) o l)).2)
    "expenses.csv" = true ->
  exists logged total_miles total_pay total_expenses w',
    log_expense (World fs (name :: a :: description :: d :: rest) o l) = (Ok tt, w')
    /\ float_of_str (format_2f amount) = Some logged
    /\ trip_totals fs = Some (total_miles, total_pay)
    /\ expense_total fs = Some total_expenses
    /\ files (export_data (World fs rest o l)).2 !! summary_file
       = Some (summary_text total_miles total_pay total_expenses)
    /\ files (export_data w').2 !! summary_file
       = Some (summary_text total_miles total_pay (total_expenses + logged)%float).
Proof.
  intros Hkept Ha Hd _ _ _.
  destruct (log_expense_run fs name a description d rest o l amount dt Ha Hd) as [o' Hrun].
  rewrite Hrun. cbn [files snd]. intros Htrips Hexpenses.
  destruct (format_2f_parses amount) as [logged Hlogged].
  match type of Hexpenses with
  | context [<["expenses.csv" := appended _ ?r _]> fs] => set (row := r) in *
  end.
  rewrite csv_readable_other in Htrips by done.
  destruct (csv_readable_trip_totals _ Htrips) as [[tm tp] Htot].
  destruct (expense_total_appended fs _ row Hkept
              (lookup_insert_eq fs "expenses.csv" _) ltac:(done) Hexpenses)
    as (te & Hold & Hnew).
  exists logged, tm, tp, te. eexists. split; [reflexivity|]. split; [done|].
  split; [done|]. split; [done|].
  split; [by apply export_data_summary|].
  apply export_data_summary; cbn [files].
  - unfold trip_totals, rows_of in *. by rewrite lookup_insert_ne.
  - rewrite Hnew. unfold add_expense_row.
    change (dict_get (dict_row expense_header row) "Amount") with (Some (Some (format_2f amount))).
    by rewrite (float_of_field_str _ _ Hlogged).
Qed.

(** X5. The expense of a trip counts once in the next export, from its row of
    [expenses.csv]: Total Expenses grows by the amount, Total Miles and
    Total Pay by the miles and the pay, each as [float] reads it from the
    field written with two decimals. Answers and files are ASCII, and the
    export reads both files to their end, no field being longer than the
    field size limit of the reader. *)
Theorem trip_expense_export_round_trip (fs : gmap string string)
    (trip_id name dtype s e m : string) (revenue_answers : list string)
    (add x description : string) (rest o : list string) (l : list (level * string))
    (start_dt end_dt : datetime) (miles revenue amount : float) :
  csv_kept trip_header (fs !! "trips.csv") ->
  csv_kept expense_header (fs !! "expenses.csv") ->
  fromisoformat (strip s) = Some start_dt -> fromisoformat (strip e) = Some end_dt ->
  float_of_str (strip m) = Some miles ->
  (if String.eqb (lower (strip dtype)) "owner"
   then exists r, revenue_answers = [r] /\ float_of_str (strip r) = Some revenue
   else revenue_answers = [] /\ revenue = 0%float) ->
  lower (strip add) = "y" -> float_of_str (strip x) = Some amount ->
  ascii_file fs "trips.csv" = true -> ascii_file fs "expenses.csv" = true ->
  forallb isascii (trip_id :: name :: dtype :: s :: e :: m :: revenue_answers
                   ++ [add; x; description]) = true ->
  csv_readable
    (files (log_trip (World fs (trip_id :: name :: dtype :: s :: e :: m :: revenue_answers
                                ++ add :: x :: description :: rest) o l)).2)
    "trips.csv" = true ->
  csv_readable
    (files (log_trip (World fs (trip_id :: name :: dtype :: s :: e :: m :: revenue_answers
                                ++ add :: x :: description :: rest) o l)).2)
    "expenses.csv" = true ->
  exists logged_miles logged_pay logged_amount total_miles total_pay total_expenses w',
    log_trip (World fs (trip_id :: name :: dtype :: s :: e :: m :: revenue_answers
                        ++ add :: x :: description :: rest) o l)
    = (Ok tt, w')
    /\ float_of_str (format_2f miles) = Some logged_miles
    /\ float_of_str
         (format_2f (if String.eqb (lower (strip dtype)) "company"
                     then (miles * PAY_RATE_PER_MILE)%float
                     else if String.eqb (lower (strip dtype)) "owner"
                     then (revenue * OWNER_OPERATOR_PERCENTAGE)%float
                     else 0%float))
       = Some logged_pay
    /\ float_of_str (format_2f amount) = Some logged_amount
    /\ trip_totals fs = Some (total_miles, total_pay)
    /\ expense_total fs = Some total_expenses
    /\ files (export_data (World fs rest o l)).2 !! summary_file
       = Some (summary_text total_miles total_pay total_expenses)
    /\ files (export_data w').2 !! summary_file
       = Some (summary_text (total_miles + logged_miles)%float (total_pay + logged_pay)%float
                 (total_expenses + logged_amount)%float).
Proof.
  intros Hkt Hke Hs He Hm Hrev Hadd Hx _ _ _.
  destruct (log_trip_expense_run fs trip_id name dtype s e m revenue_answers add x description
              rest o l start_dt end_dt miles revenue amount Hs He Hm Hrev Hadd Hx)
    as (o' & l' & Hrun).
  rewrite Hrun. cbn [files snd]. intros Htrips Hexpenses.
  match type of Hrun with
  | context [format_2f miles :: format_2f ?p :: _] => set (pay := p) in *
  end.
  destruct (format_2f_parses miles) as [lm Hlm].
  destruct (format_2f_parses pay) as [lp Hlp].
  destruct (format_2f_parses amount) as [la Hla].
  match type of Htrips with
  | context [<["trips.csv" := appended _ ?r _]> (<["expenses.csv" := appended _ ?r' _]> fs)] =>
      set (trip_row := r) in *; set (expense_row := r') in *
  end.
  rewrite csv_readable_other in Hexpenses by done.
  destruct (trip_totals_appended fs _ trip_row Hkt
              (lookup_insert_eq _ "trips.csv" _) ltac:(done) Htrips)
    as ([tm tp] & Hold & Hnew).
  destruct (expense_total_appended fs _ expense_row Hke
              (lookup_insert_eq fs "expenses.csv" _) ltac:(done) Hexpenses)
    as (te & Holde & Hnewe).
  exists lm, lp, la, tm, tp, te. eexists. split; [reflexivity|].
  split; [exact Hlm|]. split; [exact Hlp|]. split; [exact Hla|].
  split; [done|]. split; [done|].
  split; [by apply export_data_summary|].
  apply export_data_summary; cbn [files].
  - rewrite Hnew. unfold add_trip_row.
    change (dict_get (dict_row trip_header trip_row) "Miles")
      with (Some (Some (format_2f miles))).
    change (dict_get (dict_row trip_header trip_row) "Pay") with (Some (Some (format_2f pay))).
    by rewrite (float_of_field_str _ _ Hlm), (float_of_field_str _ _ Hlp).
  - assert (expense_total (<["trips.csv" := appended trip_header trip_row (fs !! "trips.csv")]>
                             (<["expenses.csv" := appended expense_header expense_row
                                  (fs !! "expenses.csv")]> fs))
            = expense_total (<["expenses.csv" := appended expense_header expense_row
                                  (fs !! "expenses.csv")]> fs)) as ->.
    { unfold expense_total, rows_of. by rewrite lookup_insert_ne. }
    rewrite Hnewe. unfold add_expense_row.
    change (dict_get (dict_row expense_header expense_row) "Amount")
      with (Some (Some (format_2f amount))).
    by rewrite (float_of_field_str _ _ Hla).
Qed.

(** X6. An entry that is not reported as logged has written nothing: whatever
    the answers, and wherever the input ends, [log_trip] and [log_expense]
    either print their line of success last or leave every file as it was. *)
Theorem unreported_entry_writes_nothing (w : world) :
  (files (log_trip w).2 = files w
   \/ exists trip_id,
        last (stdout (log_trip w).2) = Some ("Trip " +:+ trip_id +:+ " logged successfully."))
  /\ (files (log_expense w).2 = files w
      \/ last (stdout (log_expense w).2) = Some "Expense logged successfully.").
Proof.
  destruct w as [fs i o l]. split.
  - apply log_trip_all_or_nothing.
  - apply log_expense_all_or_nothing.
Qed.

(** X7. No answer and no state of the files makes [log_trip], [log_expense] or
    [export_data] raise, the end of the input included: their handlers hold
    every exception back. [upload_receipt] asks for the path outside its
    handler: at the end of the input it raises [EOFError], and on every
    other input it returns. None of the four puts input back. *)
Theorem menu_operations_return :
  (forall w, (log_trip w).1 = Ok tt /\ (log_expense w).1 = Ok tt /\ (export_data w).1 = Ok tt)
  /\ (forall fs o l,
        upload_receipt (World fs [] o l)
        = (Raise EOFError,
           World fs [] (o ++ ["Enter the path to the receipt/document file: "]) l))
  /\ (forall w, stdin w <> [] -> (upload_receipt w).1 = Ok tt)
  /\ menu_operation log_trip /\ menu_operation log_expense
  /\ menu_operation upload_receipt /\ menu_operation export_data.
Proof.
  split.
  { intros [fs i o l]. split; [apply log_trip_returns|]. split; [apply log_expense_returns|].
    apply export_data_returns. }
  split; [intros fs o l; by rewrite upload_receipt_run|].
  split.
  { intros [fs i o l] Hi. rewrite upload_receipt_run. destruct i as [|path rest]; [done|].
    by destruct (fs !! strip path). }
  split; [apply menu_operation_log_trip|]. split; [apply menu_operation_log_expense|].
  split; [apply menu_operation_upload_receipt | apply menu_operation_export_data].
Qed.

(** X8. On a finite input the loop of the menu ends: every turn reads at least
    the choice, so more turns than there are pending lines are never used,
    and the result is the same for every such number of turns. The loop ends
    by the choice of the exit, after its line of goodbye, or by [EOFError]
    when the input is used up; no other exception leaves it. The script
    holds back that [EOFError] too and reports a critical error. *)
Theorem main_menu_terminates (turns : nat) (w : world) :
  (length (stdin w) < turns)%nat ->
  main_menu turns w = main_menu (S (length (stdin w))) w
  /\ menu_ended (main_menu turns w)
  /\ (main turns w).1 = Ok tt
  /\ (last (stdout (main turns w).2) = Some "Exiting Driver Log. Goodbye!"
      \/ last (stdout (main turns w).2)
         = Some "A critical error occurred. Please check 'driver_log_debug.log' for details."
         /\ last (log (main turns w).2) = Some (CRITICAL, "Fatal error in main loop: %s")).
Proof.
  intros Hturns.
  destruct (main_menu_enough (S (length (stdin w))) w) as [_ Hfuel]; [lia|].
  destruct (main_menu_enough turns w Hturns) as [Hend _].
  split; [by apply Hfuel|]. split; [done|].
  unfold main, try_except, try_else.
  destruct Hend as [[Hok Hbye] | [Heof Hin]].
  - destruct (main_menu turns w) as [[[]|e] w']; cbn [fst snd] in *; [|done].
    by split; [|left].
  - destruct (main_menu turns w) as [[[]|e] w']; cbn [fst snd] in *; [done|].
    unfold Exception. run. split; [done|]. right. by rewrite !last_snoc.
Qed.

End Operations.

(** X9. [upload_receipt] copies the file at the path given, blanks trimmed, to
    [receipts/] under its base name: the copy has the content of the
    original, the original stays, and no other file changes, so that a
    receipt of the same base name uploaded before is replaced. Where the
    path names no file, an error is reported and nothing changes. The path
    is ASCII and is the key of the file as it stands; a file that lies in
    [receipts/] already is not copied onto itself. *)
Theorem upload_receipt_copies (fs : gmap string string) (path : string)
    (rest o : list string) (l : list (level * string)) :
  isascii path = true ->
  (fs !! strip path = None ->
     upload_receipt (World fs (path :: rest) o l)
     = (Ok tt,
        World fs rest
          (o ++ ["Enter the path to the receipt/document file: ";
                 "Error: File not found. Please check the path and try again."])
          (l ++ [(ERROR, "Receipt upload failed - file not found: %s")])))
  /\ (forall text,
        fs !! strip path = Some text ->
        strip path <> "receipts/" +:+ basename (strip path) ->
        exists w',
          upload_receipt (World fs (path :: rest) o l) = (Ok tt, w')
          /\ stdin w' = rest
          /\ last (stdout w')
             = Some ("Receipt '" +:+ basename (strip path) +:+ "' uploaded to the 'receipts' folder.")
          /\ has_slash (basename (strip path)) = false
          /\ files w' !! ("receipts/" +:+ basename (strip path)) = Some text
          /\ files w' !! strip path = Some text
          /\ forall key, key <> "receipts/" +:+ basename (strip path) ->
                         files w' !! key = fs !! key).
Proof.
  intros _. split.
  - intros Hnone. by rewrite upload_receipt_run, Hnone.
  - intros text Hsome Hne. rewrite upload_receipt_run, Hsome.
    eexists. split; [reflexivity|]. cbn [files stdin stdout].
    split; [done|].
    split; [by rewrite last_app|].
    split; [apply has_slash_basename|].
    split; [by rewrite lookup_insert_eq|].
    split; [by rewrite lookup_insert_ne|].
    intros key Hkey. by rewrite lookup_insert_ne.
Qed.

(** X10. The summary depends on [trips.csv] and [expenses.csv] alone: two states
    that agree on these two files get the same summary, whatever else they
    hold. [export_data] changes no file but the summary, which it does not
    read, so exporting again changes nothing. The two files are ASCII, and
    the reader reads them to their end. *)
Theorem export_data_reads_two_files (w1 w2 : world) :
  ascii_file (files w1) "trips.csv" = true -> ascii_file (files w1) "expenses.csv" = true ->
  csv_readable (files w1) "trips.csv" = true -> csv_readable (files w1) "expenses.csv" = true ->
  files w1 !! "trips.csv" = files w2 !! "trips.csv" ->
  files w1 !! "expenses.csv" = files w2 !! "expenses.csv" ->
  is_Some (files (export_data w1).2 !! summary_file)
  /\ files (export_data w1).2 !! summary_file = files (export_data w2).2 !! summary_file
  /\ files (export_data (export_data w1).2).2 = files (export_data w1).2
  /\ forall key, key <> summary_file -> files (export_data w1).2 !! key = files w1 !! key.
Proof.
  intros _ _ Htrips Hexpenses Ht He.
  destruct (csv_readable_trip_totals _ Htrips) as [[tm tp] Htot].
  destruct (csv_readable_expense_total _ Hexpenses) as [te Hexp].
  assert (trip_totals (files w2) = Some (tm, tp)) as Htot2.
  { unfold trip_totals, rows_of in *. by rewrite <- Ht. }
  assert (expense_total (files w2) = Some te) as Hexp2.
  { unfold expense_total, rows_of in *. by rewrite <- He. }
  rewrite (export_data_summary w1 tm tp te), (export_data_summary w2 tm tp te) by done.
  split; [by eexists|]. split; [done|].
  rewrite (export_data_run w1), Htot, Hexp. cbn [files snd].
  split.
  - rewrite export_data_run. cbn [files].
    assert (trip_totals (<[summary_file := summary_text tm tp te]> (files w1)) = Some (tm, tp))
      as ->.
    { unfold trip_totals, rows_of in *. by rewrite lookup_insert_ne. }
    assert (expense_total (<[summary_file := summary_text tm tp te]> (files w1)) = Some te)
      as ->.
    { unfold expense_total, rows_of in *. by rewrite lookup_insert_ne. }
    cbn [files snd]. by rewrite insert_insert_eq.
  - intros key Hkey. by rewrite lookup_insert_ne.
Qed.

(** X25. A field longer than the field size limit of the csv reader, 131072
    characters, in [trips.csv] or in [expenses.csv] as the writer wrote it,
    stops every export: the reader raises, [export_data] reports an error
    and returns, and no file is written, so that a summary of an earlier
    export stays as it was. *)
Theorem export_data_over_field_limit (w : world) (path : string) (header : list string)
    (rows : list (list string)) :
  path = "trips.csv" \/ path = "expenses.csv" ->
  files w !! path = Some (writerow header +:+ writerows rows) ->
  rows_within_limit (header :: rows) = false ->
  csv_reader (writerow header +:+ writerows rows) = None
  /\ export_data w
     = (Ok tt,
        World (files w) (stdin w)
          (stdout w ++ ["An error occurred during data export. Check the log for details."])
          (log w ++ [(ERROR, "Unexpected error in export_data: %s")])).
Proof.
  intros Hpath Hfile Hlimit.
  assert (DictReader (writerow header +:+ writerows rows) = None) as Hnone.
  { by rewrite DictReader_writerows, Hlimit. }
  split.
  { change (writerow header +:+ writerows rows) with (writerows (header :: rows)).
    by rewrite csv_reader_writerows, Hlimit. }
  rewrite export_data_run.
  destruct Hpath as [-> | ->].
  - assert (trip_totals (files w) = None) as ->; [|done].
    unfold trip_totals, rows_of. by rewrite Hfile, Hnone.
  - assert (expense_total (files w) = None) as ->.
    { unfold expense_total, rows_of. by rewrite Hfile, Hnone. }
    by destruct (trip_totals (files w)) as [[? ?]|].
Qed.

(** *** Runs *)

Lemma log_trip_pay_by_driver_type_witness :
  (exists o',
     log_trip (World ∅ ["T1"; "Ann"; " Company "; "2024-01-01 08:00"; "2024-01-01 10:30";
                        "100"; "n"] [] [])
     = (Ok tt,
        World {[ "trips.csv" :=
                  writerows [trip_header;
                             ["T1"; "Ann"; "company"; "2024-01-01T08:00:00-05:00";
                              "2024-01-01T10:30:00-05:00"; "2.50"; "100.00"; "50.00"; "0.00";
                              EmptyString]] ]}
          [] (o' ++ ["Trip T1 logged successfully."])
          [(INFO, "Logged trip T1 for driver Ann.")]))
  /\ (exists o',
     log_trip (World ∅ ["T2"; "Bo"; "OWNER"; "2024-03-09 22:00"; "2024-03-10 06:15";
                        "300"; "1000"; EmptyString] [] [])
     = (Ok tt,
        World {[ "trips.csv" :=
                  writerows [trip_header;
                             ["T2"; "Bo"; "owner"; "2024-03-09T22:00:00-05:00";
                              "2024-03-10T06:15:00-04:00"; "8.25"; "300.00"; "800.00"; "0.00";
                              EmptyString]] ]}
          [] (o' ++ ["Trip T2 logged successfully."])
          [(INFO, "Logged trip T2 for driver Bo.")]))
  /\ (exists o',
     log_trip (World ∅ ["T3"; "Cy"; "lease"; "2024-01-02 10:00"; "2024-01-02 09:00";
                        "-5"; "no"] [] [])
     = (Ok tt,
        World {[ "trips.csv" :=
                  writerows [trip_header;
                             ["T3"; "Cy"; "lease"; "2024-01-02T10:00:00-05:00";
                              "2024-01-02T09:00:00-05:00"; "-1.00"; "-5.00"; "0.00"; "0.00";
                              EmptyString]] ]}
          [] (o' ++ ["Trip T3 logged successfully."])
          [(WARNING, "Unknown driver type '%s'. Pay set to 0.");
           (INFO, "Logged trip T3 for driver Cy.")])).
Proof.
  split; [|split].
  - destruct (log_trip_pay_by_driver_type (H:=minute_datetime) ∅ "T1" "Ann" " Company "
                "2024-01-01 08:00" "2024-01-01 10:30" "100" "n" [] [] []
                (Stamp 2024 1 1 8 0) (Stamp 2024 1 1 10 30) 100%float)
      as (Hcompany & _ & _);
      [ vm_compute; reflexivity | vm_compute; reflexivity | vm_compute; reflexivity
      | discriminate | reflexivity | ].
    destruct Hcompany as [o' Hrun]; [vm_compute; reflexivity|].
    exists o'. rewrite Hrun. vm_compute. reflexivity.
  - destruct (log_trip_pay_by_driver_type (H:=minute_datetime) ∅ "T2" "Bo" "OWNER"
                "2024-03-09 22:00" "2024-03-10 06:15" "300" EmptyString [] [] []
                (Stamp 2024 3 9 22 0) (Stamp 2024 3 10 6 15) 300%float)
      as (_ & Howner & _);
      [ vm_compute; reflexivity | vm_compute; reflexivity | vm_compute; reflexivity
      | discriminate | reflexivity | ].
    destruct (Howner eq_refl "1000" 1000%float) as [o' Hrun];
      [reflexivity | vm_compute; reflexivity |].
    exists o'. rewrite Hrun. vm_compute. reflexivity.
  - destruct (log_trip_pay_by_driver_type (H:=minute_datetime) ∅ "T3" "Cy" "lease"
                "2024-01-02 10:00" "2024-01-02 09:00" "-5" "no" [] [] []
                (Stamp 2024 1 2 10 0) (Stamp 2024 1 2 9 0) (-5)%float)
      as (_ & _ & Hother);
      [ vm_compute; reflexivity | vm_compute; reflexivity | vm_compute; reflexivity
      | discriminate | reflexivity | ].
    destruct Hother as [o' Hrun]; [discriminate | discriminate |].
    exists o'. rewrite Hrun. vm_compute. reflexivity.
Defined.

Lemma log_trip_records_expense_witness :
  exists trip_row w',
    log_trip (World ∅ ["T4"; " "; "company"; "2024-01-01 08:00"; "2024-01-01 10:30"; "120.5";
                       "Y"; "18.2578125"; " fuel, diesel "] [] [])
    = (Ok tt, w')
    /\ files w' !! "expenses.csv"
       = Some (writerows [expense_header; ["2024-01-01"; "General"; "18.26"; "fuel, diesel"]])
    /\ files w' !! "trips.csv" = Some (writerow trip_header +:+ writerow trip_row)
    /\ dict_get (dict_row trip_header trip_row) "DriverName" = Some (Some EmptyString)
    /\ dict_get (dict_row trip_header trip_row) "ExpenseAmount" = Some (Some "18.26")
    /\ dict_get (dict_row trip_header trip_row) "ExpenseDescription"
       = Some (Some "fuel, diesel").
Proof.
  destruct (log_trip_records_expense (H:=minute_datetime) ∅ "T4" " " "company"
              "2024-01-01 08:00" "2024-01-01 10:30" "120.5" [] "Y" "18.2578125" " fuel, diesel "
              [] [] [] (Stamp 2024 1 1 8 0) (Stamp 2024 1 1 10 30) 120.5%float 0%float
              18.2578125%float)
    as (trip_row & w' & Hrun & _ & _ & Hexpenses & Htrips & Hname & Hamount & Hdesc & _);
    [ vm_compute; reflexivity | vm_compute; reflexivity | vm_compute; reflexivity | by split
    | vm_compute; reflexivity | vm_compute; reflexivity | reflexivity | ].
  exists trip_row, w'. split; [exact Hrun|].
  split; [rewrite Hexpenses; vm_compute; reflexivity|].
  split; [rewrite Htrips; reflexivity|].
  split; [rewrite Hname; reflexivity|].
  split; [rewrite Hamount; vm_compute; reflexivity|].
  rewrite Hdesc. vm_compute. reflexivity.
Defined.

Lemma log_expense_records_witness :
  exists w',
    log_expense (World {[ "trips.csv" := "kept" ]}
                   [EmptyString; " 12.5 "; "tolls"; "2024-02-29"; "next"] [] [])
    = (Ok tt, w')
    /\ stdin w' = ["next"]
    /\ files w' !! "expenses.csv"
       = Some (writerows [expense_header; ["2024-02-29"; "General"; "12.50"; "tolls"]])
    /\ files w' !! "trips.csv" = Some "kept".
Proof.
  destruct (log_expense_records (H:=minute_datetime) {[ "trips.csv" := "kept" ]}
              EmptyString " 12.5 " "tolls" "2024-02-29" ["next"] [] [] 12.5%float
              (Stamp 2024 2 29 0 0))
    as (w' & Hrun & Hin & _ & Hexpenses & Hframe);
    [ vm_compute; reflexivity | vm_compute; reflexivity | reflexivity | ].
  exists w'. split; [exact Hrun|]. split; [exact Hin|].
  split; [rewrite Hexpenses; vm_compute; reflexivity|].
  rewrite Hframe by discriminate. reflexivity.
Defined.

Lemma log_expense_export_round_trip_witness :
  exists w',
    log_expense (World {[ "expenses.csv" :=
                            writerows [expense_header; ["2024-01-05"; "Ann"; "10.00"; "scale"]] ]}
                   [EmptyString; " 12.5 "; "tolls"; "2024-02-29"] [] [])
    = (Ok tt, w')
    /\ files (export_data
                (World {[ "expenses.csv" :=
                           writerows [expense_header;
                                      ["2024-01-05"; "Ann"; "10.00"; "scale"]] ]} [] [] [])).2
         !! summary_file
       = Some (writerows [["Metric"; "Amount"]; ["Total Miles"; "0.00"];
                          ["Total Pay"; "$0.00"]; ["Total Expenses"; "$10.00"]])
    /\ files (export_data w').2 !! summary_file
       = Some (writerows [["Metric"; "Amount"]; ["Total Miles"; "0.00"];
                          ["Total Pay"; "$0.00"]; ["Total Expenses"; "$22.50"]]).
Proof.
  destruct (log_expense_export_round_trip (H:=minute_datetime)
              {[ "expenses.csv" :=
                   writerows [expense_header; ["2024-01-05"; "Ann"; "10.00"; "scale"]] ]}
              EmptyString " 12.5 " "tolls" "2024-02-29" [] [] [] 12.5%float
              (Stamp 2024 2 29 0 0))
    as (logged & tm & tp & te & w' & Hrun & Hlogged & Htrips & Hexpenses & Hbefore & Hafter);
    [ right; exists [["2024-01-05"; "Ann"; "10.00"; "scale"]]; vm_compute; reflexivity
    | vm_compute; reflexivity | vm_compute; reflexivity
    | reflexivity | vm_compute; reflexivity | reflexivity
    | vm_compute; reflexivity | vm_compute; reflexivity | ].
  vm_compute in Hlogged. injection Hlogged as <-.
  vm_compute in Htrips. injection Htrips as <- <-.
  vm_compute in Hexpenses. injection Hexpenses as <-.
  exists w'. split; [exact Hrun|].
  split; [rewrite Hbefore; vm_compute; reflexivity|].
  rewrite Hafter. vm_compute. reflexivity.
Defined.

Lemma trip_expense_export_round_trip_witness :
  exists w',
    log_trip (World ∅ ["T4"; " "; "company"; "2024-01-01 08:00"; "2024-01-01 10:30"; "120.5";
                       "Y"; "18.2578125"; " fuel, diesel "] [] [])
    = (Ok tt, w')
    /\ files (export_data w').2 !! summary_file
       = Some (writerows [["Metric"; "Amount"]; ["Total Miles"; "120.50"];
                          ["Total Pay"; "$60.25"]; ["Total Expenses"; "$18.26"]]).
Proof.
  destruct (trip_expense_export_round_trip (H:=minute_datetime) ∅ "T4" " " "company"
              "2024-01-01 08:00" "2024-01-01 10:30" "120.5" [] "Y" "18.2578125" " fuel, diesel "
              [] [] [] (Stamp 2024 1 1 8 0) (Stamp 2024 1 1 10 30) 120.5%float 0%float
              18.2578125%float)
    as (lm & lp & la & tm & tp & te & w' & Hrun & Hlm & Hlp & Hla & Htrips & Hexpenses
        & _ & Hafter);
    [ by left | by left | vm_compute; reflexivity | vm_compute; reflexivity
    | vm_compute; reflexivity | by split | vm_compute; reflexivity | vm_compute; reflexivity
    | reflexivity | reflexivity | reflexivity
    | vm_compute; reflexivity | vm_compute; reflexivity | ].
  exists w'. split; [exact Hrun|].
  vm_compute in Hlm. injection Hlm as <-.
  vm_compute in Hlp. injection Hlp as <-.
  vm_compute in Hla. injection Hla as <-.
  vm_compute in Htrips. injection Htrips as <- <-.
  vm_compute in Hexpenses. injection Hexpenses as <-.
  rewrite Hafter. vm_compute. reflexivity.
Defined.

Lemma main_menu_terminates_witness :
  main_menu (H:=minute_datetime) 10 (World ∅ ["4"; "9"; " 5 "; "1"] [] [])
  = main_menu 5 (World ∅ ["4"; "9"; " 5 "; "1"] [] [])
  /\ menu_ended (main_menu (H:=minute_datetime) 10 (World ∅ ["4"; "9"; " 5 "; "1"] [] []))
  /\ (main (H:=minute_datetime) 10 (World ∅ ["4"; "9"; " 5 "; "1"] [] [])).1 = Ok tt.
Proof.
  destruct (main_menu_terminates (H:=minute_datetime) 10 (World ∅ ["4"; "9"; " 5 "; "1"] [] []))
    as (Hfuel & Hend & Hmain & _); [cbn; lia|].
  split; [exact Hfuel|]. split; [exact Hend | exact Hmain].
Defined.

Lemma upload_receipt_copies_witness :
  upload_receipt (World {[ "scans/r1.pdf" := "%PDF" ]} [" r1.pdf "] [] [])
  = (Ok tt,
     World {[ "scans/r1.pdf" := "%PDF" ]} []
       ["Enter the path to the receipt/document file: ";
        "Error: File not found. Please check the path and try again."]
       [(ERROR, "Receipt upload failed - file not found: %s")])
  /\ exists w',
       upload_receipt (World {[ "scans/r1.pdf" := "%PDF" ]} [" scans/r1.pdf "] [] [])
       = (Ok tt, w')
       /\ files w' = {[ "scans/r1.pdf" := "%PDF"; "receipts/r1.pdf" := "%PDF" ]}.
Proof.
  split.
  - destruct (upload_receipt_copies {[ "scans/r1.pdf" := "%PDF" ]} " r1.pdf " [] [] [])
      as [Hmissing _]; [reflexivity|].
    rewrite Hmissing by (vm_compute; reflexivity). reflexivity.
  - destruct (upload_receipt_copies {[ "scans/r1.pdf" := "%PDF" ]} " scans/r1.pdf " [] [] [])
      as [_ Hfound]; [reflexivity|].
    destruct (Hfound "%PDF") as (w' & Hrun & _); [vm_compute; reflexivity | discriminate |].
    exists w'. split; [exact Hrun|].
    rewrite upload_receipt_run in Hrun. vm_compute in Hrun. injection Hrun as <-.
    vm_compute. reflexivity.
Defined.

Lemma export_data_reads_two_files_witness :
  files (export_data (World {[ "trips.csv" := trips_bad_pay; "notes.txt" := "n" ]}
                        ["1"] [] [])).2 !! summary_file
  = files (export_data (World {[ "trips.csv" := trips_bad_pay ]} [] ["out"] [])).2
      !! summary_file.
Proof.
  destruct (export_data_reads_two_files
              (World {[ "trips.csv" := trips_bad_pay; "notes.txt" := "n" ]} ["1"] [] [])
              (World {[ "trips.csv" := trips_bad_pay ]} [] ["out"] []))
    as (_ & Hsame & _);
    [ vm_compute; reflexivity | vm_compute; reflexivity | vm_compute; reflexivity
    | vm_compute; reflexivity | vm_compute; reflexivity | vm_compute; reflexivity | ].
  exact Hsame.
Defined.

(** A trip whose miles are typed as [nan], and the export after it. *)
Lemma nan_miles_poison_total_witness :
  files (log_trip (H:=minute_datetime)
           (World ∅ ["T1"; "Ann"; "company"; "2024-01-01 08:00"; "2024-01-01 10:30";
                     "nan"; "n"] [] [])).2
  = {[ "trips.csv" :=
        writerows [trip_header;
                   ["T1"; "Ann"; "company"; "2024-01-01T08:00:00-05:00";
                    "2024-01-01T10:30:00-05:00"; "2.50"; "nan"; "nan"; "0.00"; EmptyString]] ]}
  /\ files (export_data
              (World {[ "trips.csv" :=
                         writerows [trip_header;
                                    ["T1"; "Ann"; "company"; "2024-01-01T08:00:00-05:00";
                                     "2024-01-01T10:30:00-05:00"; "2.50"; "nan"; "nan"; "0.00";
                                     EmptyString];
                                    trip_row_T1] ]} [] [] [])).2 !! summary_file
     = Some (writerows [["Metric"; "Amount"]; ["Total Miles"; "nan"];
                        ["Total Pay"; "$nan"]; ["Total Expenses"; "$0.00"]]).
Proof.
  split; [vm_compute; reflexivity|].
  destruct (nan_miles_poison_total
              {[ "trips.csv" :=
                   writerows [trip_header;
                              ["T1"; "Ann"; "company"; "2024-01-01T08:00:00-05:00";
                               "2024-01-01T10:30:00-05:00"; "2.50"; "nan"; "nan"; "0.00";
                               EmptyString];
                              trip_row_T1] ]}
              [["T1"; "Ann"; "company"; "2024-01-01T08:00:00-05:00";
                "2024-01-01T10:30:00-05:00"; "2.50"; "nan"; "nan"; "0.00"; EmptyString];
               trip_row_T1]
              ["T1"; "Ann"; "company"; "2024-01-01T08:00:00-05:00";
               "2024-01-01T10:30:00-05:00"; "2.50"; "nan"; "nan"; "0.00"; EmptyString]
              "nan" nan [] [] [])
    as (_ & _ & tm & tp & te & Htrips & Hexpenses & Hsummary);
    [ vm_compute; reflexivity | vm_compute; reflexivity | vm_compute; reflexivity
    | vm_compute; reflexivity | vm_compute; reflexivity
    | apply list_elem_of_here | reflexivity | reflexivity | reflexivity | ].
  vm_compute in Htrips. injection Htrips as <- <-.
  vm_compute in Hexpenses. injection Hexpenses as <-.
  rewrite Hsummary. vm_compute. reflexivity.
Defined.

(** A row with Miles 10.00 and a Pay that is no number, after the header
    alone: the miles are in the summary, the row is not passed over. *)
Lemma trip_row_contribution_witness :
  files (export_data (World {[ "trips.csv" := writerows [trip_header] ]} [] [] [])).2
    !! summary_file
  = Some (writerows [["Metric"; "Amount"]; ["Total Miles"; "0.00"];
                     ["Total Pay"; "$0.00"]; ["Total Expenses"; "$0.00"]])
  /\ files (export_data (World {[ "trips.csv" := trips_bad_pay ]} [] [] [])).2 !! summary_file
     = Some (writerows [["Metric"; "Amount"]; ["Total Miles"; "10.00"];
                        ["Total Pay"; "$0.00"]; ["Total Expenses"; "$0.00"]]).
Proof.
  destruct (trip_row_contribution
              (World {[ "trips.csv" := writerows [trip_header] ]} [] [] [])
              (World {[ "trips.csv" := trips_bad_pay ]} [] [] []) []
              ["T1"; "Ann"; "company"; "2024-01-01T08:00:00-05:00";
               "2024-01-01T10:30:00-05:00"; "2.50"; "10.00"; "abc"; "0.00"; EmptyString])
    as (tm & tp & te & Htotals & Hexpenses & Hbefore & Hafter);
    [ vm_compute; reflexivity | vm_compute; reflexivity | vm_compute; reflexivity
    | vm_compute; reflexivity | vm_compute; reflexivity | vm_compute; reflexivity
    | discriminate | ].
  vm_compute in Htotals. injection Htotals as <- <-.
  vm_compute in Hexpenses. injection Hexpenses as <-.
  split.
  - rewrite Hbefore. vm_compute. reflexivity.
  - rewrite Hafter. vm_compute. reflexivity.
Defined.

(** A description of 131073 characters in [expenses.csv], one more than the
    reader takes: the export reports an error and the summary of an earlier
    export stays. *)
Lemma export_data_over_field_limit_witness :
  export_data long_expense_world
  = (Ok tt,
     World (files long_expense_world) []
       ["An error occurred during data export. Check the log for details."]
       [(ERROR, "Unexpected error in export_data: %s")])
  /\ files (export_data long_expense_world).2 !! summary_file = Some "kept".
Proof.
  destruct (export_data_over_field_limit long_expense_world "expenses.csv" expense_header
              [["2024-01-05"; "Ann"; "10.00"; long_description]]) as [_ Hrun].
  - by right.
  - unfold long_expense_world. cbn [files]. apply lookup_insert_eq.
  - vm_compute. reflexivity.
  - split; [exact Hrun|]. rewrite Hrun. cbn [files snd].
    unfold long_expense_world. cbn [files]. by rewrite lookup_insert_ne, lookup_singleton_eq.
Defined.

End LoggerFacts.

(** ** The update watcher *)

Module UpdaterFacts.
Import Updater.

Ltac run :=
  unfold shutil_copy, shutil_move, os_remove, read_text, write_text, modify_files, read_bytes,
    path_exists, time_strftime, with_files, raise, mbind, M_bind, mret, M_ret, fmap, M_fmap in *;
  cbn [files clock tick fst snd] in *.

(** *** Paths *)

Lemma norm_no_slash s : has_slash s = false -> norm s = s.
Proof.
  destruct s as [|c [|c2 s]]; try done. simpl.
  intros [_ [Hc2 _]%orb_false_elim]%orb_false_elim. by rewrite Hc2, andb_false_r.
Qed.

Lemma norm_watched file :
  has_slash file = false -> norm (path_join VariantA.WATCH_FOLDER file) = file.
Proof.
  intros Hf. unfold path_join. rewrite (has_slash_not_absolute _ Hf).
  change (norm (String "." (String "/" file)) = file). simpl. by apply norm_no_slash.
Qed.

Lemma norm_inbox file :
  has_slash file = false ->
  norm (path_join VariantB.BACKUP_FOLDER file) = "backups/" +:+ file.
Proof. intros Hf. unfold path_join. by rewrite (has_slash_not_absolute _ Hf). Qed.

(** *** Text *)

Lemma universal_newlines_empty s : universal_newlines s = EmptyString -> s = EmptyString.
Proof. destruct s as [|c s]; [done|]. simpl. by destruct (Ascii.eqb c CR). Qed.

Lemma readlines_from_nil s : forall cur, readlines_from cur s = [] -> cur = [] /\ s = EmptyString.
Proof.
  induction s as [|c s IH]; intros cur; simpl.
  - by destruct cur.
  - destruct (Ascii.eqb c LF); [done|]. intros [Hcur _]%IH. by destruct cur.
Qed.

Lemma readlines_nil text : readlines text = [] <-> text = EmptyString.
Proof.
  split; [|by intros ->]. by intros [_ ?]%readlines_from_nil.
Qed.


(** *** Variant A *)

Section WithDifflib.
Context `{Difflib}.
Import VariantA.

Lemma backup_key ts :
  norm (path_join BACKUP_FOLDER ("Road_Hawk_" +:+ ts +:+ ".bak"))
  = "backups/Road_Hawk_" +:+ ts +:+ ".bak".
Proof. reflexivity. Qed.

Lemma not_main_file file : endswith file ".update.py" = true -> file <> "Road_Hawk.py".
Proof. by intros Hf ->. Qed.

Lemma not_backup_key file ts :
  has_slash file = false -> file <> "backups/Road_Hawk_" +:+ ts +:+ ".bak".
Proof. by intros Hf ->. Qed.

Lemma detect_changes_absent w new_code :
  files w !! "Road_Hawk.py" = None -> detect_changes new_code w = (Ok PyTrue, w).
Proof.
  intros Hmain. unfold detect_changes. run.
  change (norm MAIN_FILE) with "Road_Hawk.py". by rewrite Hmain.
Qed.

Lemma detect_changes_present w new_code target :
  files w !! "Road_Hawk.py" = Some target ->
  detect_changes new_code w
  = (Ok match unified_diff (readlines (universal_newlines target)) (splitlines new_code) with
        | [] => PyNone
        | diff => PyList diff
        end, w).
Proof.
  intros Hmain. unfold detect_changes. run.
  change (norm MAIN_FILE) with "Road_Hawk.py". rewrite Hmain. cbn. rewrite Hmain.
  by destruct (unified_diff _ _).
Qed.

Lemma unified_diff_cons_nil line old : unified_diff (line :: old) [] <> [].
Proof.
  intros Hd. destruct (unified_diff_nil (line :: old) []) as [Hto _].
  specialize (Hto Hd). discriminate Hto.
Qed.

(** C3, amended. A zero-byte candidate in the watched folder, where the
    target exists: when the target is empty too there is no diff, the target
    stays as it is, no backup is made and the candidate is deleted; when the
    target has any content, the diff is not empty, the target is copied to a
    timestamped backup and then overwritten by the empty text, and the
    candidate is deleted. *)
Theorem zero_byte_update (w : world) (file target : string) :
  has_slash file = false -> endswith file ".update.py" = true ->
  files w !! file = Some EmptyString ->
  files w !! "Road_Hawk.py" = Some target ->
  (target = EmptyString ->
     detect_changes EmptyString w = (Ok PyNone, w)
     /\ process_file file w = (Ok tt, World (delete file (files w)) (clock w) (tick w)))
  /\ (target <> EmptyString ->
     (exists diff, detect_changes EmptyString w = (Ok (PyList diff), w) /\ diff <> [])
     /\ process_file file w
        = (Ok tt,
           World (delete file
                    (<["Road_Hawk.py" := EmptyString]>
                       (<["backups/Road_Hawk_" +:+ strftime (clock w (tick w)) +:+ ".bak" := target]>
                          (files w))))
             (clock w) (S (tick w)))).
Proof.
  intros Hslash Hsuffix Hfile Hmain. destruct w as [fs clk t]. cbn [files clock tick] in *.
  pose proof (not_main_file _ Hsuffix) as Hne.
  split.
  - intros ->.
    assert (detect_changes EmptyString (World fs clk t) = (Ok PyNone, World fs clk t)) as Hdetect.
    { rewrite (detect_changes_present _ _ EmptyString) by done. cbn.
      by rewrite (proj2 (unified_diff_nil [] []) eq_refl). }
    split; [done|].
    unfold process_file, update_code. rewrite Hsuffix. run.
    rewrite norm_watched by done. rewrite Hfile. cbn. rewrite Hdetect. cbn.
    by rewrite Hfile.
  - intros Htarget.
    destruct (readlines (universal_newlines target)) as [|line old] eqn:Hold.
    { apply readlines_nil, universal_newlines_empty in Hold. done. }
    destruct (unified_diff (line :: old) []) as [|d diff] eqn:Hdiff.
    { by apply unified_diff_cons_nil in Hdiff. }
    assert (detect_changes EmptyString (World fs clk t)
            = (Ok (PyList (d :: diff)), World fs clk t)) as Hdetect.
    { rewrite (detect_changes_present _ _ target) by done. rewrite Hold. cbn.
      by rewrite Hdiff. }
    split; [by eexists|].
    unfold process_file, update_code, backup_current_version. rewrite Hsuffix. run.
    rewrite norm_watched by done. rewrite Hfile. cbn. rewrite Hdetect. cbn.
    change (norm MAIN_FILE) with "Road_Hawk.py". rewrite Hmain. cbn.
    rewrite backup_key.
    rewrite lookup_insert_ne by done.
    rewrite lookup_insert_ne by (by apply not_eq_sym, not_backup_key).
    by rewrite Hfile.
Qed.

(** On a fresh install the backup step raises: there is no file to copy. *)
Lemma fresh_install_raises (w : world) (file code : string) :
  has_slash file = false -> endswith file ".update.py" = true ->
  files w !! file = Some code ->
  files w !! "Road_Hawk.py" = None ->
  detect_changes (universal_newlines code) w = (Ok PyTrue, w)
  /\ process_file file w = (Raise FileNotFoundError, World (files w) (clock w) (S (tick w))).
Proof.
  intros Hslash Hsuffix Hfile Hmain. destruct w as [fs clk t]. cbn [files clock tick] in *.
  split; [by apply detect_changes_absent|].
  unfold process_file, update_code, backup_current_version. rewrite Hsuffix. run.
  rewrite norm_watched by done. rewrite Hfile. cbn.
  rewrite detect_changes_absent by done. cbn.
  change (norm MAIN_FILE) with "Road_Hawk.py". by rewrite Hmain.
Qed.

(** Where the target exists and differs, it is copied to the backup before
    it is overwritten. *)
Lemma update_code_backs_up (w : world) (new_code target : string) :
  files w !! "Road_Hawk.py" = Some target ->
  readlines (universal_newlines target) <> splitlines new_code ->
  update_code new_code w
  = (Ok tt,
     World (<["Road_Hawk.py" := new_code]>
              (<["backups/Road_Hawk_" +:+ strftime (clock w (tick w)) +:+ ".bak" := target]>
                 (files w)))
       (clock w) (S (tick w))).
Proof.
  intros Hmain Hdiff. destruct w as [fs clk t]. cbn [files clock tick] in *.
  unfold update_code, backup_current_version.
  unfold mbind at 1, M_bind at 1. rewrite (detect_changes_present _ _ target) by done.
  destruct (unified_diff _ _) as [|d diff] eqn:Hd.
  { destruct (unified_diff_nil (readlines (universal_newlines target)) (splitlines new_code))
      as [Hto _]. by specialize (Hto Hd). }
  run. cbn. change (norm MAIN_FILE) with "Road_Hawk.py". rewrite Hmain. cbn.
  by rewrite backup_key.
Qed.

End WithDifflib.

(** *** Variant B *)

Lemma keeps_ret key {A} (a : A) : keeps key (mret a).
Proof. by intros w. Qed.

Lemma keeps_bind key {A B} (m : M world A) (f : A -> M world B) :
  keeps key m -> (forall a, keeps key (f a)) -> keeps key (m ≫= f).
Proof.
  intros Hm Hf w. unfold mbind, M_bind. specialize (Hm w).
  destruct (m w) as [[a|e] w1]; cbn in *; [|done]. by rewrite Hf.
Qed.

Lemma keeps_modify key f :
  (forall fs : gmap string string, f fs !! key = fs !! key) -> keeps key (modify_files f).
Proof. intros Hf w. apply Hf. Qed.

Lemma keeps_read_bytes key path : keeps key (read_bytes path).
Proof. intros w. unfold read_bytes. by destruct (files w !! norm path). Qed.

Lemma keeps_path_exists key path : keeps key (path_exists path).
Proof. by intros w. Qed.

Lemma keeps_strftime key : keeps key time_strftime.
Proof. by intros w. Qed.

Lemma keeps_for_each key {A} (body : A -> M world unit) l :
  (forall x, keeps key (body x)) -> keeps key (for_each l body).
Proof.
  intros Hbody. induction l as [|x l IH]; [apply keeps_ret|].
  cbn [for_each]. apply keeps_bind; [apply Hbody | by intros _].
Qed.

Lemma keeps_shutil_copy key src dst : key <> norm dst -> keeps key (shutil_copy src dst).
Proof.
  intros Hne. apply keeps_bind; [apply keeps_read_bytes|]. intros text.
  apply keeps_modify. intros fs. by rewrite lookup_insert_ne.
Qed.

Lemma keeps_shutil_move key src dst :
  key <> norm src -> key <> norm dst -> keeps key (shutil_move src dst).
Proof.
  intros Hsrc Hdst. apply keeps_bind; [apply keeps_read_bytes|]. intros text.
  apply keeps_modify. intros fs. by rewrite lookup_insert_ne, lookup_delete_ne.
Qed.

Section VariantB.
Import VariantB.

Lemma inbox_key file name :
  file <> name -> "backups/" +:+ name <> norm (path_join BACKUP_FOLDER file).
Proof.
  intros Hne. unfold path_join. destruct (is_absolute file) eqn:Habs.
  - destruct file as [|c file]; [done|]. cbn in Habs. apply Ascii.eqb_eq in Habs as ->.
    destruct file as [|c2 file]; cbn; intros [=].
  - intros [=]. done.
Qed.

Lemma archive_key name p :
  "backups/" +:+ name <> norm (path_join ARCHIVE_FOLDER p) \/ is_absolute p = true.
Proof.
  unfold path_join. destruct (is_absolute p); [by right|]. left. intros [=].
Qed.

Lemma keeps_apply_python_update file name :
  file <> name ->
  keeps ("backups/" +:+ name) (apply_python_update (path_join BACKUP_FOLDER file)).
Proof.
  intros Hne. unfold apply_python_update.
  apply keeps_bind; [apply keeps_strftime|]. intros ts.
  apply keeps_bind; [apply keeps_path_exists|]. intros main_exists.
  apply keeps_bind.
  - destruct main_exists; [|apply keeps_ret].
    apply keeps_shutil_copy. intros [=].
  - intros _. apply keeps_shutil_move; [by apply inbox_key | intros [=]].
Qed.

Lemma keeps_archive_file file name :
  file <> name ->
  keeps ("backups/" +:+ name) (archive_file (path_join BACKUP_FOLDER file)).
Proof.
  intros Hne. unfold archive_file. apply keeps_shutil_move; [by apply inbox_key|].
  destruct (archive_key name (basename (path_join BACKUP_FOLDER file))) as [?|Habs]; [done|].
  by rewrite (has_slash_not_absolute _ (has_slash_basename _)) in Habs.
Qed.

Lemma process_file_skips name :
  endswith name ".py" = false -> endswith name ".txt" = false ->
  endswith name ".docx" = false ->
  process_file name = mret tt.
Proof. intros Hpy Htxt Hdocx. unfold process_file. by rewrite Hpy, Htxt, Hdocx. Qed.

Lemma keeps_process_file file name :
  endswith name ".py" = false -> endswith name ".txt" = false ->
  endswith name ".docx" = false ->
  keeps ("backups/" +:+ name) (process_file file).
Proof.
  intros Hpy Htxt Hdocx. destruct (decide (file = name)) as [->|Hne].
  - rewrite process_file_skips by done. apply keeps_ret.
  - unfold process_file. destruct (endswith file ".py"); [by apply keeps_apply_python_update|].
    destruct (endswith file ".txt" || endswith file ".docx"); [by apply keeps_archive_file|].
    apply keeps_ret.
Qed.

(** What [os.listdir] lists. *)
Lemma strip_prefix_Some p : forall s name, strip_prefix p s = Some name -> s = p +:+ name.
Proof.
  induction p as [|a p IH]; intros s name; cbn.
  - by intros [= ->].
  - destruct s as [|b s]; [done|]. destruct (Ascii.eqb_spec a b) as [->|]; [|done].
    intros ->%IH. reflexivity.
Qed.

Lemma strip_prefix_app p name : strip_prefix p (p +:+ name) = Some name.
Proof.
  induction p as [|a p IH]; [by destruct name|]. rewrite app_String. cbn.
  by rewrite Ascii.eqb_refl.
Qed.

Lemma entries_inbox (fs : gmap string string) name :
  name ∈ entries BACKUP_FOLDER fs
  <-> has_slash name = false /\ is_Some (fs !! ("backups/" +:+ name)).
Proof.
  unfold entries. rewrite list_elem_of_omap. split.
  - intros (key & Hkey & Hname).
    change (norm (path_join BACKUP_FOLDER EmptyString)) with "backups/" in Hname.
    destruct (strip_prefix "backups/" key) as [n|] eqn:Hn; [|done]. cbn in Hname.
    destruct (has_slash n) eqn:Hs; [done|]. injection Hname as ->.
    apply strip_prefix_Some in Hn as ->. split; [done|].
    apply list_elem_of_In, in_map_iff in Hkey as ([k text] & Hk & Hin). cbn in Hk. subst k.
    apply list_elem_of_In, elem_of_map_to_list in Hin. by eexists.
  - intros [Hs [text Htext]]. exists ("backups/" +:+ name). split.
    + apply list_elem_of_In, in_map_iff. exists ("backups/" +:+ name, text). split; [done|].
      by apply list_elem_of_In, elem_of_map_to_list.
    + change (norm (path_join BACKUP_FOLDER EmptyString)) with "backups/".
      rewrite strip_prefix_app. cbn. by rewrite Hs.
Qed.

(** C10. A file of the inbox whose name ends in none of [.py], [.txt] and
    [.docx]: its own turn in the loop changes nothing at all, the turns of
    the other files leave it where it is with the content it has, whatever
    they are and whether or not one of them raises, and after the scan it is
    still listed, so the next scan meets it again. *)
Theorem other_suffix_untouched (w : world) (name : string) :
  has_slash name = false ->
  endswith name ".py" = false -> endswith name ".txt" = false ->
  endswith name ".docx" = false ->
  process_file name w = (Ok tt, w)
  /\ (forall names,
        files (for_each names process_file w).2 !! ("backups/" +:+ name)
        = files w !! ("backups/" +:+ name))
  /\ files (scan w).2 !! ("backups/" +:+ name) = files w !! ("backups/" +:+ name)
  /\ (name ∈ entries BACKUP_FOLDER (files w) ->
      name ∈ entries BACKUP_FOLDER (files (scan w).2)).
Proof.
  intros Hslash Hpy Htxt Hdocx.
  assert (keeps ("backups/" +:+ name) scan) as Hscan.
  { apply keeps_bind; [by intros ?|]. intros names.
    apply keeps_for_each. intros file. by apply keeps_process_file. }
  split; [by rewrite process_file_skips|].
  split; [intros names; apply keeps_for_each; intros file; by apply keeps_process_file|].
  split; [apply Hscan|].
  rewrite !entries_inbox, Hscan. done.
Qed.

End VariantB.

(** *** Runs *)

(** C3, as stated, fails: the target has one line, the zero-byte candidate
    differs from it, so the target is backed up and emptied. *)
Lemma zero_byte_update_erases_target :
  VariantA.process_file (H:=whole_file_diff) "x.update.py" world_zero_byte
  = (Ok tt,
     World {[ "Road_Hawk.py" := EmptyString;
              "backups/Road_Hawk_20240305-090701.bak" := one_line "print(1)" ]}
       sample_clock 1).
Proof. vm_compute. reflexivity. Qed.

Lemma zero_byte_update_witness :
  VariantA.process_file (H:=whole_file_diff) "x.update.py" world_both_empty
  = (Ok tt, World {[ "Road_Hawk.py" := EmptyString ]} sample_clock 0)
  /\ VariantA.process_file (H:=whole_file_diff) "x.update.py" world_zero_byte
     = (Ok tt,
        World {[ "Road_Hawk.py" := EmptyString;
                 "backups/Road_Hawk_20240305-090701.bak" := one_line "print(1)" ]}
          sample_clock 1).
Proof.
  split.
  - destruct (zero_byte_update (H:=whole_file_diff) world_both_empty "x.update.py" EmptyString
                eq_refl eq_refl eq_refl eq_refl) as [Hsame _].
    destruct (Hsame eq_refl) as [_ ->]. vm_compute. reflexivity.
  - destruct (zero_byte_update (H:=whole_file_diff) world_zero_byte "x.update.py"
                (one_line "print(1)") eq_refl eq_refl eq_refl eq_refl) as [_ Hdiffers].
    destruct Hdiffers as [_ ->]; [discriminate|]. vm_compute. reflexivity.
Defined.

(** C6, at the failing input: a candidate and no target. The change is
    detected as a fresh install, the backup step raises, nothing is
    installed, the candidate stays, and the exception leaves the scan and
    the watcher. *)
Theorem fresh_install_crashes :
  VariantA.detect_changes (H:=whole_file_diff) (one_line "print(2)") world_fresh
  = (Ok VariantA.PyTrue, world_fresh)
  /\ VariantA.process_file (H:=whole_file_diff) "x.update.py" world_fresh
     = (Raise FileNotFoundError, World (files world_fresh) sample_clock 1)
  /\ VariantA.scan (H:=whole_file_diff) world_fresh
     = (Raise FileNotFoundError, World (files world_fresh) sample_clock 1)
  /\ VariantA.monitor_folder (H:=whole_file_diff) 3 world_fresh
     = (Raise FileNotFoundError, World (files world_fresh) sample_clock 1).
Proof. repeat split; vm_compute; reflexivity. Qed.

(** C5, at the failing input: without a target, Variant A's backup has
    nothing to copy and raises, and so does the update; Variant B skips the
    backup and installs. *)
Theorem backup_without_target :
  VariantA.backup_current_version world_fresh
  = (Raise FileNotFoundError, World (files world_fresh) sample_clock 1)
  /\ VariantA.update_code (H:=whole_file_diff) (one_line "print(2)") world_fresh
     = (Raise FileNotFoundError, World (files world_fresh) sample_clock 1)
  /\ VariantB.apply_python_update "backups/x.py" world_fresh_inbox
     = (Ok tt, World {[ "Road_Hawk.py" := one_line "print(2)" ]} sample_clock 1).
Proof. repeat split; vm_compute; reflexivity. Qed.

(** Variant B, where the target exists: it is copied to the archive under a
    timestamped name, then replaced by the update, which leaves the inbox. *)
Lemma apply_python_update_backs_up (w : world) (file code target : string) :
  has_slash file = false ->
  files w !! ("backups/" +:+ file) = Some code ->
  files w !! "Road_Hawk.py" = Some target ->
  VariantB.apply_python_update (path_join VariantB.BACKUP_FOLDER file) w
  = (Ok tt,
     World (<["Road_Hawk.py" := code]>
              (delete ("backups/" +:+ file)
                 (<["archive/Road_Hawk.py_" +:+ strftime (clock w (tick w)) +:+ ".bak" := target]>
                    (files w))))
       (clock w) (S (tick w))).
Proof.
  intros Hslash Hfile Hmain. destruct w as [fs clk t]. cbn [files clock tick] in *.
  unfold VariantB.apply_python_update. run. rewrite norm_inbox by done.
  change (norm VariantB.MAIN_SCRIPT) with "Road_Hawk.py". rewrite Hmain. cbn.
  rewrite Hmain. cbn.
  change (norm (path_join VariantB.ARCHIVE_FOLDER
                  (VariantB.MAIN_SCRIPT +:+ "_" +:+ strftime (clk t) +:+ ".bak")))
    with ("archive/Road_Hawk.py_" +:+ strftime (clk t) +:+ ".bak").
  rewrite lookup_insert_ne by (intros [=]). by rewrite Hfile.
Qed.

Lemma other_suffix_untouched_witness :
  files (VariantB.scan world_inbox).2 !! "backups/old.bak" = Some "o"
  /\ VariantB.process_file "old.bak" world_inbox = (Ok tt, world_inbox)
  /\ "old.bak" ∈ entries VariantB.BACKUP_FOLDER (files (VariantB.scan world_inbox).2).
Proof.
  destruct (other_suffix_untouched world_inbox "old.bak" eq_refl eq_refl eq_refl eq_refl)
    as (Hown & _ & Hscan & Hlisted).
  split; [exact Hscan|]. split; [exact Hown|].
  apply Hlisted. vm_compute. apply list_elem_of_In. simpl. tauto.
Defined.

(** What the scan of this inbox does to the other files. *)
Lemma scan_world_inbox :
  VariantB.scan world_inbox
  = (Ok tt,
     World {[ "Road_Hawk.py" := one_line "print(2)";
              "archive/Road_Hawk.py_20240305-090701.bak" := one_line "print(1)";
              "archive/notes.txt" := "n"; "backups/old.bak" := "o" ]}
       sample_clock 1).
Proof. vm_compute. reflexivity. Qed.

(** *** The timestamp has the resolution of a second *)

Lemma pad_checked (width : nat) (bound : Z) n :
  forallb (fun k => Nat.eqb (String.length (pad width (Z.of_nat k))) width
                    && (digits_value 0 (pad width (Z.of_nat k)) =? Z.of_nat k))
          (seq 0 (Z.to_nat bound)) = true ->
  0 <= n < bound ->
  String.length (pad width n) = width /\ digits_value 0 (pad width n) = n.
Proof.
  intros Hall Hn. rewrite forallb_forall in Hall.
  specialize (Hall (Z.to_nat n)). rewrite Z2Nat.id in Hall by lia.
  assert (In (Z.to_nat n) (seq 0 (Z.to_nat bound))) as Hin by (apply in_seq; lia).
  apply Hall, andb_prop in Hin as [Hlen Hval].
  split; [by apply Nat.eqb_eq | by apply Z.eqb_eq].
Qed.

Lemma pad_2 n :
  0 <= n < 100 -> String.length (pad 2 n) = 2%nat /\ digits_value 0 (pad 2 n) = n.
Proof. apply (pad_checked 2 100). vm_compute. reflexivity. Qed.

Lemma pad_4 n :
  0 <= n < 10000 -> String.length (pad 4 n) = 4%nat /\ digits_value 0 (pad 4 n) = n.
Proof. apply (pad_checked 4 10000). vm_compute. reflexivity. Qed.

Lemma app_inv_length s1 : forall s2 r1 r2,
  String.length s1 = String.length s2 -> s1 +:+ r1 = s2 +:+ r2 -> s1 = s2 /\ r1 = r2.
Proof.
  induction s1 as [|c s1 IH]; intros [|d s2] r1 r2 Hlen Heq; try done.
  rewrite !app_String in Heq. injection Heq as -> Heq. injection Hlen as Hlen.
  destruct (IH _ _ _ Hlen Heq) as [-> ->]. done.
Qed.

(** Two times that differ, be it in the second only, give two timestamps,
    hence two backup names. *)
Lemma strftime_inj t1 t2 :
  in_range t1 -> in_range t2 -> strftime t1 = strftime t2 -> t1 = t2.
Proof.
  intros (Hy1 & Hm1 & Hd1 & Hh1 & Hn1 & Hs1) (Hy2 & Hm2 & Hd2 & Hh2 & Hn2 & Hs2).
  destruct t1 as [y1 m1 d1 h1 n1 s1], t2 as [y2 m2 d2 h2 n2 s2]. cbn in *.
  unfold strftime. cbn [tm_year tm_mon tm_mday tm_hour tm_min tm_sec]. intros Heq.
  destruct (pad_4 y1 Hy1) as [Ly1 Vy1], (pad_4 y2 Hy2) as [Ly2 Vy2].
  destruct (pad_2 m1 Hm1) as [Lm1 Vm1], (pad_2 m2 Hm2) as [Lm2 Vm2].
  destruct (pad_2 d1 Hd1) as [Ld1 Vd1], (pad_2 d2 Hd2) as [Ld2 Vd2].
  destruct (pad_2 h1 Hh1) as [Lh1 Vh1], (pad_2 h2 Hh2) as [Lh2 Vh2].
  destruct (pad_2 n1 Hn1) as [Ln1 Vn1], (pad_2 n2 Hn2) as [Ln2 Vn2].
  destruct (pad_2 s1 Hs1) as [Ls1 Vs1], (pad_2 s2 Hs2) as [Ls2 Vs2].
  apply app_inv_length in Heq as [Ey Heq]; [|congruence].
  apply app_inv_length in Heq as [Em Heq]; [|congruence].
  apply app_inv_length in Heq as [Ed Heq]; [|congruence].
  apply (app_inv_length "-" "-") in Heq as [_ Heq]; [|done].
  apply app_inv_length in Heq as [Eh Heq]; [|congruence].
  rewrite <- (app_Empty_r (pad 2 s1)), <- (app_Empty_r (pad 2 s2)) in Heq.
  apply app_inv_length in Heq as [En Heq]; [|congruence].
  apply app_inv_length in Heq as [Es _]; [|congruence].
  f_equal; congruence.
Qed.

(** *** Lines: [readlines] against [splitlines] *)

Lemma length_str_of l : String.length (str_of l) = length l.
Proof. induction l as [|c l IH]; [done|]. cbn. by rewrite <- IH. Qed.

Lemma line_of_snoc cur c : line_of (cur ++ [c]) = [str_of (cur ++ [c])].
Proof. by destruct cur. Qed.

(** A text without carriage returns is read as it is. *)
Lemma universal_newlines_id s :
  all_chars (fun c => negb (Ascii.eqb c CR)) s = true -> universal_newlines s = s.
Proof.
  induction s as [|c s IH]; [done|]. cbn. intros [Hc Hs]%andb_prop.
  apply negb_true_iff in Hc. rewrite Hc. by rewrite IH.
Qed.

(** Where the line feed is the only line boundary, the two ways of cutting
    a text into lines agree. *)
Lemma readlines_splitlines s : forall cur,
  all_chars (fun c => negb (line_boundary c) || Ascii.eqb c LF) s = true ->
  readlines_from cur s = splitlines_from cur s.
Proof.
  induction s as [|c s IH]; intros cur; [done|]. cbn [all_chars readlines_from splitlines_from].
  intros [Hc Hs]%andb_prop.
  destruct (Ascii.eqb_spec c LF) as [->|Hlf].
  - change (Ascii.eqb LF CR) with false. change (line_boundary LF) with true. cbn iota.
    by rewrite IH.
  - rewrite orb_false_r in Hc. apply negb_true_iff in Hc. rewrite Hc.
    destruct (Ascii.eqb_spec c CR) as [->|_]; [done|]. by apply IH.
Qed.

Lemma lf_only_no_cr s :
  all_chars (fun c => negb (line_boundary c) || Ascii.eqb c LF) s = true ->
  all_chars (fun c => negb (Ascii.eqb c CR)) s = true.
Proof.
  apply all_chars_impl. intros c Hc. destruct (Ascii.eqb_spec c CR) as [->|]; [done|done].
Qed.

(** The first line [readlines] cuts takes in at least one more character. *)
Lemma readlines_first_line s : forall cur,
  s <> EmptyString ->
  exists line lines,
    readlines_from cur s = line :: lines /\ (length cur < String.length line)%nat.
Proof.
  induction s as [|c s IH]; intros cur Hs; [done|]. cbn [readlines_from].
  destruct (Ascii.eqb c LF).
  - eexists _, _. split; [done|]. rewrite length_str_of, length_app. cbn. lia.
  - destruct s as [|d s].
    + cbn [readlines_from]. rewrite line_of_snoc. eexists _, _. split; [done|].
      rewrite length_str_of, length_app. cbn. lia.
    + destruct (IH (cur ++ [c])) as (line & lines & -> & Hlen); [done|].
      eexists _, _. split; [done|]. rewrite length_app in Hlen. cbn in Hlen. lia.
Qed.

(** A line boundary other than the line feed, before the last character,
    is a cut for [splitlines] alone. *)
Lemma readlines_splitlines_differ p : forall cur c q,
  all_chars (fun c => negb (Ascii.eqb c CR)) (p +:+ String c q) = true ->
  line_boundary c = true -> c <> LF -> q <> EmptyString ->
  readlines_from cur (p +:+ String c q) <> splitlines_from cur (p +:+ String c q).
Proof.
  assert (forall cur c s, Ascii.eqb c CR = false -> line_boundary c = true -> c <> LF ->
            s <> EmptyString ->
            readlines_from cur (String c s) <> splitlines_from cur (String c s)) as Hcut.
  { intros cur c s Hcr Hb Hlf Hs. cbn [readlines_from splitlines_from].
    rewrite Hcr, Hb. destruct (Ascii.eqb_spec c LF) as [|_]; [done|].
    destruct (readlines_first_line s (cur ++ [c]) Hs) as (line & lines & -> & Hlen).
    intros [= -> _]. rewrite length_str_of in Hlen. lia. }
  induction p as [|a p IH]; intros cur c q Hcr Hb Hlf Hq.
  - rewrite app_Empty in *. cbn in Hcr. apply andb_prop in Hcr as [Hc _].
    apply negb_true_iff in Hc. by apply Hcut.
  - rewrite app_String in *. cbn [all_chars] in Hcr. apply andb_prop in Hcr as [Ha Hcr].
    apply negb_true_iff in Ha.
    destruct (line_boundary a) eqn:Hba.
    + destruct (Ascii.eqb_spec a LF) as [->|Hna].
      * cbn [readlines_from splitlines_from].
        change (Ascii.eqb LF LF) with true. change (Ascii.eqb LF CR) with false.
        change (line_boundary LF) with true. cbn iota.
        intros [= Heq]. by apply (IH [] c q).
      * apply Hcut; [done..|]. by destruct p.
    + cbn [readlines_from splitlines_from]. rewrite Ha, Hba.
      destruct (Ascii.eqb_spec a LF) as [->|_]; [done|]. by apply IH.
Qed.

(** *** Backup names *)

Lemma length_append s t : String.length (s +:+ t) = (String.length s + String.length t)%nat.
Proof. induction s as [|c s IH]; [done|]. rewrite app_String. cbn. by rewrite IH. Qed.

Lemma strftime_length t : in_range t -> String.length (strftime t) = 15%nat.
Proof.
  intros (Hy & Hm & Hd & Hh & Hn & Hs). unfold strftime. rewrite !length_append.
  destruct (pad_4 _ Hy) as [-> _], (pad_2 _ Hm) as [-> _], (pad_2 _ Hd) as [-> _],
    (pad_2 _ Hh) as [-> _], (pad_2 _ Hn) as [-> _], (pad_2 _ Hs) as [-> _].
  reflexivity.
Qed.

(** Names built around two timestamps are the same only for the same time. *)
Lemma stamped_name_inj prefix suffix t1 t2 :
  in_range t1 -> in_range t2 ->
  prefix +:+ strftime t1 +:+ suffix = prefix +:+ strftime t2 +:+ suffix -> t1 = t2.
Proof.
  intros H1 H2 Heq. apply app_inv_length in Heq as [_ Heq]; [|done].
  apply app_inv_length in Heq as [Heq _]; [|by rewrite !strftime_length].
  by apply strftime_inj.
Qed.

(** *** Variant A: one candidate *)

Section VariantA.
Context `{Difflib}.
Import VariantA.

Lemma update_code_same w new_code target :
  files w !! "Road_Hawk.py" = Some target ->
  readlines (universal_newlines target) = splitlines new_code ->
  update_code new_code w = (Ok tt, w).
Proof.
  intros Hmain Hsame. unfold update_code.
  unfold mbind at 1, M_bind at 1. rewrite (detect_changes_present _ _ target) by done.
  rewrite Hsame, (proj2 (unified_diff_nil _ _) eq_refl). reflexivity.
Qed.

(** What the loop does with a candidate, where the target exists. *)
Lemma process_file_candidate w file code target :
  has_slash file = false -> endswith file ".update.py" = true ->
  files w !! file = Some code ->
  files w !! "Road_Hawk.py" = Some target ->
  process_file file w
  = if decide (readlines (universal_newlines target) = splitlines (universal_newlines code))
    then (Ok tt, World (delete file (files w)) (clock w) (tick w))
    else (Ok tt,
          World (delete file
                   (<["Road_Hawk.py" := universal_newlines code]>
                      (<["backups/Road_Hawk_" +:+ strftime (clock w (tick w)) +:+ ".bak" := target]>
                         (files w))))
            (clock w) (S (tick w))).
Proof.
  intros Hslash Hsuffix Hfile Hmain. pose proof (not_main_file _ Hsuffix) as Hne.
  unfold process_file. rewrite Hsuffix.
  unfold mbind at 1, M_bind at 1. unfold read_text, fmap, M_fmap, read_bytes.
  rewrite norm_watched by done. rewrite Hfile.
  unfold mbind at 1, M_bind at 1.
  destruct (decide (readlines (universal_newlines target) = splitlines (universal_newlines code)))
    as [Hsame|Hdiff].
  - rewrite (update_code_same _ _ target) by done.
    destruct w as [fs clk t]. run. rewrite norm_watched by done. cbn in Hfile. by rewrite Hfile.
  - rewrite (update_code_backs_up _ _ target) by done.
    destruct w as [fs clk t]. run. rewrite norm_watched by done. cbn in Hfile.
    rewrite lookup_insert_ne by done.
    rewrite lookup_insert_ne by (by apply not_eq_sym, not_backup_key).
    by rewrite Hfile.
Qed.

(** X12. A candidate that differs from the target is installed: the target as
    it was goes to the backup folder, byte for byte, under the timestamp of
    the moment; the target becomes the text of the candidate, its line ends
    all read as line feeds; the candidate is deleted; no other file changes
    and the clock is read once. Candidate and target are ASCII. *)
Theorem candidate_installed (w : world) (file code target : string) :
  has_slash file = false -> endswith file ".update.py" = true ->
  files w !! file = Some code ->
  files w !! "Road_Hawk.py" = Some target ->
  isascii code = true -> isascii target = true ->
  readlines (universal_newlines target) <> splitlines (universal_newlines code) ->
  process_file file w
  = (Ok tt,
     World (delete file
              (<["Road_Hawk.py" := universal_newlines code]>
                 (<["backups/Road_Hawk_" +:+ strftime (clock w (tick w)) +:+ ".bak" := target]>
                    (files w))))
       (clock w) (S (tick w))).
Proof.
  intros Hslash Hsuffix Hfile Hmain _ _ Hdiff.
  rewrite (process_file_candidate w file code target) by done.
  by destruct (decide _).
Qed.

(** X13. A candidate that reads as the target does, line by line, is deleted and
    nothing else happens: no backup, no write, no reading of the clock. The
    comparison is of lines read in text mode, so a target that differs from
    the candidate in its line ends alone counts as up to date and keeps the
    line ends it has. Candidate and target are ASCII. *)
Theorem candidate_up_to_date (w : world) (file code target : string) :
  has_slash file = false -> endswith file ".update.py" = true ->
  files w !! file = Some code ->
  files w !! "Road_Hawk.py" = Some target ->
  isascii code = true -> isascii target = true ->
  readlines (universal_newlines target) = splitlines (universal_newlines code) ->
  process_file file w = (Ok tt, World (delete file (files w)) (clock w) (tick w))
  /\ update_code (universal_newlines code) w = (Ok tt, w).
Proof.
  intros Hslash Hsuffix Hfile Hmain _ _ Hsame. split.
  - rewrite (process_file_candidate w file code target) by done. by destruct (decide _).
  - by apply (update_code_same _ _ target).
Qed.

(** X14. Installing is idempotent on a text whose only line boundaries are line
    feeds: once [update_code] has run on it, running it again finds the
    target up to date and changes nothing. The texts are ASCII. *)
Theorem update_code_idempotent (w : world) (new_code target : string) :
  files w !! "Road_Hawk.py" = Some target ->
  isascii target = true -> isascii new_code = true ->
  all_chars (fun c => negb (line_boundary c) || Ascii.eqb c LF) new_code = true ->
  exists w',
    update_code new_code w = (Ok tt, w')
    /\ detect_changes new_code w' = (Ok PyNone, w')
    /\ update_code new_code w' = (Ok tt, w').
Proof.
  intros Hmain _ _ Hlf.
  assert (readlines (universal_newlines new_code) = splitlines new_code) as Hagree.
  { rewrite universal_newlines_id by by apply lf_only_no_cr. by apply readlines_splitlines. }
  destruct (decide (readlines (universal_newlines target) = splitlines new_code))
    as [Hsame|Hdiff].
  - exists w. split; [by apply (update_code_same _ _ target)|].
    split; [|by apply (update_code_same _ _ target)].
    rewrite (detect_changes_present _ _ target) by done.
    by rewrite Hsame, (proj2 (unified_diff_nil _ _) eq_refl).
  - eexists. split; [by apply (update_code_backs_up _ _ target)|].
    split; [|apply (update_code_same _ _ new_code); [apply lookup_insert_eq | done]].
    rewrite (detect_changes_present _ _ new_code) by apply lookup_insert_eq.
    by rewrite Hagree, (proj2 (unified_diff_nil _ _) eq_refl).
Qed.

(** X15. A text with a line boundary other than the line feed (a form feed, a
    vertical tab, a file, group or record separator) before its last
    character is never up to date: [splitlines] cuts there and [readlines]
    does not, so the target is backed up and rewritten even by the text it
    already holds. The text is ASCII and has no carriage return. *)
Theorem inner_boundary_never_up_to_date (w : world) (p q : string) (c : ascii) :
  files w !! "Road_Hawk.py" = Some (p +:+ String c q) ->
  isascii (p +:+ String c q) = true ->
  all_chars (fun c => negb (Ascii.eqb c CR)) (p +:+ String c q) = true ->
  line_boundary c = true -> c <> LF -> q <> EmptyString ->
  (exists diff, detect_changes (p +:+ String c q) w = (Ok (PyList diff), w) /\ diff <> [])
  /\ update_code (p +:+ String c q) w
     = (Ok tt,
        World (<["Road_Hawk.py" := p +:+ String c q]>
                 (<["backups/Road_Hawk_" +:+ strftime (clock w (tick w)) +:+ ".bak"
                    := p +:+ String c q]> (files w)))
          (clock w) (S (tick w))).
Proof.
  intros Hmain _ Hcr Hb Hlf Hq.
  assert (readlines (universal_newlines (p +:+ String c q)) <> splitlines (p +:+ String c q))
    as Hdiff.
  { rewrite universal_newlines_id by done. by apply readlines_splitlines_differ. }
  split; [|by apply update_code_backs_up].
  rewrite (detect_changes_present _ _ (p +:+ String c q)) by done.
  destruct (unified_diff _ _) as [|d diff] eqn:Hd.
  - destruct (unified_diff_nil (readlines (universal_newlines (p +:+ String c q)))
                (splitlines (p +:+ String c q))) as [Hto _].
    by specialize (Hto Hd).
  - by eexists.
Qed.

(** X16. The backup is named by the second. Two updates whose readings of the
    clock are the same write their backups under one name: the second
    backup, of what the first update installed, replaces the first, and the
    target as it was before the two updates is in neither file. The texts
    are ASCII, and each update differs from what it finds. *)
Theorem same_second_backup_lost (w : world) (target code1 code2 : string) :
  files w !! "Road_Hawk.py" = Some target ->
  forallb isascii [target; code1; code2] = true ->
  readlines (universal_newlines target) <> splitlines code1 ->
  readlines (universal_newlines code1) <> splitlines code2 ->
  clock w (S (tick w)) = clock w (tick w) ->
  exists w',
    (update_code code1;; update_code code2) w = (Ok tt, w')
    /\ tick w' = S (S (tick w))
    /\ files w' !! "Road_Hawk.py" = Some code2
    /\ files w' !! ("backups/Road_Hawk_" +:+ strftime (clock w (tick w)) +:+ ".bak")
       = Some code1
    /\ forall key,
         key <> "Road_Hawk.py" ->
         key <> "backups/Road_Hawk_" +:+ strftime (clock w (tick w)) +:+ ".bak" ->
         files w' !! key = files w !! key.
Proof.
  intros Hmain _ Hd1 Hd2 Hclock. unfold mbind, M_bind.
  rewrite (update_code_backs_up _ _ target) by done.
  rewrite (update_code_backs_up _ _ code1) by (try apply lookup_insert_eq; done).
  cbn [files clock tick]. rewrite Hclock.
  eexists. split; [reflexivity|]. cbn [files tick].
  split; [done|]. split; [apply lookup_insert_eq|].
  split; [by rewrite lookup_insert_ne, lookup_insert_eq|].
  intros key Hk1 Hk2. by rewrite !lookup_insert_ne.
Qed.

(** X17. Two updates whose readings of the clock differ, each with its fields in
    the range of a calendar time, leave two backups: the target as it was
    before the first update, and what the first update installed. The texts
    are ASCII, and each update differs from what it finds. *)
Theorem distinct_seconds_keep_backups (w : world) (target code1 code2 : string) :
  files w !! "Road_Hawk.py" = Some target ->
  forallb isascii [target; code1; code2] = true ->
  readlines (universal_newlines target) <> splitlines code1 ->
  readlines (universal_newlines code1) <> splitlines code2 ->
  in_range (clock w (tick w)) -> in_range (clock w (S (tick w))) ->
  clock w (S (tick w)) <> clock w (tick w) ->
  exists w',
    (update_code code1;; update_code code2) w = (Ok tt, w')
    /\ files w' !! "Road_Hawk.py" = Some code2
    /\ files w' !! ("backups/Road_Hawk_" +:+ strftime (clock w (tick w)) +:+ ".bak")
       = Some target
    /\ files w' !! ("backups/Road_Hawk_" +:+ strftime (clock w (S (tick w))) +:+ ".bak")
       = Some code1.
Proof.
  intros Hmain _ Hd1 Hd2 Hr1 Hr2 Hclock. unfold mbind, M_bind.
  rewrite (update_code_backs_up _ _ target) by done.
  rewrite (update_code_backs_up _ _ code1) by (try apply lookup_insert_eq; done).
  cbn [files clock tick].
  eexists. split; [reflexivity|]. cbn [files].
  assert ("backups/Road_Hawk_" +:+ strftime (clock w (S (tick w))) +:+ ".bak"
          <> "backups/Road_Hawk_" +:+ strftime (clock w (tick w)) +:+ ".bak") as Hnames.
  { intros Heq. by apply stamped_name_inj in Heq. }
  split; [apply lookup_insert_eq|].
  split.
  - rewrite lookup_insert_ne by done. rewrite lookup_insert_ne by done.
    rewrite lookup_insert_ne by done. apply lookup_insert_eq.
  - rewrite lookup_insert_ne by done. apply lookup_insert_eq.
Qed.

End VariantA.

(** *** What [os.listdir] lists *)

Lemma NoDup_omap_inj {A B} (f : A -> option B) (l : list A) :
  (forall x y z, f x = Some z -> f y = Some z -> x = y) -> NoDup l -> NoDup (omap f l).
Proof.
  intros Hinj. induction 1 as [|x l Hx Hl IH]; cbn; [constructor|].
  destruct (f x) as [z|] eqn:Hfx; [|done]. constructor; [|done].
  intros (y & Hy & Hfy)%list_elem_of_omap. by rewrite (Hinj x y z Hfx Hfy) in Hx.
Qed.

Lemma NoDup_entries folder (fs : gmap string string) : NoDup (entries folder fs).
Proof.
  unfold entries. apply NoDup_omap_inj.
  - intros x y z Hx Hy.
    destruct (strip_prefix _ x) as [n|] eqn:Hn; [|done].
    destruct (strip_prefix _ y) as [n'|] eqn:Hn'; [|done]. cbn in Hx, Hy.
    destruct (has_slash n); [done|]. destruct (has_slash n'); [done|].
    injection Hx as ->. injection Hy as ->.
    apply strip_prefix_Some in Hn as ->. by apply strip_prefix_Some in Hn' as ->.
  - apply (NoDup_fst_map_to_list fs).
Qed.

Lemma entries_watched (fs : gmap string string) name :
  name ∈ entries VariantA.WATCH_FOLDER fs <-> has_slash name = false /\ is_Some (fs !! name).
Proof.
  unfold entries. rewrite list_elem_of_omap.
  change (norm (path_join VariantA.WATCH_FOLDER EmptyString)) with EmptyString. cbn [strip_prefix].
  split.
  - intros (key & Hkey & Hname). cbn in Hname.
    destruct (has_slash key) eqn:Hs; [done|]. injection Hname as ->. split; [done|].
    apply list_elem_of_In, in_map_iff in Hkey as ([k text] & Hk & Hin). cbn in Hk. subst k.
    apply list_elem_of_In, elem_of_map_to_list in Hin. by eexists.
  - intros [Hs [text Htext]]. exists name. split.
    + apply list_elem_of_In, in_map_iff. exists (name, text). split; [done|].
      by apply list_elem_of_In, elem_of_map_to_list.
    + cbn. by rewrite Hs.
Qed.

(** A loop over names that the body passes over changes nothing. *)
Lemma for_each_skip {A} (body : A -> M world unit) names w :
  (forall x, x ∈ names -> body x w = (Ok tt, w)) -> for_each names body w = (Ok tt, w).
Proof.
  induction names as [|x names IH]; intros Hskip; [done|].
  cbn [for_each]. unfold mbind, M_bind. rewrite Hskip by apply list_elem_of_here.
  apply IH. intros y Hy. apply Hskip. by apply list_elem_of_further.
Qed.

(** *** Variant B: one file of the inbox *)

Section VariantB.
Import VariantB.

Lemma basename_in_folder dir file :
  has_slash file = false -> basename (dir +:+ String "/" file) = file.
Proof.
  intros Hf. induction dir as [|c dir IH].
  - rewrite app_Empty. cbn. by rewrite Hf.
  - rewrite app_String. cbn [basename].
    assert (has_slash (dir +:+ String "/" file) = true) as ->; [|done].
    clear IH. induction dir as [|d dir IH]; [done|]. rewrite app_String. cbn.
    by rewrite IH, orb_true_r.
Qed.

Lemma apply_python_update_run (w : world) (file code : string) :
  has_slash file = false ->
  files w !! ("backups/" +:+ file) = Some code ->
  apply_python_update (path_join BACKUP_FOLDER file) w
  = (Ok tt,
     World (<["Road_Hawk.py" := code]>
              (delete ("backups/" +:+ file)
                 match files w !! "Road_Hawk.py" with
                 | Some target =>
                     <["archive/Road_Hawk.py_" +:+ strftime (clock w (tick w)) +:+ ".bak"
                       := target]> (files w)
                 | None => files w
                 end))
       (clock w) (S (tick w))).
Proof.
  intros Hslash Hfile. destruct (files w !! "Road_Hawk.py") as [target|] eqn:Hmain.
  - by apply apply_python_update_backs_up.
  - destruct w as [fs clk t]. cbn [files clock tick] in *.
    unfold apply_python_update. run. rewrite norm_inbox by done.
    change (norm MAIN_SCRIPT) with "Road_Hawk.py". rewrite Hmain. cbn. by rewrite Hfile.
Qed.

Lemma archive_file_run (w : world) (file text : string) :
  has_slash file = false ->
  files w !! ("backups/" +:+ file) = Some text ->
  archive_file (path_join BACKUP_FOLDER file) w
  = (Ok tt,
     World (<["archive/" +:+ file := text]> (delete ("backups/" +:+ file) (files w)))
       (clock w) (tick w)).
Proof.
  intros Hslash Hfile. destruct w as [fs clk t]. cbn [files clock tick] in *.
  assert (path_join BACKUP_FOLDER file = "backups" +:+ String "/" file) as Hpath.
  { unfold path_join. by rewrite (has_slash_not_absolute _ Hslash). }
  unfold archive_file. rewrite Hpath, basename_in_folder by done. rewrite <- Hpath.
  assert (norm (path_join ARCHIVE_FOLDER file) = "archive/" +:+ file) as Harchive.
  { unfold path_join. by rewrite (has_slash_not_absolute _ Hslash). }
  run. rewrite norm_inbox, Harchive by done. by rewrite Hfile.
Qed.

End VariantB.

(** *** Variant B: the scan *)

Section ScanB.
Import VariantB.

Lemma keeps_process_file_other file name :
  file <> name -> keeps ("backups/" +:+ name) (process_file file).
Proof.
  intros Hne. unfold process_file.
  destruct (endswith file ".py"); [by apply keeps_apply_python_update|].
  destruct (endswith file ".txt" || endswith file ".docx"); [by apply keeps_archive_file|].
  apply keeps_ret.
Qed.

Lemma process_file_step w file :
  has_slash file = false -> is_Some (files w !! ("backups/" +:+ file)) ->
  exists w',
    process_file file w = (Ok tt, w')
    /\ files w' !! ("backups/" +:+ file)
       = (if endswith file ".py" || endswith file ".txt" || endswith file ".docx"
          then None else files w !! ("backups/" +:+ file))
    /\ forall name, file <> name ->
         files w' !! ("backups/" +:+ name) = files w !! ("backups/" +:+ name).
Proof.
  intros Hslash [text Hfile].
  assert (forall w', (process_file file w).2 = w' ->
            forall name, file <> name ->
              files w' !! ("backups/" +:+ name) = files w !! ("backups/" +:+ name)) as Hkeeps.
  { intros w' <- name Hne. by apply keeps_process_file_other. }
  unfold process_file in *. destruct (endswith file ".py") eqn:Hpy.
  - rewrite (apply_python_update_run w file text) in * by done.
    eexists. split; [done|]. split; [|by apply Hkeeps]. cbn.
    rewrite lookup_insert_ne by done. apply lookup_delete_eq.
  - rewrite orb_false_l.
    destruct (endswith file ".txt" || endswith file ".docx") eqn:Hdoc.
    + rewrite (archive_file_run w file text) in * by done.
      eexists. split; [done|]. split; [|by apply Hkeeps]. cbn [files].
      rewrite lookup_insert_ne by done. apply lookup_delete_eq.
    + exists w. split; [done|]. split; [done|]. by apply Hkeeps.
Qed.

(** The loop over a listing, in the order of the listing: every name that
    the loop deals with is a file of the inbox. *)
Lemma for_each_process_file names : forall w,
  NoDup names ->
  (forall n, n ∈ names ->
     endswith n ".py" || endswith n ".txt" || endswith n ".docx" = true ->
     has_slash n = false /\ is_Some (files w !! ("backups/" +:+ n))) ->
  exists w',
    for_each names process_file w = (Ok tt, w')
    /\ forall n,
         files w' !! ("backups/" +:+ n)
         = if bool_decide (n ∈ names)
              && (endswith n ".py" || endswith n ".txt" || endswith n ".docx")
           then None else files w !! ("backups/" +:+ n).
Proof.
  induction names as [|x names IH]; intros w Hnodup Hnames.
  { exists w. split; [done|]. intros n. by rewrite bool_decide_eq_false_2 by apply not_elem_of_nil. }
  apply NoDup_cons in Hnodup as [Hx Hnodup].
  assert (exists w1,
            process_file x w = (Ok tt, w1)
            /\ files w1 !! ("backups/" +:+ x)
               = (if endswith x ".py" || endswith x ".txt" || endswith x ".docx"
                  then None else files w !! ("backups/" +:+ x))
            /\ forall name, x <> name ->
                 files w1 !! ("backups/" +:+ name) = files w !! ("backups/" +:+ name))
    as (w1 & Hrun & Hown & Hothers).
  { destruct (endswith x ".py" || endswith x ".txt" || endswith x ".docx") eqn:Hsuffix.
    - destruct (Hnames x) as [Hslash Hsome]; [apply list_elem_of_here | done |].
      destruct (process_file_step w x Hslash Hsome) as (w1 & Hrun & Hown & Hothers).
      exists w1. by rewrite Hown, Hsuffix.
    - apply orb_false_elim in Hsuffix as [[Hpy Htxt]%orb_false_elim Hdocx].
      exists w. by rewrite process_file_skips. }
  destruct (IH w1 Hnodup) as (w' & Hloop & Hrest).
  { intros n Hn Hsuffix. destruct (Hnames n) as [Hs Hex]; [by apply list_elem_of_further | done |].
    split; [done|]. rewrite Hothers; [done|]. by intros ->. }
  exists w'. split.
  { cbn [for_each]. unfold mbind, M_bind. by rewrite Hrun. }
  intros n. rewrite Hrest. destruct (decide (n = x)) as [->|Hne].
  - rewrite (bool_decide_eq_false_2 (x ∈ names)) by done.
    rewrite (bool_decide_eq_true_2 (x ∈ x :: names)) by apply list_elem_of_here. cbn.
    rewrite Hown. by destruct (_ || _).
  - rewrite Hothers by done.
    destruct (decide (n ∈ names)) as [Hin|Hnin].
    + rewrite !bool_decide_eq_true_2; [done | by apply list_elem_of_further | done].
    + rewrite !bool_decide_eq_false_2; [done | | done].
      by intros [?|?]%elem_of_cons.
Qed.

(** X21. One turn of the watcher, for whatever [os.listdir] returns and in
    whatever order it returns it: a listing without repetition, in which
    every name that ends in [.py], [.txt] or [.docx] is a file of the inbox,
    whatever the other names are, those of subfolders included. The loop
    over the listing never raises. It moves away every such file and leaves
    the rest of the inbox as it was, so that a later listing, with no file
    dropped since, has nothing the loop deals with: the watcher is at rest
    after one scan. *)
Theorem scan_clears_inbox (w : world) (names : list string) :
  NoDup names ->
  (forall name, name ∈ names ->
     endswith name ".py" || endswith name ".txt" || endswith name ".docx" = true ->
     has_slash name = false /\ is_Some (files w !! ("backups/" +:+ name))) ->
  exists w',
    for_each names process_file w = (Ok tt, w')
    /\ (forall name,
          files w' !! ("backups/" +:+ name)
          = if bool_decide (name ∈ names)
               && (endswith name ".py" || endswith name ".txt" || endswith name ".docx")
            then None else files w !! ("backups/" +:+ name))
    /\ forall later,
         (forall name, name ∈ later ->
            endswith name ".py" || endswith name ".txt" || endswith name ".docx" = true ->
            name ∈ names /\ is_Some (files w' !! ("backups/" +:+ name))) ->
         for_each later process_file w' = (Ok tt, w').
Proof.
  intros Hnodup Hnames.
  destruct (for_each_process_file names w Hnodup Hnames) as (w' & Hloop & Hfiles).
  exists w'. split; [done|]. split; [done|].
  intros later Hlater. apply for_each_skip. intros name Hname.
  destruct (endswith name ".py" || endswith name ".txt" || endswith name ".docx") eqn:Hsuffix.
  - destruct (Hlater name Hname Hsuffix) as [Hin Hsome].
    rewrite Hfiles, Hsuffix, bool_decide_eq_true_2 in Hsome by done. by destruct Hsome.
  - apply orb_false_elim in Hsuffix as [[Hpy Htxt]%orb_false_elim Hdocx].
    by rewrite process_file_skips.
Qed.

(** X19. A file of the inbox whose name ends in [.py] is installed whether or
    not it differs from the target: the target, where there is one, is
    copied to the archive folder under the timestamp of the moment, and the
    file is moved onto the target, byte for byte, which takes it out of the
    inbox. Without a target nothing is archived and the file is installed
    all the same. *)
Theorem python_update_installed (w : world) (file code : string) :
  has_slash file = false -> endswith file ".py" = true ->
  files w !! ("backups/" +:+ file) = Some code ->
  process_file file w
  = (Ok tt,
     World (<["Road_Hawk.py" := code]>
              (delete ("backups/" +:+ file)
                 match files w !! "Road_Hawk.py" with
                 | Some target =>
                     <["archive/Road_Hawk.py_" +:+ strftime (clock w (tick w)) +:+ ".bak"
                       := target]> (files w)
                 | None => files w
                 end))
       (clock w) (S (tick w))).
Proof.
  intros Hslash Hpy Hfile. unfold process_file. rewrite Hpy.
  by apply apply_python_update_run.
Qed.

(** X20. A file of the inbox whose name ends in [.txt] or [.docx] is moved to
    the archive folder under its own name, with its content; a file of that
    name archived before is replaced. The target is not touched and the
    clock is not read. *)
Theorem document_archived (w : world) (file text : string) :
  has_slash file = false -> endswith file ".py" = false ->
  endswith file ".txt" || endswith file ".docx" = true ->
  files w !! ("backups/" +:+ file) = Some text ->
  process_file file w
  = (Ok tt,
     World (<["archive/" +:+ file := text]> (delete ("backups/" +:+ file) (files w)))
       (clock w) (tick w)).
Proof.
  intros Hslash Hpy Hdoc Hfile. unfold process_file. rewrite Hpy, Hdoc.
  by apply archive_file_run.
Qed.

(** X22. The archive copy of the target is named by the second too. Two Python
    files of the inbox installed at one reading of the clock, as the files of
    one scan are: the second installation archives what the first installed
    under the name the first used, and the target as it was before is in
    neither file. *)
Theorem same_second_archive_lost (w : world) (file1 file2 code1 code2 target : string) :
  has_slash file1 = false -> has_slash file2 = false -> file1 <> file2 ->
  endswith file1 ".py" = true -> endswith file2 ".py" = true ->
  files w !! ("backups/" +:+ file1) = Some code1 ->
  files w !! ("backups/" +:+ file2) = Some code2 ->
  files w !! "Road_Hawk.py" = Some target ->
  clock w (S (tick w)) = clock w (tick w) ->
  exists w',
    (process_file file1;; process_file file2) w = (Ok tt, w')
    /\ files w' !! "Road_Hawk.py" = Some code2
    /\ files w' !! ("archive/Road_Hawk.py_" +:+ strftime (clock w (tick w)) +:+ ".bak")
       = Some code1
    /\ files w' !! ("backups/" +:+ file1) = None
    /\ files w' !! ("backups/" +:+ file2) = None
    /\ forall key,
         key <> "Road_Hawk.py" ->
         key <> "archive/Road_Hawk.py_" +:+ strftime (clock w (tick w)) +:+ ".bak" ->
         key <> "backups/" +:+ file1 -> key <> "backups/" +:+ file2 ->
         files w' !! key = files w !! key.
Proof.
  intros Hs1 Hs2 Hne Hpy1 Hpy2 Hf1 Hf2 Hmain Hclock.
  assert ("backups/" +:+ file1 <> "backups/" +:+ file2) as Hkeys by (by intros [= ?]).
  unfold mbind, M_bind, process_file. rewrite Hpy1, Hpy2.
  rewrite (apply_python_update_run w file1 code1), Hmain by done.
  rewrite (apply_python_update_run _ file2 code2); [|done|]; cbn [files clock tick].
  2:{ rewrite lookup_insert_ne, lookup_delete_ne, lookup_insert_ne by done. done. }
  rewrite lookup_insert_eq, Hclock.
  eexists. split; [reflexivity|]. cbn [files].
  split; [apply lookup_insert_eq|].
  split; [by rewrite lookup_insert_ne, lookup_delete_ne, lookup_insert_eq|].
  split.
  { rewrite lookup_insert_ne, lookup_delete_ne, lookup_insert_ne, lookup_insert_ne by done.
    apply lookup_delete_eq. }
  split; [rewrite lookup_insert_ne by done; apply lookup_delete_eq|].
  intros key Hk1 Hk2 Hk3 Hk4.
  by rewrite lookup_insert_ne, lookup_delete_ne, lookup_insert_ne, lookup_insert_ne,
    lookup_delete_ne, lookup_insert_ne.
Qed.

End ScanB.

(** *** Variant A: the scan *)

Section ScanA.
Context `{Difflib}.
Import VariantA.

Lemma process_file_passes file w :
  endswith file ".update.py" = false -> process_file file w = (Ok tt, w).
Proof. intros Hsuffix. unfold process_file. by rewrite Hsuffix. Qed.

Lemma candidate_step w file :
  has_slash file = false -> is_Some (files w !! file) -> is_Some (files w !! "Road_Hawk.py") ->
  exists w',
    process_file file w = (Ok tt, w')
    /\ is_Some (files w' !! "Road_Hawk.py")
    /\ files w' !! file
       = (if endswith file ".update.py" then None else files w !! file)
    /\ forall key, has_slash key = false -> key <> file -> key <> "Road_Hawk.py" ->
         files w' !! key = files w !! key.
Proof.
  intros Hslash [code Hfile] [target Hmain].
  destruct (endswith file ".update.py") eqn:Hsuffix.
  - pose proof (not_main_file _ Hsuffix) as Hne.
    rewrite (process_file_candidate w file code target) by done.
    destruct (decide _) as [Hsame|Hdiff]; eexists; (split; [reflexivity|]); cbn [files].
    + split; [by rewrite lookup_delete_ne, Hmain|].
      split; [apply lookup_delete_eq|].
      intros key _ Hk _. by rewrite lookup_delete_ne.
    + split; [by rewrite lookup_delete_ne, lookup_insert_eq|].
      split; [apply lookup_delete_eq|].
      intros key Hks Hk Hkm. rewrite lookup_delete_ne, lookup_insert_ne by done.
      rewrite lookup_insert_ne; [done|]. by apply not_eq_sym, not_backup_key.
  - rewrite process_file_passes by done. exists w. by rewrite Hmain.
Qed.

(** The loop over a listing, in the order of the listing: every candidate
    of the listing is a file of the working folder. *)
Lemma for_each_candidates names : forall w,
  NoDup names ->
  (forall n, n ∈ names -> endswith n ".update.py" = true ->
     has_slash n = false /\ is_Some (files w !! n)) ->
  is_Some (files w !! "Road_Hawk.py") ->
  exists w',
    for_each names process_file w = (Ok tt, w')
    /\ is_Some (files w' !! "Road_Hawk.py")
    /\ forall key, has_slash key = false -> key <> "Road_Hawk.py" ->
         files w' !! key
         = if bool_decide (key ∈ names) && endswith key ".update.py"
           then None else files w !! key.
Proof.
  induction names as [|x names IH]; intros w Hnodup Hnames Hmain.
  { exists w. split; [done|]. split; [done|]. intros key _ _.
    by rewrite bool_decide_eq_false_2 by apply not_elem_of_nil. }
  apply NoDup_cons in Hnodup as [Hx Hnodup].
  assert (exists w1,
            process_file x w = (Ok tt, w1)
            /\ is_Some (files w1 !! "Road_Hawk.py")
            /\ (has_slash x = false ->
                files w1 !! x = (if endswith x ".update.py" then None else files w !! x))
            /\ forall key, has_slash key = false -> key <> x -> key <> "Road_Hawk.py" ->
                 files w1 !! key = files w !! key)
    as (w1 & Hrun & Hmain1 & Hown & Hothers).
  { destruct (endswith x ".update.py") eqn:Hsuffix.
    - destruct (Hnames x) as [Hslash Hsome]; [apply list_elem_of_here | done |].
      destruct (candidate_step w x Hslash Hsome Hmain) as (w1 & Hrun & Hmain1 & Hown & Hothers).
      exists w1. by rewrite Hown, Hsuffix.
    - exists w. by rewrite process_file_passes. }
  destruct (IH w1 Hnodup) as (w' & Hloop & Hmain' & Hrest); [|done|].
  { intros n Hn Hsuffix.
    destruct (Hnames n) as [Hs Hex]; [by apply list_elem_of_further | done |].
    split; [done|].
    rewrite Hothers; [done | done | by intros -> | by apply not_main_file]. }
  exists w'. split.
  { cbn [for_each]. unfold mbind, M_bind. by rewrite Hrun. }
  split; [done|].
  intros key Hks Hkm. rewrite Hrest by done. destruct (decide (key = x)) as [->|Hne].
  - rewrite (bool_decide_eq_false_2 (x ∈ names)) by done.
    rewrite (bool_decide_eq_true_2 (x ∈ x :: names)) by apply list_elem_of_here. cbn.
    rewrite Hown by done. by destruct (endswith x ".update.py").
  - rewrite Hothers by done.
    destruct (decide (key ∈ names)) as [Hin|Hnin].
    + rewrite !bool_decide_eq_true_2; [done | by apply list_elem_of_further | done].
    + rewrite !bool_decide_eq_false_2; [done | | done].
      by intros [?|?]%elem_of_cons.
Qed.

(** X18. One turn of the watcher where the target exists, for whatever
    [os.listdir] returns and in whatever order it returns it: a listing
    without repetition, in which every name that ends in [.update.py] is a
    file of the working folder, whatever the other names are, those of
    subfolders included. The loop over the listing never raises: it deals
    with every candidate, installing or passing over it, and deletes it; the
    target is still there; the other files of the folder are as they were;
    and a later listing, with no file dropped since, has no candidate, so
    the watcher is at rest after one scan. The files of the folder are
    ASCII. *)
Theorem scan_consumes_candidates (w : world) (names : list string) :
  NoDup names ->
  (forall name, name ∈ names -> endswith name ".update.py" = true ->
     has_slash name = false /\ is_Some (files w !! name)) ->
  is_Some (files w !! "Road_Hawk.py") -> ascii_folder (files w) = true ->
  exists w',
    for_each names process_file w = (Ok tt, w')
    /\ is_Some (files w' !! "Road_Hawk.py")
    /\ (forall name, has_slash name = false -> name <> "Road_Hawk.py" ->
          files w' !! name
          = if bool_decide (name ∈ names) && endswith name ".update.py"
            then None else files w !! name)
    /\ forall later,
         (forall name, name ∈ later -> endswith name ".update.py" = true ->
            name ∈ names /\ has_slash name = false /\ is_Some (files w' !! name)) ->
         for_each later process_file w' = (Ok tt, w').
Proof.
  intros Hnodup Hnames Hmain _.
  destruct (for_each_candidates names w Hnodup Hnames Hmain) as (w' & Hloop & Hmain' & Hfiles).
  exists w'. split; [done|]. split; [done|]. split; [done|].
  intros later Hlater. apply for_each_skip. intros name Hname.
  destruct (endswith name ".update.py") eqn:Hsuffix; [|by apply process_file_passes].
  destruct (Hlater name Hname Hsuffix) as (Hin & Hslash & Hsome).
  rewrite Hfiles, Hsuffix, bool_decide_eq_true_2 in Hsome;
    [by destruct Hsome | done | done | by apply not_main_file].
Qed.

Lemma for_each_fresh names : forall w,
  files w !! "Road_Hawk.py" = None ->
  (forall n, n ∈ names -> has_slash n = false /\ is_Some (files w !! n)) ->
  for_each names process_file w
  = if existsb (fun n => endswith n ".update.py") names
    then (Raise FileNotFoundError, World (files w) (clock w) (S (tick w)))
    else (Ok tt, w).
Proof.
  induction names as [|x names IH]; intros w Hmain Hnames; [done|].
  destruct (Hnames x) as [Hslash [code Hfile]]; [apply list_elem_of_here|].
  cbn [for_each existsb]. unfold mbind, M_bind.
  destruct (endswith x ".update.py") eqn:Hsuffix.
  - by destruct (fresh_install_raises w x code Hslash Hsuffix Hfile Hmain) as [_ ->].
  - rewrite process_file_passes by done. cbn. apply IH; [done|].
    intros n Hn. apply Hnames. by apply list_elem_of_further.
Qed.

(** X23. Without a target, a scan of the working folder passes over the files
    that are no candidates and raises [FileNotFoundError] at the first
    candidate it meets, out of the backup step and after one reading of the
    clock: no file is written or deleted, the candidate is still there, and
    the exception leaves the watcher. With no candidate in the folder the
    scan changes nothing. The files of the folder are ASCII. *)
Theorem scan_without_target (w : world) :
  files w !! "Road_Hawk.py" = None -> ascii_folder (files w) = true ->
  ((forall name, name ∈ entries WATCH_FOLDER (files w) -> endswith name ".update.py" = false) ->
   scan w = (Ok tt, w))
  /\ (forall name,
        name ∈ entries WATCH_FOLDER (files w) -> endswith name ".update.py" = true ->
        scan w = (Raise FileNotFoundError, World (files w) (clock w) (S (tick w)))
        /\ forall turns,
             monitor_folder (S turns) w
             = (Raise FileNotFoundError, World (files w) (clock w) (S (tick w)))).
Proof.
  intros Hmain _.
  assert (scan w
          = if existsb (fun n => endswith n ".update.py") (entries WATCH_FOLDER (files w))
            then (Raise FileNotFoundError, World (files w) (clock w) (S (tick w)))
            else (Ok tt, w)) as Hscan.
  { unfold scan, listdir. unfold mbind, M_bind. apply for_each_fresh; [done|].
    intros n Hn. by apply entries_watched. }
  split.
  - intros Hnone. rewrite Hscan.
    destruct (existsb _ _) eqn:Hex; [|done].
    apply existsb_exists in Hex as (n & Hn & Hsuffix).
    apply list_elem_of_In, Hnone in Hn. congruence.
  - intros name Hname Hsuffix.
    assert (scan w = (Raise FileNotFoundError, World (files w) (clock w) (S (tick w)))) as Hraise.
    { rewrite Hscan.
      assert (existsb (fun n => endswith n ".update.py") (entries WATCH_FOLDER (files w)) = true)
        as ->; [|done].
      apply existsb_exists. exists name. split; [by apply list_elem_of_In | done]. }
    split; [done|]. intros turns. cbn [monitor_folder]. unfold mbind, M_bind. by rewrite Hraise.
Qed.

End ScanA.

(** *** Runs of the watcher *)

(** A candidate with CR LF line ends replaces a target of one line. *)
Lemma candidate_installed_witness :
  VariantA.process_file (H:=whole_file_diff) "x.update.py"
    (World {[ "Road_Hawk.py" := one_line "print(1)"; "x.update.py" := "print(2)" +:+ CRLF;
              "notes.txt" := "n" ]} sample_clock 0)
  = (Ok tt,
     World {[ "Road_Hawk.py" := one_line "print(2)";
              "backups/Road_Hawk_20240305-090701.bak" := one_line "print(1)";
              "notes.txt" := "n" ]} sample_clock 1).
Proof.
  rewrite (candidate_installed (H:=whole_file_diff) _ "x.update.py" ("print(2)" +:+ CRLF)
             (one_line "print(1)"));
    [ vm_compute; reflexivity | vm_compute; reflexivity .. | vm_compute; discriminate ].
Defined.

(** A target with CR LF line ends is up to date against the same lines
    with LF line ends, and keeps its line ends. *)
Lemma candidate_up_to_date_witness :
  VariantA.process_file (H:=whole_file_diff) "x.update.py"
    (World {[ "Road_Hawk.py" := "print(1)" +:+ CRLF; "x.update.py" := one_line "print(1)" ]}
       sample_clock 0)
  = (Ok tt, World {[ "Road_Hawk.py" := "print(1)" +:+ CRLF ]} sample_clock 0).
Proof.
  destruct (candidate_up_to_date (H:=whole_file_diff)
              (World {[ "Road_Hawk.py" := "print(1)" +:+ CRLF;
                        "x.update.py" := one_line "print(1)" ]} sample_clock 0)
              "x.update.py" (one_line "print(1)") ("print(1)" +:+ CRLF))
    as [Hrun _]; [vm_compute; reflexivity .. |].
  rewrite Hrun. vm_compute. reflexivity.
Defined.

Lemma update_code_idempotent_witness :
  exists w',
    VariantA.update_code (H:=whole_file_diff) (one_line "print(2)")
      (World {[ "Road_Hawk.py" := one_line "print(1)" ]} sample_clock 0)
    = (Ok tt, w')
    /\ VariantA.update_code (H:=whole_file_diff) (one_line "print(2)") w' = (Ok tt, w').
Proof.
  destruct (update_code_idempotent (H:=whole_file_diff)
              (World {[ "Road_Hawk.py" := one_line "print(1)" ]} sample_clock 0)
              (one_line "print(2)") (one_line "print(1)"))
    as (w' & Hrun & _ & Hagain); [vm_compute; reflexivity .. |].
  exists w'. split; [exact Hrun | exact Hagain].
Defined.

(** A target with a form feed between two lines, against itself. *)
Lemma inner_boundary_never_up_to_date_witness :
  VariantA.update_code (H:=whole_file_diff) ("a" +:+ String (chr 12) (one_line "b"))
    (World {[ "Road_Hawk.py" := "a" +:+ String (chr 12) (one_line "b") ]} sample_clock 0)
  = (Ok tt,
     World {[ "Road_Hawk.py" := "a" +:+ String (chr 12) (one_line "b");
              "backups/Road_Hawk_20240305-090701.bak"
                := "a" +:+ String (chr 12) (one_line "b") ]} sample_clock 1).
Proof.
  destruct (inner_boundary_never_up_to_date (H:=whole_file_diff)
              (World {[ "Road_Hawk.py" := "a" +:+ String (chr 12) (one_line "b") ]}
                 sample_clock 0)
              "a" (one_line "b") (chr 12))
    as [_ Hrun];
    [ vm_compute; reflexivity | reflexivity | vm_compute; reflexivity
    | vm_compute; reflexivity | discriminate | discriminate | ].
  rewrite Hrun. vm_compute. reflexivity.
Defined.

(** Two updates at one reading of the clock: the first line of the target
    is in no file afterwards. *)
Lemma same_second_backup_lost_witness :
  exists w',
    (VariantA.update_code (H:=whole_file_diff) (one_line "print(2)");;
     VariantA.update_code (H:=whole_file_diff) (one_line "print(3)"))
      (World {[ "Road_Hawk.py" := one_line "print(1)" ]} sample_clock 0)
    = (Ok tt, w')
    /\ files w' !! "Road_Hawk.py" = Some (one_line "print(3)")
    /\ files w' !! "backups/Road_Hawk_20240305-090701.bak" = Some (one_line "print(2)").
Proof.
  destruct (same_second_backup_lost (H:=whole_file_diff)
              (World {[ "Road_Hawk.py" := one_line "print(1)" ]} sample_clock 0)
              (one_line "print(1)") (one_line "print(2)") (one_line "print(3)"))
    as (w' & Hrun & _ & Hmain & Hbackup & _);
    [ vm_compute; reflexivity | reflexivity | vm_compute; discriminate
    | vm_compute; discriminate | reflexivity | ].
  exists w'. split; [exact Hrun|]. split; [exact Hmain | exact Hbackup].
Defined.

(** The same two updates, a second apart. *)
Lemma distinct_seconds_keep_backups_witness :
  exists w',
    (VariantA.update_code (H:=whole_file_diff) (one_line "print(2)");;
     VariantA.update_code (H:=whole_file_diff) (one_line "print(3)"))
      (World {[ "Road_Hawk.py" := one_line "print(1)" ]}
         (fun n => StructTime 2024 3 5 9 7 (Z.of_nat n)) 0)
    = (Ok tt, w')
    /\ files w' !! "Road_Hawk.py" = Some (one_line "print(3)")
    /\ files w' !! "backups/Road_Hawk_20240305-090700.bak" = Some (one_line "print(1)")
    /\ files w' !! "backups/Road_Hawk_20240305-090701.bak" = Some (one_line "print(2)").
Proof.
  destruct (distinct_seconds_keep_backups (H:=whole_file_diff)
              (World {[ "Road_Hawk.py" := one_line "print(1)" ]}
                 (fun n => StructTime 2024 3 5 9 7 (Z.of_nat n)) 0)
              (one_line "print(1)") (one_line "print(2)") (one_line "print(3)"))
    as (w' & Hrun & Hmain & Hfirst & Hsecond);
    [ vm_compute; reflexivity | reflexivity | vm_compute; discriminate
    | vm_compute; discriminate
    | cbn; unfold in_range; cbn; lia | cbn; unfold in_range; cbn; lia | discriminate | ].
  exists w'. split; [exact Hrun|]. split; [exact Hmain|]. split; [exact Hfirst | exact Hsecond].
Defined.

(** Two candidates and a note in the working folder, listed in some order
    together with the backup folder. *)
Lemma scan_consumes_candidates_witness :
  exists w',
    for_each ["notes.txt"; "b.update.py"; "backups"; "Road_Hawk.py"; "a.update.py"]
      (VariantA.process_file (H:=whole_file_diff))
      (World {[ "Road_Hawk.py" := one_line "print(1)"; "a.update.py" := one_line "print(2)";
                "b.update.py" := one_line "print(1)"; "notes.txt" := "n";
                "backups/old.bak" := "o" ]} sample_clock 0)
    = (Ok tt, w')
    /\ files w' !! "a.update.py" = None /\ files w' !! "b.update.py" = None
    /\ files w' !! "notes.txt" = Some "n".
Proof.
  destruct (scan_consumes_candidates (H:=whole_file_diff)
              (World {[ "Road_Hawk.py" := one_line "print(1)";
                        "a.update.py" := one_line "print(2)";
                        "b.update.py" := one_line "print(1)"; "notes.txt" := "n";
                        "backups/old.bak" := "o" ]} sample_clock 0)
              ["notes.txt"; "b.update.py"; "backups"; "Road_Hawk.py"; "a.update.py"])
    as (w' & Hrun & _ & Hfiles & _).
  - apply (bool_decide_eq_true_1 (NoDup _)). vm_compute. reflexivity.
  - intros name Hin Hsuffix.
    repeat (apply elem_of_cons in Hin as [-> | Hin]); try discriminate Hsuffix;
      [ split; [reflexivity | by eexists] .. | by apply not_elem_of_nil in Hin ].
  - by eexists.
  - vm_compute. reflexivity.
  - exists w'. split; [exact Hrun|].
    split; [by rewrite Hfiles|]. split; [by rewrite Hfiles|]. by rewrite Hfiles.
Defined.

(** The inbox with an update, a note and a file of another kind, listed in
    some order together with a subfolder. *)
Lemma scan_clears_inbox_witness :
  exists w',
    for_each ["old.bak"; "notes.txt"; "drafts"; "x.py"] VariantB.process_file world_inbox
    = (Ok tt, w')
    /\ files w' !! "backups/x.py" = None /\ files w' !! "backups/notes.txt" = None
    /\ files w' !! "backups/old.bak" = Some "o".
Proof.
  destruct (scan_clears_inbox world_inbox ["old.bak"; "notes.txt"; "drafts"; "x.py"])
    as (w' & Hrun & Hfiles & _).
  - apply (bool_decide_eq_true_1 (NoDup _)). vm_compute. reflexivity.
  - intros name Hin Hsuffix.
    repeat (apply elem_of_cons in Hin as [-> | Hin]); try discriminate Hsuffix;
      [ split; [reflexivity | by eexists] .. | by apply not_elem_of_nil in Hin ].
  - exists w'. split; [exact Hrun|].
    change "backups/x.py" with ("backups/" +:+ "x.py").
    change "backups/notes.txt" with ("backups/" +:+ "notes.txt").
    change "backups/old.bak" with ("backups/" +:+ "old.bak").
    split; [by rewrite Hfiles|]. split; [by rewrite Hfiles|]. by rewrite Hfiles.
Defined.

Lemma python_update_installed_witness :
  VariantB.process_file "x.py" world_inbox
  = (Ok tt,
     World {[ "Road_Hawk.py" := one_line "print(2)";
              "archive/Road_Hawk.py_20240305-090701.bak" := one_line "print(1)";
              "backups/notes.txt" := "n"; "backups/old.bak" := "o" ]} sample_clock 1)
  /\ VariantB.process_file "x.py" world_fresh_inbox
     = (Ok tt, World {[ "Road_Hawk.py" := one_line "print(2)" ]} sample_clock 1).
Proof.
  split.
  - rewrite (python_update_installed world_inbox "x.py" (one_line "print(2)"));
      vm_compute; reflexivity.
  - rewrite (python_update_installed world_fresh_inbox "x.py" (one_line "print(2)"));
      vm_compute; reflexivity.
Defined.

Lemma document_archived_witness :
  VariantB.process_file "notes.txt" world_inbox
  = (Ok tt,
     World {[ "Road_Hawk.py" := one_line "print(1)"; "backups/x.py" := one_line "print(2)";
              "archive/notes.txt" := "n"; "backups/old.bak" := "o" ]} sample_clock 0).
Proof.
  rewrite (document_archived world_inbox "notes.txt" "n"); vm_compute; reflexivity.
Defined.

(** Two Python files of one scan. *)
Lemma same_second_archive_lost_witness :
  exists w',
    (VariantB.process_file "a.py";; VariantB.process_file "b.py")
      (World {[ "Road_Hawk.py" := one_line "print(1)"; "backups/a.py" := one_line "print(2)";
                "backups/b.py" := one_line "print(3)" ]} sample_clock 0)
    = (Ok tt, w')
    /\ files w' !! "Road_Hawk.py" = Some (one_line "print(3)")
    /\ files w' !! "archive/Road_Hawk.py_20240305-090701.bak" = Some (one_line "print(2)").
Proof.
  destruct (same_second_archive_lost
              (World {[ "Road_Hawk.py" := one_line "print(1)";
                        "backups/a.py" := one_line "print(2)";
                        "backups/b.py" := one_line "print(3)" ]} sample_clock 0)
              "a.py" "b.py" (one_line "print(2)") (one_line "print(3)") (one_line "print(1)"))
    as (w' & Hrun & Hmain & Harchive & _);
    [ reflexivity | reflexivity | discriminate | reflexivity | reflexivity
    | vm_compute; reflexivity | vm_compute; reflexivity | vm_compute; reflexivity
    | reflexivity | ].
  exists w'. split; [exact Hrun|]. split; [exact Hmain | exact Harchive].
Defined.

(** A candidate and no target; a note and no target. *)
Lemma scan_without_target_witness :
  VariantA.scan (H:=whole_file_diff) world_fresh
  = (Raise FileNotFoundError, World (files world_fresh) sample_clock 1)
  /\ VariantA.scan (H:=whole_file_diff) (World {[ "notes.txt" := "n" ]} sample_clock 0)
     = (Ok tt, World {[ "notes.txt" := "n" ]} sample_clock 0).
Proof.
  split.
  - destruct (scan_without_target (H:=whole_file_diff) world_fresh) as [_ Hraises];
      [vm_compute; reflexivity | vm_compute; reflexivity |].
    destruct (Hraises "x.update.py") as [Hscan _]; [|reflexivity|exact Hscan].
    apply entries_watched. split; [reflexivity | by eexists].
  - destruct (scan_without_target (H:=whole_file_diff)
                (World {[ "notes.txt" := "n" ]} sample_clock 0)) as [Hpasses _];
      [vm_compute; reflexivity | vm_compute; reflexivity |].
    apply Hpasses. intros name [Hslash [text Htext]]%entries_watched.
    cbn [files] in Htext. apply lookup_singleton_Some in Htext as [<- _]. reflexivity.
Defined.

End UpdaterFacts.
